(** * Monthly preparation-fee report generator (MonthlyReportGenerator)

    A shallow embedding of [MonthlyReportGenerator] (generate, createFields,
    getSourceData, writeDataToNewTable) and of the JavaScript built-ins it
    calls, followed by the properties of the specification.

    - JavaScript numbers are IEEE-754 binary64 values: primitive floats.
    - The host table platform (the bitable SDK) is an arbitrary deterministic
      state machine; every call is recorded in a trace together with its
      outcome, and so is every console diagnostic.
    - Async functions are awaited one after the other, so a run is a
      sequential computation in a state-and-exception monad. *)

From Stdlib Require Import ZArith List String Bool Lia Floats.
From Stdlib Require Import DecimalString Permutation.
Import ListNotations.

Local Open Scope string_scope.
Local Open Scope list_scope.
Local Open Scope Z_scope.

(* ===================================================================== *)
(** * JavaScript values and built-ins *)
(* ===================================================================== *)

Module Js.

(** The values a cell read can deliver. [JObject] is a plain data object
    (such as the [{id, text}] option of a single-select cell): it has no
    [toString] or [valueOf] of its own. *)
Inductive JsValue : Type :=
| JUndefined
| JNull
| JBoolean (b : bool)
| JNumber (n : float)
| JString (s : string)
| JObject (props : list (string * string)).

(** What the engine decides and the language leaves to it: the numeric
    value of a string, the text of a number, the parse of a date string
    ([None] is an invalid date) and the local time-zone offset, in
    milliseconds, at a UTC instant. *)
Record Engine : Type := {
  StringToNumber : string -> float;
  NumberToString : float -> string;
  DateParse : string -> option Z;
  LocalTZA : Z -> Z
}.

Definition isNaN (n : float) : bool := negb (n =? n)%float.

(** [!v] is [negb (ToBoolean v)]. *)
Definition ToBoolean (v : JsValue) : bool :=
  match v with
  | JUndefined | JNull => false
  | JBoolean b => b
  | JNumber n => negb ((n =? 0)%float || isNaN n)
  | JString s => negb (String.eqb s "")
  | JObject _ => true
  end.

Definition objectToString : string := "[object Object]".

(** [Number(v)]. *)
Definition ToNumber (E : Engine) (v : JsValue) : float :=
  match v with
  | JUndefined => nan
  | JNull => 0%float
  | JBoolean b => if b then 1%float else 0%float
  | JNumber n => n
  | JString s => StringToNumber E s
  | JObject _ => StringToNumber E objectToString
  end.

(** [String(v)]. *)
Definition ToString (E : Engine) (v : JsValue) : string :=
  match v with
  | JUndefined => "undefined"
  | JNull => "null"
  | JBoolean b => if b then "true" else "false"
  | JNumber n => NumberToString E n
  | JString s => s
  | JObject _ => objectToString
  end.

(** The exact integer [sign * m * 2^e] truncated towards zero; [None] for
    NaN and the infinities. *)
Definition truncate (x : float) : option Z :=
  match Prim2SF x with
  | S754_zero _ => Some 0
  | S754_finite s m e => Some (cond_Zopp s (Z.shiftl (Zpos m) e))
  | S754_infinity _ | S754_nan => None
  end.

(** The float of an integer (exact below 2^53). *)
Definition ofZ (z : Z) : float := SF2Prim (binary_normalize prec emax z 0 false).

(** [Math.round]: the nearest integer, ties towards +infinity; NaN, the
    infinities, the zeros and integers are returned as they are, and a
    negative argument that rounds to zero gives -0. *)
Definition Math_round (x : float) : float :=
  match Prim2SF x with
  | S754_finite s m e =>
      if 0 <=? e then x
      else
        let n := Z.shiftr (2 * cond_Zopp s (Zpos m) + Z.shiftl 1 (- e)) (1 - e) in
        if n =? 0 then (if s then (-0)%float else 0%float) else ofZ n
  | _ => x
  end.

(** ** Dates (ECMA-262, Time Values and Time Range) *)

Definition msPerDay : Z := 86400000.
Definition maxTime : Z := 8640000000000000.

(** [TimeClip]; [None] stands for the NaN time value of an invalid date. *)
Definition TimeClip (n : float) : option Z :=
  match truncate n with
  | Some t => if Z.abs t <=? maxTime then Some t else None
  | None => None
  end.

(** [new Date(v)] for one argument: its time value. *)
Definition newDate (E : Engine) (v : JsValue) : option Z :=
  match v with
  | JString s => DateParse E s
  | JObject _ => DateParse E objectToString
  | _ => TimeClip (ToNumber E v)
  end.

Definition Day (t : Z) : Z := t / msPerDay.

Definition DaysInYear (y : Z) : Z :=
  if negb (y mod 4 =? 0) then 365
  else if negb (y mod 100 =? 0) then 366
  else if negb (y mod 400 =? 0) then 365
  else 366.

Definition DayFromYear (y : Z) : Z :=
  365 * (y - 1970) + (y - 1969) / 4 - (y - 1901) / 100 + (y - 1601) / 400.

(** The largest [y] with [DayFromYear y <= Day t]: the mean-year estimate
    is off by at most one. *)
Definition YearFromTime (t : Z) : Z :=
  let d := Day t in
  let y := 1970 + (d * 400) / 146097 in
  if d <? DayFromYear y then y - 1
  else if DayFromYear (y + 1) <=? d then y + 1
  else y.

Definition InLeapYear (t : Z) : Z :=
  if DaysInYear (YearFromTime t) =? 366 then 1 else 0.

Definition DayWithinYear (t : Z) : Z := Day t - DayFromYear (YearFromTime t).

Definition MonthFromTime (t : Z) : Z :=
  let d := DayWithinYear t in
  let leap := InLeapYear t in
  if d <? 31 then 0
  else if d <? 59 + leap then 1
  else if d <? 90 + leap then 2
  else if d <? 120 + leap then 3
  else if d <? 151 + leap then 4
  else if d <? 181 + leap then 5
  else if d <? 212 + leap then 6
  else if d <? 243 + leap then 7
  else if d <? 273 + leap then 8
  else if d <? 304 + leap then 9
  else if d <? 334 + leap then 10
  else 11.

Definition LocalTime (E : Engine) (t : Z) : Z := t + LocalTZA E t.

(** [date.getMonth()] and [date.getFullYear()] of a valid date. *)
Definition getMonth (E : Engine) (t : Z) : Z := MonthFromTime (LocalTime E t).
Definition getFullYear (E : Engine) (t : Z) : Z := YearFromTime (LocalTime E t).

(** [String(n)] for an integer [n]: its decimal digits. *)
Definition integerToString (z : Z) : string := NilZero.string_of_int (Z.to_int z).

End Js.
Import Js.

(** ** Plain objects used as dictionaries

    Own string-keyed properties in creation order. [Object.keys] and
    [Object.entries] list the keys that are array indices first, in
    ascending numeric order, then the others in creation order. An object
    literal has [Object.prototype] as its prototype: [o[key]] finds the
    members it inherits where it has no own property. *)

Module Obj.
Section Obj.
Context {V : Type}.

Definition t := list (string * V).

Fixpoint get (key : string) (o : t) : option V :=
  match o with
  | [] => None
  | (k, v) :: rest => if String.eqb k key then Some v else get key rest
  end.

(** [o[key] = v]: overwrite in place, or create the property last. *)
Fixpoint set (key : string) (v : V) (o : t) : t :=
  match o with
  | [] => [(key, v)]
  | (k, w) :: rest =>
      if String.eqb k key then (k, v) :: rest else (k, w) :: set key v rest
  end.

(** The names of the members of [Object.prototype] (ECMAScript, with its
    Annex B). Each is a function, but [__proto__], an accessor that
    returns [Object.prototype] itself: all are truthy objects that accept
    new properties. *)
Definition prototypeMembers : list string :=
  [ "constructor"; "__defineGetter__"; "__defineSetter__"; "hasOwnProperty";
    "__lookupGetter__"; "__lookupSetter__"; "isPrototypeOf";
    "propertyIsEnumerable"; "toString"; "valueOf"; "__proto__";
    "toLocaleString" ].

Definition inherited (key : string) : bool :=
  existsb (String.eqb key) prototypeMembers.

(** What [o[key]] finds on an object literal: an own property, a member
    inherited from [Object.prototype], or nothing ([undefined]). *)
Inductive Member : Type :=
| Own (v : V)
| Inherited
| Undefined.

Definition member (key : string) (o : t) : Member :=
  match get key o with
  | Some v => Own v
  | None => if inherited key then Inherited else Undefined
  end.

(** The array index a key denotes, if it is one: a canonical decimal
    numeral below 2^32 - 1. *)
Definition arrayIndex (key : string) : option Z :=
  match NilEmpty.uint_of_string key with
  | Some u =>
      let z := Z.of_uint u in
      if String.eqb (integerToString z) key && (z <=? 4294967294)
      then Some z else None
  | None => None
  end.

Fixpoint insertIndex (i : Z) (kv : string * V) (l : list (Z * (string * V)))
  : list (Z * (string * V)) :=
  match l with
  | [] => [(i, kv)]
  | (j, kw) :: rest =>
      if i <? j then (i, kv) :: l else (j, kw) :: insertIndex i kv rest
  end.

Fixpoint indexEntries (o : t) : list (Z * (string * V)) :=
  match o with
  | [] => []
  | kv :: rest =>
      match arrayIndex (fst kv) with
      | Some i => insertIndex i kv (indexEntries rest)
      | None => indexEntries rest
      end
  end.

Definition stringEntries (o : t) : t :=
  filter (fun kv => match arrayIndex (fst kv) with Some _ => false | None => true end) o.

(** [Object.entries(o)]. *)
Definition entries (o : t) : t := map snd (indexEntries o) ++ stringEntries o.

(** [Object.keys(o)]. *)
Definition keys (o : t) : list string := map fst (entries o).

End Obj.
Arguments t : clear implicits.
Arguments Member : clear implicits.
End Obj.

(* ===================================================================== *)
(** * The host table platform and the run-time machine *)
(* ===================================================================== *)

(** A thrown value: an [Error] instance (with its [name] and [message]) or
    anything else. *)
Inductive Thrown : Type :=
| ErrorObj (name message : string)
| NonError (v : JsValue).

(** [new Error(message)]. *)
Definition newError (message : string) : Thrown := ErrorObj "Error" message.

(** [error instanceof Error]. *)
Definition instanceofError (error : Thrown) : bool :=
  match error with ErrorObj _ _ => true | NonError _ => false end.

(** [String(error)], as in a template literal. *)
Definition ThrownToString (E : Engine) (error : Thrown) : string :=
  match error with
  | ErrorObj name message =>
      if String.eqb name "" then message
      else if String.eqb message "" then name
      else (name ++ ": " ++ message)%string
  | NonError v => ToString E v
  end.

(** The outcome of an awaited call: a value, or a rejection. *)
Inductive Result (A : Type) : Type :=
| Ok (a : A)
| Throw (error : Thrown).
Arguments Ok {A} a.
Arguments Throw {A} error.

Record ITable : Type := { table_id : string }.
Record IField : Type := { field_table : string; field_id : string }.
Record IFieldMeta : Type := { meta_id : string; meta_name : string }.

Inductive FieldType : Type := SingleSelect | Number | Currency.
Inductive NumberFormatter : Type := INTEGER | DIGITAL_ROUNDED_2.
Inductive CurrencyCode : Type := CNY.
Inductive FieldProperty : Type :=
| NoProperty
| FormatterProperty (formatter : NumberFormatter)
| CurrencyProperty (currencyCode : CurrencyCode).

Record IFieldConfig : Type := {
  cfg_type : FieldType;
  cfg_name : string;
  cfg_property : FieldProperty
}.

(** A record handed to [addRecords]: [{fields: {[fieldId]: value, ...}}],
    the properties in the order of the object literal. *)
Definition IRecordValue : Type := list (string * JsValue).

(** The host: a state [H] and the SDK calls the generator makes on it. A
    call returns its outcome together with the next host state; [None]
    stands for a null or undefined answer. [date_now] is the clock that
    [new Date()] reads. *)
Record HostOps (H : Type) : Type := {
  base_getTableById : string -> H -> Result (option ITable) * H;
  base_addTable : string -> H -> Result (option string) * H;
  table_addField : ITable -> IFieldConfig -> H -> Result unit * H;
  table_getFieldMetaList : ITable -> H -> Result (option (list IFieldMeta)) * H;
  table_getField : ITable -> string -> H -> Result IField * H;
  table_getRecordIdList : ITable -> H -> Result (option (list string)) * H;
  field_getValue : IField -> string -> H -> Result JsValue * H;
  table_addRecords : ITable -> list IRecordValue -> H -> Result unit * H;
  table_addRecord : ITable -> H -> Result string * H;
  field_setValue : IField -> string -> JsValue -> H -> Result unit * H;
  date_now : H -> Z
}.
Arguments base_getTableById {H}.
Arguments base_addTable {H}.
Arguments table_addField {H}.
Arguments table_getFieldMetaList {H}.
Arguments table_getField {H}.
Arguments table_getRecordIdList {H}.
Arguments field_getValue {H}.
Arguments table_addRecords {H}.
Arguments table_addRecord {H}.
Arguments field_setValue {H}.
Arguments date_now {H}.

Inductive Level : Type := LogLevel | WarnLevel | ErrorLevel.

(** What a run leaves behind: each host call with its arguments and
    outcome, and each console line with the thrown value passed along. *)
Inductive Event : Type :=
| EvGetTableById (id : string) (r : Result (option ITable))
| EvAddTable (name : string) (r : Result (option string))
| EvAddField (table : ITable) (config : IFieldConfig) (r : Result unit)
| EvGetFieldMetaList (table : ITable) (r : Result (option (list IFieldMeta)))
| EvGetField (table : ITable) (id : string) (r : Result IField)
| EvGetRecordIdList (table : ITable) (r : Result (option (list string)))
| EvGetValue (field : IField) (recordId : string) (r : Result JsValue)
| EvAddRecords (table : ITable) (records : list IRecordValue) (r : Result unit)
| EvAddRecord (table : ITable) (r : Result string)
| EvSetValue (field : IField) (recordId : string) (value : JsValue) (r : Result unit)
| EvConsole (level : Level) (message : string) (error : option Thrown).

(** The machine a function body runs on: the host, the trace so far (oldest
    event first) and the body's own mutable local variables. *)
Record Machine (H L : Type) : Type := {
  host : H;
  trace : list Event;
  locals : L
}.
Arguments host {H L}.
Arguments trace {H L}.
Arguments locals {H L}.

(** A computation that may throw; the machine survives a throw, so what a
    [try] block did before it threw is still done in the [catch]. *)
Definition M (H L A : Type) : Type := Machine H L -> Result A * Machine H L.

Section Monad.
Context {H L : Type}.

Definition ret {A} (a : A) : M H L A := fun s => (Ok a, s).

Definition bind {A B} (m : M H L A) (k : A -> M H L B) : M H L B :=
  fun s =>
    match m s with
    | (Ok a, s') => k a s'
    | (Throw error, s') => (Throw error, s')
    end.

Definition throw {A} (error : Thrown) : M H L A := fun s => (Throw error, s).

Definition tryCatch {A} (body : M H L A) (handler : Thrown -> M H L A) : M H L A :=
  fun s =>
    match body s with
    | (Ok a, s') => (Ok a, s')
    | (Throw error, s') => handler error s'
    end.

Definition emit (e : Event) : M H L unit :=
  fun s => (Ok tt, {| host := host s; trace := trace s ++ [e]; locals := locals s |}).

(** An awaited host call, recorded with its outcome. *)
Definition call {A} (op : H -> Result A * H) (ev : Result A -> Event) : M H L A :=
  fun s =>
    let '(r, h) := op (host s) in
    (r, {| host := h; trace := trace s ++ [ev r]; locals := locals s |}).

Definition getLocals : M H L L := fun s => (Ok (locals s), s).

Definition modifyLocals (f : L -> L) : M H L unit :=
  fun s => (Ok tt, {| host := host s; trace := trace s; locals := f (locals s) |}).

Definition readHost {A} (f : H -> A) : M H L A := fun s => (Ok (f (host s)), s).

(** [if (!x) throw error], then [x] is in hand. *)
Definition orThrow {A} (x : option A) (error : Thrown) : M H L A :=
  match x with Some a => ret a | None => throw error end.

End Monad.

Declare Scope js_scope.
Delimit Scope js_scope with js.
Notation "x <- m ;; k" := (bind m (fun x => k))
  (at level 61, m at next level, right associativity) : js_scope.
Notation "' pat <- m ;; k" := (bind m (fun pat => k))
  (at level 61, pat pattern, m at next level, right associativity) : js_scope.
Notation "m ;; k" := (bind m (fun _ => k))
  (at level 61, right associativity) : js_scope.
Local Open Scope js_scope.

Section Control.
Context {H L : Type}.

(** [for (const x of xs) body]. *)
Fixpoint forOf {X} (xs : list X) (body : X -> M H L unit) : M H L unit :=
  match xs with
  | [] => ret tt
  | x :: rest => body x ;; forOf rest body
  end.

(** A callee's body runs on its own local variables, which are gone when
    it returns or throws. *)
Definition withLocals {L' A} (init : L') (body : M H L' A) : M H L A :=
  fun s =>
    let '(r, s') := body {| host := host s; trace := trace s; locals := init |} in
    (r, {| host := host s'; trace := trace s'; locals := locals s |}).

Definition console_log (message : string) : M H L unit :=
  emit (EvConsole LogLevel message None).
Definition console_warn (message : string) (error : option Thrown) : M H L unit :=
  emit (EvConsole WarnLevel message error).
Definition console_error (message : string) (error : option Thrown) : M H L unit :=
  emit (EvConsole ErrorLevel message error).

End Control.

(* ===================================================================== *)
(** * MonthlyReportGenerator *)
(* ===================================================================== *)

(** A template literal: its pieces, concatenated. *)
Definition template (parts : list string) : string := String.concat "" parts.

(** [xs.join(sep)]. *)
Definition join (sep : string) (xs : list string) : string := String.concat sep xs.

Arguments template : simpl never.
Arguments join : simpl never.

(** [xs.length], and its text. *)
Definition lengthOf {A} (xs : list A) : Z := Z.of_nat (List.length xs).

Module Source.
Inductive Role : Type :=
| PRODUCT_CATEGORY | OUT_DATE | SHARES | PREPARATION_FEE
| REWARD_DEDUCTION | CANCEL_FEE | URGENT_FEE.
(** The roles in the order in which the source resolves and checks them. *)
Definition roles : list Role :=
  [PRODUCT_CATEGORY; OUT_DATE; SHARES; PREPARATION_FEE;
   REWARD_DEDUCTION; CANCEL_FEE; URGENT_FEE].
End Source.

Module Target.
Inductive Role : Type :=
| PROJECT | PERSON_COUNT | SHARES | PREPARATION_FEE
| REWARD_DEDUCTION | CANCEL_FEE | URGENT_FEE.
Definition roles : list Role :=
  [PROJECT; PERSON_COUNT; SHARES; PREPARATION_FEE;
   REWARD_DEDUCTION; CANCEL_FEE; URGENT_FEE].
End Target.

Definition SOURCE_FIELD_NAMES (role : Source.Role) : string :=
  match role with
  | Source.PRODUCT_CATEGORY => "产品类别"
  | Source.OUT_DATE => "申请出库日期"
  | Source.SHARES => "份数"
  | Source.PREPARATION_FEE => "制备费"
  | Source.REWARD_DEDUCTION => "出库订单（多单）奖励扣减"
  | Source.CANCEL_FEE => "制剂取消收取费用"
  | Source.URGENT_FEE => "制剂加急/非正常出库时间收取费用"
  end.

Definition TARGET_FIELD_NAMES (role : Target.Role) : string :=
  match role with
  | Target.PROJECT => "项目"
  | Target.PERSON_COUNT => "人数"
  | Target.SHARES => "份数"
  | Target.PREPARATION_FEE => "制备费"
  | Target.REWARD_DEDUCTION => "出库订单奖励扣减"
  | Target.CANCEL_FEE => "制剂取消收取费用"
  | Target.URGENT_FEE => "制剂加急/非正常出库时间收取费用"
  end.

(** ** Field resolution

    [fields.find(field => field.name === NAME)?.id] for each role, then the
    list of the names whose id is missing ([!id]), in role order, and one
    error that joins them. The source writes this out twice, for the source
    table and for the new table. *)
Section Resolver.
Context {Role : Type} (roles : list Role) (NAMES : Role -> string).

Definition findFieldId (fields : list IFieldMeta) (name : string) : option string :=
  option_map meta_id (find (fun field => String.eqb (meta_name field) name) fields).

(** [!id] for an id that may be undefined. *)
Definition missingId (id : option string) : bool :=
  match id with
  | None => true
  | Some s => String.eqb s ""
  end.

Definition fieldIdOf (fields : list IFieldMeta) (role : Role) : option string :=
  findFieldId fields (NAMES role).

Definition missingFields (fields : list IFieldMeta) : list string :=
  map NAMES (filter (fun role => missingId (fieldIdOf fields role)) roles).

(** [id!]: the id, known to be there. *)
Definition nonNull (id : option string) : string :=
  match id with Some s => s | None => "undefined" end.

Definition resolveFields (errorPrefix : string) (fields : list IFieldMeta)
  : Result (Role -> string) :=
  let missing := missingFields fields in
  if 0 <? lengthOf missing
  then Throw (newError (template [errorPrefix; join ", " missing]))
  else Ok (fun role => nonNull (fieldIdOf fields role)).

End Resolver.

(** ** Group accumulators *)

Record GroupData : Type := {
  count : Z;
  shares : float;
  preparationFee : float;
  rewardDeduction : float;
  cancelFee : float;
  urgentFee : float
}.

Definition emptyGroup : GroupData :=
  {| count := 0; shares := 0%float; preparationFee := 0%float;
     rewardDeduction := 0%float; cancelFee := 0%float; urgentFee := 0%float |}.

Definition addCount (g : GroupData) : GroupData :=
  {| count := count g + 1; shares := shares g; preparationFee := preparationFee g;
     rewardDeduction := rewardDeduction g; cancelFee := cancelFee g;
     urgentFee := urgentFee g |}.
Definition addShares (v : float) (g : GroupData) : GroupData :=
  {| count := count g; shares := (shares g + v)%float; preparationFee := preparationFee g;
     rewardDeduction := rewardDeduction g; cancelFee := cancelFee g;
     urgentFee := urgentFee g |}.
Definition addPreparationFee (v : float) (g : GroupData) : GroupData :=
  {| count := count g; shares := shares g; preparationFee := (preparationFee g + v)%float;
     rewardDeduction := rewardDeduction g; cancelFee := cancelFee g;
     urgentFee := urgentFee g |}.
Definition addRewardDeduction (v : float) (g : GroupData) : GroupData :=
  {| count := count g; shares := shares g; preparationFee := preparationFee g;
     rewardDeduction := (rewardDeduction g + v)%float; cancelFee := cancelFee g;
     urgentFee := urgentFee g |}.
Definition addCancelFee (v : float) (g : GroupData) : GroupData :=
  {| count := count g; shares := shares g; preparationFee := preparationFee g;
     rewardDeduction := rewardDeduction g; cancelFee := (cancelFee g + v)%float;
     urgentFee := urgentFee g |}.
Definition addUrgentFee (v : float) (g : GroupData) : GroupData :=
  {| count := count g; shares := shares g; preparationFee := preparationFee g;
     rewardDeduction := rewardDeduction g; cancelFee := cancelFee g;
     urgentFee := (urgentFee g + v)%float |}.

(** [groupedData]: category key to accumulator. The object starts as [{}]
    and is indexed with category keys only: its own properties are the
    groups, and [groupedData[categoryKey]] also finds the members it
    inherits from [Object.prototype] (the option objects of a
    single-select field give the key "[object Object]"). [count] is an
    integer below 2^53 (a record list is an array, shorter than 2^32), so
    adding 1 is exact. *)
Definition GroupedData : Type := Obj.t GroupData.

(** The local variables of [getSourceData]'s record loop. *)
Record AggState : Type := {
  groupedData : GroupedData;
  processedRecordCount : Z;
  matchedRecordCount : Z
}.

Definition setGroupedData (f : GroupedData -> GroupedData) (st : AggState) : AggState :=
  {| groupedData := f (groupedData st);
     processedRecordCount := processedRecordCount st;
     matchedRecordCount := matchedRecordCount st |}.
Definition incrProcessed (st : AggState) : AggState :=
  {| groupedData := groupedData st;
     processedRecordCount := processedRecordCount st + 1;
     matchedRecordCount := matchedRecordCount st |}.
Definition incrMatched (st : AggState) : AggState :=
  {| groupedData := groupedData st;
     processedRecordCount := processedRecordCount st;
     matchedRecordCount := matchedRecordCount st + 1 |}.

(** The field handles of the source table. *)
Record SourceFields : Type := {
  productCategoryField : IField;
  outDateField : IField;
  sharesField : IField;
  preparationFeeField : IField;
  rewardDeductionField : IField;
  cancelFeeField : IField;
  urgentFeeField : IField
}.

(** The field handles of the new table. *)
Record TargetFields : Type := {
  t_projectField : IField;
  t_personCountField : IField;
  t_sharesField : IField;
  t_preparationFeeField : IField;
  t_rewardDeductionField : IField;
  t_cancelFeeField : IField;
  t_urgentFeeField : IField
}.

Section Generator.
Context {H : Type} (ops : HostOps H) (E : Engine).

(** ** Host calls, each recorded in the trace *)
Section Calls.
Context {L : Type}.

Definition getTableById (id : string) : M H L (option ITable) :=
  call (base_getTableById ops id) (EvGetTableById id).
Definition addTable (name : string) : M H L (option string) :=
  call (base_addTable ops name) (EvAddTable name).
Definition addField (table : ITable) (config : IFieldConfig) : M H L unit :=
  call (table_addField ops table config) (EvAddField table config).
Definition getFieldMetaList (table : ITable) : M H L (option (list IFieldMeta)) :=
  call (table_getFieldMetaList ops table) (EvGetFieldMetaList table).
Definition getField (table : ITable) (id : string) : M H L IField :=
  call (table_getField ops table id) (EvGetField table id).
Definition getRecordIdList (table : ITable) : M H L (option (list string)) :=
  call (table_getRecordIdList ops table) (EvGetRecordIdList table).
Definition getValue (field : IField) (recordId : string) : M H L JsValue :=
  call (field_getValue ops field recordId) (EvGetValue field recordId).
Definition addRecords (table : ITable) (records : list IRecordValue) : M H L unit :=
  call (table_addRecords ops table records) (EvAddRecords table records).
Definition addRecord (table : ITable) : M H L string :=
  call (table_addRecord ops table) (EvAddRecord table).
Definition setValue (field : IField) (recordId : string) (value : JsValue) : M H L unit :=
  call (field_setValue ops field recordId value) (EvSetValue field recordId value).

(** [if (error instanceof Error) throw error; else throw new Error(unknown)]. *)
Definition rethrow {A} (error : Thrown) (unknown : string) : M H L A :=
  if instanceofError error then throw error else throw (newError unknown).

End Calls.

(** ** createFields *)

Definition targetFieldConfigs : list IFieldConfig :=
  [ {| cfg_type := SingleSelect; cfg_name := TARGET_FIELD_NAMES Target.PROJECT;
       cfg_property := NoProperty |};
    {| cfg_type := Number; cfg_name := TARGET_FIELD_NAMES Target.PERSON_COUNT;
       cfg_property := FormatterProperty INTEGER |};
    {| cfg_type := Number; cfg_name := TARGET_FIELD_NAMES Target.SHARES;
       cfg_property := FormatterProperty DIGITAL_ROUNDED_2 |};
    {| cfg_type := Currency; cfg_name := TARGET_FIELD_NAMES Target.PREPARATION_FEE;
       cfg_property := CurrencyProperty CNY |};
    {| cfg_type := Currency; cfg_name := TARGET_FIELD_NAMES Target.REWARD_DEDUCTION;
       cfg_property := CurrencyProperty CNY |};
    {| cfg_type := Currency; cfg_name := TARGET_FIELD_NAMES Target.CANCEL_FEE;
       cfg_property := CurrencyProperty CNY |};
    {| cfg_type := Currency; cfg_name := TARGET_FIELD_NAMES Target.URGENT_FEE;
       cfg_property := CurrencyProperty CNY |} ].

Definition createFields {L} (table : ITable) : M H L unit :=
  tryCatch
    (forOf targetFieldConfigs (fun config => addField table config))
    (fun error =>
       console_error "创建字段时发生错误:" (Some error) ;;
       throw (newError "创建字段失败，请检查字段配置")).

(** ** getSourceData *)

(** Lines 187-223: the field metadata of the source table, the seven ids
    by name, and the seven field handles. *)
Definition openSourceFields {L} (sourceTable : ITable) : M H L SourceFields :=
  fields <- getFieldMetaList sourceTable ;;
  match fields with
  | None | Some [] => throw (newError "源表中没有找到任何字段")
  | Some fields =>
      match resolveFields Source.roles SOURCE_FIELD_NAMES
              "源表中缺少以下必要的字段: " fields with
      | Throw error => throw error
      | Ok fieldId =>
          productCategoryField <- getField sourceTable (fieldId Source.PRODUCT_CATEGORY) ;;
          outDateField <- getField sourceTable (fieldId Source.OUT_DATE) ;;
          sharesField <- getField sourceTable (fieldId Source.SHARES) ;;
          preparationFeeField <- getField sourceTable (fieldId Source.PREPARATION_FEE) ;;
          rewardDeductionField <- getField sourceTable (fieldId Source.REWARD_DEDUCTION) ;;
          cancelFeeField <- getField sourceTable (fieldId Source.CANCEL_FEE) ;;
          urgentFeeField <- getField sourceTable (fieldId Source.URGENT_FEE) ;;
          ret {| productCategoryField := productCategoryField;
                 outDateField := outDateField;
                 sharesField := sharesField;
                 preparationFeeField := preparationFeeField;
                 rewardDeductionField := rewardDeductionField;
                 cancelFeeField := cancelFeeField;
                 urgentFeeField := urgentFeeField |}
      end
  end.

(** The numeric normalizer. *)
Definition safeGetNumberValue {L} (field : IField) (recordId : string) : M H L float :=
  tryCatch
    (value <- getValue field recordId ;;
     match value with
     | JNull | JUndefined => ret 0%float
     | _ =>
         let numValue := ToNumber E value in
         ret (if isNaN numValue then 0%float else numValue)
     end)
    (fun error =>
       console_warn (template ["获取字段值失败: "; ThrownToString E error]) None ;;
       ret 0%float).

(** [groupedData[categoryKey].f += ...]. On a group, the group is
    updated. On a member inherited from [Object.prototype] the property is
    written on that member (a function, or [Object.prototype] itself), not
    on [groupedData]: its old value is [undefined] or NaN, its new value
    NaN, and no group changes. ([Object.keys] and [Object.entries] list own
    properties only, and a later [groupedData[key]] that finds one of the
    NaN properties reads a falsy value, as if it found nothing.) A missing
    group would be a [TypeError]. *)
Definition updateGroup (categoryKey : string) (f : GroupData -> GroupData)
  : M H AggState unit :=
  st <- getLocals ;;
  match Obj.member categoryKey (groupedData st) with
  | Obj.Own g => modifyLocals (setGroupedData (Obj.set categoryKey (f g)))
  | Obj.Inherited => ret tt
  | Obj.Undefined => throw (ErrorObj "TypeError" "Cannot read properties of undefined")
  end.

(** The body of the record loop (lines 248-336). [continue] ends the body.
    [new Date(value)] does not throw on the values of [JsValue], so the
    inner [catch] of the source has no counterpart. The test
    [!groupedData[categoryKey]] holds when the lookup finds nothing: a
    group and an inherited member are objects, which are truthy. *)
Definition processRecord (fs : SourceFields) (month : Z) (recordId : string)
  : M H AggState unit :=
  tryCatch
    (outDateValue <- getValue (outDateField fs) recordId ;;
     if negb (ToBoolean outDateValue) then ret tt
     else
       match newDate E outDateValue with
       | None =>
           console_warn
             (template ["记录 "; recordId; " 的日期格式无效: "; ToString E outDateValue])
             None
       | Some outDate =>
           let outDateMonth := getMonth E outDate + 1 in
           if negb (outDateMonth =? month) then ret tt
           else
             modifyLocals incrMatched ;;
             productCategory <- getValue (productCategoryField fs) recordId ;;
             if negb (ToBoolean productCategory)
             then console_warn (template ["记录 "; recordId; " 没有产品类别，已跳过"]) None
             else
               let categoryKey := ToString E productCategory in
               st <- getLocals ;;
               (match Obj.member categoryKey (groupedData st) with
                | Obj.Undefined =>
                    modifyLocals (setGroupedData (Obj.set categoryKey emptyGroup))
                | Obj.Own _ | Obj.Inherited => ret tt
                end) ;;
               updateGroup categoryKey addCount ;;
               v <- safeGetNumberValue (sharesField fs) recordId ;;
               updateGroup categoryKey (addShares v) ;;
               v <- safeGetNumberValue (preparationFeeField fs) recordId ;;
               updateGroup categoryKey (addPreparationFee v) ;;
               v <- safeGetNumberValue (rewardDeductionField fs) recordId ;;
               updateGroup categoryKey (addRewardDeduction v) ;;
               v <- safeGetNumberValue (cancelFeeField fs) recordId ;;
               updateGroup categoryKey (addCancelFee v) ;;
               v <- safeGetNumberValue (urgentFeeField fs) recordId ;;
               updateGroup categoryKey (addUrgentFee v) ;;
               modifyLocals incrProcessed
       end)
    (fun error =>
       console_warn (template ["处理记录 "; recordId; " 时发生错误:"]) (Some error)).

Definition initialAggState : AggState :=
  {| groupedData := []; processedRecordCount := 0; matchedRecordCount := 0 |}.

(** Lines 233-341: the loop over the record ids and the closing log line. *)
Definition aggregate (fs : SourceFields) (month : Z) (recordIdList : list string)
  : M H AggState GroupedData :=
  forOf recordIdList (processRecord fs month) ;;
  st <- getLocals ;;
  console_log
    (template ["处理完成。共处理 "; integerToString (processedRecordCount st);
               " 条记录，"; integerToString (matchedRecordCount st);
               " 条匹配指定月份，得到 ";
               integerToString (lengthOf (Obj.keys (groupedData st)));
               " 个产品类别分组"]) ;;
  ret (groupedData st).

Definition noRecordsMessage : string := "源表中没有找到任何记录".

Definition getSourceData {L} (sourceTable : ITable) (month : Z) : M H L GroupedData :=
  tryCatch
    (fs <- openSourceFields sourceTable ;;
     recordIdList <- getRecordIdList sourceTable ;;
     match recordIdList with
     | None | Some [] => throw (newError noRecordsMessage)
     | Some recordIdList =>
         console_log
           (template ["共找到 "; integerToString (lengthOf recordIdList);
                      " 条记录，准备处理..."]) ;;
         withLocals initialAggState (aggregate fs month recordIdList)
     end)
    (fun error =>
       console_error "获取源表数据时发生错误:" (Some error) ;;
       rethrow error "获取源表数据时发生未知错误").

(** ** writeDataToNewTable *)

(** Lines 357-393: the field metadata of the new table, the seven ids by
    name, and the seven field handles. *)
Definition openTargetFields {L} (newTable : ITable)
  : M H L ((Target.Role -> string) * TargetFields) :=
  fields <- getFieldMetaList newTable ;;
  match fields with
  | None | Some [] => throw (newError "新表中没有找到任何字段")
  | Some fields =>
      match resolveFields Target.roles TARGET_FIELD_NAMES
              "新表字段创建失败，缺少字段: " fields with
      | Throw error => throw error
      | Ok fieldId =>
          projectField <- getField newTable (fieldId Target.PROJECT) ;;
          personCountField <- getField newTable (fieldId Target.PERSON_COUNT) ;;
          sharesField <- getField newTable (fieldId Target.SHARES) ;;
          preparationFeeField <- getField newTable (fieldId Target.PREPARATION_FEE) ;;
          rewardDeductionField <- getField newTable (fieldId Target.REWARD_DEDUCTION) ;;
          cancelFeeField <- getField newTable (fieldId Target.CANCEL_FEE) ;;
          urgentFeeField <- getField newTable (fieldId Target.URGENT_FEE) ;;
          ret (fieldId,
               {| t_projectField := projectField;
                  t_personCountField := personCountField;
                  t_sharesField := sharesField;
                  t_preparationFeeField := preparationFeeField;
                  t_rewardDeductionField := rewardDeductionField;
                  t_cancelFeeField := cancelFeeField;
                  t_urgentFeeField := urgentFeeField |})
      end
  end.

(** The record built for one group on the bulk path (lines 406-416). *)
Definition bulkRecord (fieldId : Target.Role -> string)
  (entry : string * GroupData) : IRecordValue :=
  let '(productCategory, data) := entry in
  [ (fieldId Target.PROJECT, JString productCategory);
    (fieldId Target.PERSON_COUNT, JNumber (ofZ (count data)));
    (fieldId Target.SHARES, JNumber (shares data));
    (fieldId Target.PREPARATION_FEE, JNumber (preparationFee data));
    (fieldId Target.REWARD_DEDUCTION, JNumber (rewardDeduction data));
    (fieldId Target.CANCEL_FEE, JNumber (cancelFee data));
    (fieldId Target.URGENT_FEE, JNumber (urgentFee data)) ].

(** [Math.round(x * 100) / 100]. *)
Definition round2 (x : float) : float := (Math_round (x * 100) / 100)%float.

Definition bulkFailedMessage : string := "批量添加记录失败，将回退到单条添加模式:".

(** The bulk path (lines 397-427): [true] when the records went in with
    one call and the function is to return. *)
Definition bulkWrite {L} (newTable : ITable) (fieldId : Target.Role -> string)
  (groupedData : GroupedData) : M H L bool :=
  tryCatch
    (let entries := Obj.entries groupedData in
     (if (0 <? lengthOf entries)
         && existsb (fun role => String.eqb (fieldId role) "") Target.roles
      then throw (newError "字段ID不完整，无法创建记录")
      else ret tt) ;;
     let records := map (bulkRecord fieldId) entries in
     if 0 <? lengthOf records
     then
       addRecords newTable records ;;
       console_log
         (template ["成功批量添加 "; integerToString (lengthOf records); " 条记录"]) ;;
       ret true
     else ret false)
    (fun error =>
       console_warn bulkFailedMessage (Some error) ;;
       ret false).

Definition rowFailedMessage (productCategory : string) : string :=
  template ["添加记录 "; productCategory; " 时发生错误:"].

(** The body of the per-row loop (lines 432-460); the local variable is
    [successCount]. *)
Definition writeRow (newTable : ITable) (tf : TargetFields)
  (entry : string * GroupData) : M H Z unit :=
  let '(productCategory, data) := entry in
  tryCatch
    (recordId <- addRecord newTable ;;
     setValue (t_projectField tf) recordId (JString productCategory) ;;
     setValue (t_personCountField tf) recordId (JNumber (ofZ (count data))) ;;
     setValue (t_sharesField tf) recordId (JNumber (round2 (shares data))) ;;
     setValue (t_preparationFeeField tf) recordId (JNumber (round2 (preparationFee data))) ;;
     setValue (t_rewardDeductionField tf) recordId (JNumber (round2 (rewardDeduction data))) ;;
     setValue (t_cancelFeeField tf) recordId (JNumber (round2 (cancelFee data))) ;;
     setValue (t_urgentFeeField tf) recordId (JNumber (round2 (urgentFee data))) ;;
     modifyLocals (fun successCount => successCount + 1))
    (fun error => console_error (rowFailedMessage productCategory) (Some error)).

Definition noRowMessage : string := "没有成功写入任何记录".

Definition partialMessage (successCount total : Z) : string :=
  template ["部分记录写入失败: "; integerToString successCount; "/";
            integerToString total].

(** The per-row path and its verdict (lines 429-469). *)
Definition perRowWrite (newTable : ITable) (tf : TargetFields)
  (groupedData : GroupedData) : M H Z unit :=
  forOf (Obj.entries groupedData) (writeRow newTable tf) ;;
  successCount <- getLocals ;;
  let total := lengthOf (Obj.keys groupedData) in
  console_log
    (template ["成功添加 "; integerToString successCount; " 条记录，共 ";
               integerToString total; " 条"]) ;;
  if successCount =? 0 then throw (newError noRowMessage)
  else if successCount <? total
  then console_warn (partialMessage successCount total) None
  else ret tt.

Definition writeDataToNewTable {L} (newTable : ITable) (groupedData : GroupedData)
  : M H L unit :=
  tryCatch
    ('(fieldId, tf) <- openTargetFields newTable ;;
     console_log
       (template ["开始写入 "; integerToString (lengthOf (Obj.keys groupedData));
                  " 条汇总数据..."]) ;;
     done <- bulkWrite newTable fieldId groupedData ;;
     if done : bool then ret tt
     else withLocals 0 (perRowWrite newTable tf groupedData))
    (fun error =>
       console_error "写入数据到新表时发生错误:" (Some error) ;;
       rethrow error "写入数据到新表时发生未知错误").

(** ** generate *)

Definition newTableName (year : Z) (month : Z) : string :=
  let monthStr := integerToString month in
  template [integerToString year; "年"; monthStr; "月支付细胞工程制剂制备费"].

(** Lines 54-86: the source table, the new table and its fields. *)
Definition prepareTables {L} (sourceTableId : string) (month : Z)
  : M H L (ITable * ITable) :=
  sourceTable <- getTableById sourceTableId ;;
  sourceTable <- orThrow sourceTable
    (newError (template ["未找到ID为 "; sourceTableId; " 的表格"])) ;;
  currentDate <- readHost (date_now ops) ;;
  let year := getFullYear E currentDate in
  let newTableName := newTableName year month in
  console_log (template ["正在创建新表: "; newTableName]) ;;
  newTableResult <- addTable newTableName ;;
  match newTableResult with
  | None | Some "" => throw (newError "创建新表失败")
  | Some tableId =>
      newTable <- getTableById tableId ;;
      newTable <- orThrow newTable
        (newError (template ["无法访问新创建的表格: "; tableId])) ;;
      console_log "创建字段中..." ;;
      createFields newTable ;;
      ret (sourceTable, newTable)
  end.

Definition noDataMessage (month : Z) : string :=
  template ["未找到"; integerToString month; "月的数据，请确认原表中存在该月份的记录"].

(** [month] is a JavaScript number that callers take from the integers
    1..12 of the month picker; it is an integer here. *)
Definition generate (sourceTableId : string) (month : Z) : M H unit unit :=
  if String.eqb sourceTableId "" then throw (newError "源表ID不能为空")
  else if (month <? 1) || (month >? 12) then throw (newError "月份必须在1-12之间")
  else
    tryCatch
      ('(sourceTable, newTable) <- prepareTables sourceTableId month ;;
       console_log "获取源表数据中..." ;;
       sourceData <- getSourceData sourceTable month ;;
       (if lengthOf (Obj.keys sourceData) =? 0
        then throw (newError (noDataMessage month))
        else ret tt) ;;
       console_log "写入数据到新表中..." ;;
       writeDataToNewTable newTable sourceData ;;
       console_log "汇总表生成完成")
      (fun error =>
         console_error "生成汇总表时发生错误:" (Some error) ;;
         rethrow error "生成汇总表时发生未知错误").

End Generator.

(* ===================================================================== *)
(** * The component that calls the generator (App.tsx) *)
(* ===================================================================== *)

(** The state of the [App] component and the two asynchronous functions
    that change it: [loadTables], run once when the component is mounted,
    and [generateReport], the handler of the button. A state setter is
    modelled by the state it leaves when the function is done; the toasts
    of [messageApi] are kept in the order in which they are shown. *)
Module App.

Record TableOption : Type := { label : string; value : string }.

Record TableMeta : Type := { id : string; name : string }.

Inductive ToastKind : Type := ToastWarning | ToastSuccess | ToastError.

Record State : Type := {
  tables : list TableOption;
  selectedTableId : string;
  selectedMonth : Z;
  loading : bool;
  initialLoading : bool;
  errorMessage : option string;
  shown : list (ToastKind * string)
}.

Definition setTables (v : list TableOption) (st : State) : State :=
  {| tables := v; selectedTableId := selectedTableId st;
     selectedMonth := selectedMonth st; loading := loading st;
     initialLoading := initialLoading st; errorMessage := errorMessage st;
     shown := shown st |}.
Definition setSelectedTableId (v : string) (st : State) : State :=
  {| tables := tables st; selectedTableId := v;
     selectedMonth := selectedMonth st; loading := loading st;
     initialLoading := initialLoading st; errorMessage := errorMessage st;
     shown := shown st |}.
Definition setLoading (v : bool) (st : State) : State :=
  {| tables := tables st; selectedTableId := selectedTableId st;
     selectedMonth := selectedMonth st; loading := v;
     initialLoading := initialLoading st; errorMessage := errorMessage st;
     shown := shown st |}.
Definition setInitialLoading (v : bool) (st : State) : State :=
  {| tables := tables st; selectedTableId := selectedTableId st;
     selectedMonth := selectedMonth st; loading := loading st;
     initialLoading := v; errorMessage := errorMessage st;
     shown := shown st |}.
Definition setErrorMessage (v : option string) (st : State) : State :=
  {| tables := tables st; selectedTableId := selectedTableId st;
     selectedMonth := selectedMonth st; loading := loading st;
     initialLoading := initialLoading st; errorMessage := v;
     shown := shown st |}.
Definition show (kind : ToastKind) (content : string) (st : State) : State :=
  {| tables := tables st; selectedTableId := selectedTableId st;
     selectedMonth := selectedMonth st; loading := loading st;
     initialLoading := initialLoading st; errorMessage := errorMessage st;
     shown := shown st ++ [(kind, content)] |}.

(** [error instanceof Error ? error.message : '未知错误']. *)
Definition errorMsgOf (error : Thrown) : string :=
  match error with
  | ErrorObj _ message => message
  | NonError _ => "未知错误"
  end.

Definition noTablesMessage : string := "未找到任何数据表，请先创建数据表".

Definition loadFailedMessage (error : Thrown) : string :=
  template ["获取表格列表失败: "; errorMsgOf error].

Definition generateFailedMessage (error : Thrown) : string :=
  template ["生成汇总表失败: "; errorMsgOf error].

(** [{ label: table.name || '未命名表格', value: table.id }]. *)
Definition tableOption (table : TableMeta) : TableOption :=
  {| label := if String.eqb (name table) "" then "未命名表格" else name table;
     value := id table |}.

Section Component.
Context {H : Type} (ops : HostOps H) (E : Engine).

(** [bitable.base.getTableMetaList], the one host call of the component
    itself; the trace records the calls of the generator and the console. *)
Variable base_getTableMetaList : H -> Result (option (list TableMeta)) * H.

Definition getTableMetaList : M H State (option (list TableMeta)) :=
  fun s =>
    let '(r, h) := base_getTableMetaList (host s) in
    (r, {| host := h; trace := trace s; locals := locals s |}).

(** [try body finally final]: [final] runs however [body] ends; it does
    not throw here. *)
Definition tryFinally {A} (body : M H State A) (final : State -> State) : M H State A :=
  fun s =>
    let '(r, s') := body s in
    (r, {| host := host s'; trace := trace s'; locals := final (locals s') |}).

(** Lines 40-72. The [return] of the empty listing leaves the [try], so
    the [finally] runs after it as well. *)
Definition loadTables : M H State unit :=
  modifyLocals (setInitialLoading true) ;;
  modifyLocals (setErrorMessage None) ;;
  tryFinally
    (tryCatch
       (tableMetaList <- getTableMetaList ;;
        match tableMetaList with
        | None | Some [] =>
            modifyLocals (setErrorMessage (Some noTablesMessage)) ;;
            modifyLocals (setInitialLoading false)
        | Some tableMetaList =>
            let tableOptions := map tableOption tableMetaList in
            modifyLocals (setTables tableOptions) ;;
            match tableOptions with
            | first :: _ => modifyLocals (setSelectedTableId (value first))
            | [] => ret tt
            end
        end)
       (fun error =>
          modifyLocals (setErrorMessage (Some (loadFailedMessage error))) ;;
          modifyLocals (show ToastError "获取表格列表失败，请检查网络连接或刷新页面重试") ;;
          console_error "获取表格列表失败:" (Some error)))
    (setInitialLoading false).

(** Lines 77-103. [selectedTableId] and [selectedMonth] are the values of
    the render in which the button was pressed; [!selectedMonth] holds of
    0 among the integers. *)
Definition generateReport : M H State unit :=
  st <- getLocals ;;
  if String.eqb (selectedTableId st) ""
  then modifyLocals (show ToastWarning "请选择原数据表")
  else if selectedMonth st =? 0
  then modifyLocals (show ToastWarning "请选择月份")
  else
    modifyLocals (setLoading true) ;;
    modifyLocals (setErrorMessage None) ;;
    tryFinally
      (tryCatch
         (withLocals tt (generate ops E (selectedTableId st) (selectedMonth st)) ;;
          modifyLocals (show ToastSuccess "汇总表生成成功！"))
         (fun error =>
            modifyLocals (setErrorMessage (Some (generateFailedMessage error))) ;;
            modifyLocals (show ToastError "生成汇总表失败，请查看详细错误信息") ;;
            console_error "生成汇总表失败:" (Some error)))
      (setLoading false).

End Component.

End App.

(* ===================================================================== *)
(** * The vocabulary of the properties *)
(* ===================================================================== *)

(** ** Events *)

(** [emits P m]: whatever the host answers and however [m] ends, [m] only
    appends events, and each of them satisfies [P]. *)
Definition emits {H L A} (P : Event -> Prop) (m : M H L A) : Prop :=
  forall s, exists evs, trace (snd (m s)) = trace s ++ evs /\ Forall P evs.

(** The events that write a group into the new table. *)
Definition isWrite (e : Event) : Prop :=
  match e with
  | EvAddRecords _ _ _ | EvAddRecord _ _ | EvSetValue _ _ _ _ => True
  | _ => False
  end.

(** The events that read a cell. *)
Definition isGetValue (e : Event) : Prop :=
  match e with
  | EvGetValue _ _ _ => True
  | _ => False
  end.

(** A bulk insert that succeeded. *)
Definition isBulkSuccess (e : Event) : Prop :=
  match e with
  | EvAddRecords _ _ (Ok _) => True
  | _ => False
  end.

(** A row created or a cell set, one at a time. *)
Definition isRowWrite (e : Event) : Prop :=
  match e with
  | EvAddRecord _ _ | EvSetValue _ _ _ _ => True
  | _ => False
  end.

(** The state after [console.log(message)]. *)
Definition logged {H L} (message : string) (s : Machine H L) : Machine H L :=
  {| host := host s;
     trace := trace s ++ [EvConsole LogLevel message None];
     locals := locals s |}.

(** ** Field resolution *)

(** [f] is the first field named [name] in listing order. *)
Definition FirstMatch (fields : list IFieldMeta) (name : string) (f : IFieldMeta) : Prop :=
  exists before after,
    fields = before ++ f :: after /\
    meta_name f = name /\
    forall g, In g before -> meta_name g <> name.

(** [name] resolves to [id]: the id of its first match, and not the empty
    string (the source tests [!id]). *)
Definition Located (fields : list IFieldMeta) (name id : string) : Prop :=
  exists f, FirstMatch fields name f /\ meta_id f = id /\ id <> "".

(** ** Numbers *)

(** [Number.isFinite(x)]. *)
Definition isFiniteNumber (x : float) : bool :=
  match Prim2SF x with
  | S754_zero _ | S754_finite _ _ _ => true
  | S754_infinity _ | S754_nan => false
  end.

(** What the numeric normalizer makes of a cell read. *)
Definition normalized (E : Engine) (r : Result JsValue) : float :=
  match r with
  | Ok JNull | Ok JUndefined => 0%float
  | Ok v => let n := ToNumber E v in if isNaN n then 0%float else n
  | Throw _ => 0%float
  end.

(** None of the five sums of the group is NaN. *)
Definition NoNaN (g : GroupData) : Prop :=
  isNaN (shares g) = false /\ isNaN (preparationFee g) = false /\
  isNaN (rewardDeduction g) = false /\ isNaN (cancelFee g) = false /\
  isNaN (urgentFee g) = false.

Definition GroupsNoNaN (gd : GroupedData) : Prop :=
  forall key g, In (key, g) gd -> NoNaN g.

(** ** Records and groups *)

(** The record's out-date is there (truthy, the source's test) and is a
    valid date whose local calendar month is [month]. *)
Definition dateInMonth (E : Engine) (month : Z) (v : JsValue) : bool :=
  ToBoolean v &&
  match newDate E v with
  | Some t => getMonth E t + 1 =? month
  | None => false
  end.

(** The out-date, taken as a date whether it is truthy or not, is a valid
    date whose local calendar month is [month]. The timestamp 0 is such a
    date (of January 1970 or December 1969), and is not truthy. *)
Definition parsesInMonth (E : Engine) (month : Z) (v : JsValue) : bool :=
  match newDate E v with
  | Some t => getMonth E t + 1 =? month
  | None => false
  end.

(** The record has an out-date in the month and a non-empty category. *)
Definition contributes (E : Engine) (month : Z) (date cat : JsValue) : bool :=
  dateInMonth E month date && ToBoolean cat.

(** ... and its category key is [key]. *)
Definition contributesTo (E : Engine) (month : Z) (key : string)
  (date cat : JsValue) : bool :=
  contributes E month date cat && String.eqb (ToString E cat) key.

(** The listed records that have an out-date in the month and a non-empty
    category, given the cells of each record. *)
Definition matchingRecords (E : Engine) (month : Z)
  (dateOf catOf : string -> JsValue) (recordIdList : list string) : list string :=
  filter (fun recordId => contributes E month (dateOf recordId) (catOf recordId))
    recordIdList.

Definition matchingRecordsOf (E : Engine) (month : Z) (key : string)
  (dateOf catOf : string -> JsValue) (recordIdList : list string) : list string :=
  filter (fun recordId => contributesTo E month key (dateOf recordId) (catOf recordId))
    recordIdList.

(** No listed record that has an out-date in the month and a non-empty
    category has a category key that names a member inherited from
    [Object.prototype]. *)
Definition PlainKeys (E : Engine) (month : Z)
  (dateOf catOf : string -> JsValue) (recordIdList : list string) : Prop :=
  forall recordId, In recordId recordIdList ->
    contributes E month (dateOf recordId) (catOf recordId) = true ->
    Obj.inherited (ToString E (catOf recordId)) = false.

(** One record added to the group [key]: the group is created at zero if
    it is new, its count goes up by one and the five values are added. *)
Definition accumulate (key : string) (v1 v2 v3 v4 v5 : float) (gd : GroupedData)
  : GroupedData :=
  let g := match Obj.get key gd with Some g => g | None => emptyGroup end in
  Obj.set key
    (addUrgentFee v5 (addCancelFee v4 (addRewardDeduction v3
       (addPreparationFee v2 (addShares v1 (addCount g)))))) gd.

(** The [count] of the group [key], 0 when there is none. *)
Definition countOf (key : string) (gd : GroupedData) : Z :=
  match Obj.get key gd with Some g => count g | None => 0 end.

(** The sum of the [count] values of all groups. *)
Definition totalCount (gd : GroupedData) : Z :=
  fold_right (fun kv acc => count (snd kv) + acc) 0 gd.

Definition numericFields (fs : SourceFields) : list IField :=
  [sharesField fs; preparationFeeField fs; rewardDeductionField fs;
   cancelFeeField fs; urgentFeeField fs].

(** ** Cell reads *)

Section Reads.
Context {H : Type} (ops : HostOps H) (E : Engine).

(** [r] is what reading [field] of [recordId] gives in some host state. *)
Definition ReadOf (field : IField) (recordId : string) (r : Result JsValue) : Prop :=
  exists h, fst (field_getValue ops field recordId h) = r.

(** The out-date and category cells of the listed records can be read:
    the reads give [dateOf] and [catOf], in whatever state the host is. *)
Definition Readable (fs : SourceFields) (recordIdList : list string)
  (dateOf catOf : string -> JsValue) : Prop :=
  forall recordId, In recordId recordIdList -> forall h,
    fst (field_getValue ops (outDateField fs) recordId h) = Ok (dateOf recordId) /\
    fst (field_getValue ops (productCategoryField fs) recordId h) = Ok (catOf recordId).

(** No read of a numeric cell of a listed record normalizes to an
    infinity. *)
Definition FiniteReads (fs : SourceFields) (recordIdList : list string) : Prop :=
  forall field recordId r,
    In field (numericFields fs) -> In recordId recordIdList ->
    ReadOf field recordId r -> isFiniteNumber (normalized E r) = true.

End Reads.

(** ** Rows of the new table *)

(** The events of a row written cell by cell: the row was created and its
    seven cells were set, the five sums rounded to two decimals. *)
Definition RowWritten (newTable : ITable) (tf : TargetFields)
  (entry : string * GroupData) (evs : list Event) : Prop :=
  exists recordId,
    In (EvAddRecord newTable (Ok recordId)) evs /\
    In (EvSetValue (t_projectField tf) recordId (JString (fst entry)) (Ok tt)) evs /\
    In (EvSetValue (t_personCountField tf) recordId
          (JNumber (ofZ (count (snd entry)))) (Ok tt)) evs /\
    In (EvSetValue (t_sharesField tf) recordId
          (JNumber (round2 (shares (snd entry)))) (Ok tt)) evs /\
    In (EvSetValue (t_preparationFeeField tf) recordId
          (JNumber (round2 (preparationFee (snd entry)))) (Ok tt)) evs /\
    In (EvSetValue (t_rewardDeductionField tf) recordId
          (JNumber (round2 (rewardDeduction (snd entry)))) (Ok tt)) evs /\
    In (EvSetValue (t_cancelFeeField tf) recordId
          (JNumber (round2 (cancelFee (snd entry)))) (Ok tt)) evs /\
    In (EvSetValue (t_urgentFeeField tf) recordId
          (JNumber (round2 (urgentFee (snd entry)))) (Ok tt)) evs.

(** The failure of a group's row was logged, under the group's name. *)
Definition RowFailureLogged (entry : string * GroupData) (evs : list Event) : Prop :=
  exists error,
    In (EvConsole ErrorLevel (rowFailedMessage (fst entry)) (Some error)) evs.

Definition RowOutcome (newTable : ITable) (tf : TargetFields) (evs : list Event)
  (entry : string * GroupData) (ok : bool) : Prop :=
  if ok then RowWritten newTable tf entry evs else RowFailureLogged entry evs.

(** The number of rows that went in. *)
Definition succeeded (outcomes : list bool) : Z :=
  lengthOf (filter (fun ok => ok) outcomes).

(** The group went in with a bulk insert that succeeded. *)
Definition BulkWritten (newTable : ITable) (fieldId : Target.Role -> string)
  (entry : string * GroupData) (evs : list Event) : Prop :=
  exists records,
    In (EvAddRecords newTable records (Ok tt)) evs /\
    In (bulkRecord fieldId entry) records.

(** ** Further vocabulary: messages, events and sums *)

Definition createFieldsFailedMessage : string := "创建字段失败，请检查字段配置".
Definition unknownGenerateMessage : string := "生成汇总表时发生未知错误".
Definition noSourceFieldsMessage : string := "源表中没有找到任何字段".
Definition noTargetFieldsMessage : string := "新表中没有找到任何字段".

Definition tableNotFoundMessage (sourceTableId : string) : string :=
  template ["未找到ID为 "; sourceTableId; " 的表格"].

(** The [addField] calls for [configs], each answered without error. *)
Definition addFieldEvents (table : ITable) (configs : list IFieldConfig) : list Event :=
  map (fun config => EvAddField table config (Ok tt)) configs.

(** What a function ends with is not a thrown value other than an [Error]. *)
Definition rejectsWithError {A S} (run : Result A * S) : Prop :=
  match fst run with
  | Ok _ => True
  | Throw error => instanceofError error = true
  end.

(** The error of a table whose field metadata is [meta], if it lacks a
    required field: the message for an empty listing, or the prefix
    followed by the names that are missing. *)
Definition missingFieldsError {Role} (roles : list Role) (NAMES : Role -> string)
  (emptyMessage errorPrefix : string) (meta : option (list IFieldMeta))
  : option string :=
  match meta with
  | None | Some [] => Some emptyMessage
  | Some fields =>
      match missingFields roles NAMES fields with
      | [] => None
      | missing => Some (template [errorPrefix; join ", " missing])
      end
  end.

Definition sourceFieldsError : option (list IFieldMeta) -> option string :=
  missingFieldsError Source.roles SOURCE_FIELD_NAMES
    noSourceFieldsMessage "源表中缺少以下必要的字段: ".

Definition targetFieldsError : option (list IFieldMeta) -> option string :=
  missingFieldsError Target.roles TARGET_FIELD_NAMES
    noTargetFieldsMessage "新表字段创建失败，缺少字段: ".

Definition noCategoryMessage (recordId : string) : string :=
  template ["记录 "; recordId; " 没有产品类别，已跳过"].

Definition recordFailedMessage (recordId : string) : string :=
  template ["处理记录 "; recordId; " 时发生错误:"].

(** ** Groups in order, and their sums *)

(** [key] joins the keys seen so far, last, unless it is among them. *)
Definition seeKey (seen : list string) (key : string) : list string :=
  if existsb (fun k => String.eqb k key) seen then seen else seen ++ [key].

(** The distinct keys of a list, in the order of their first occurrence. *)
Definition firstSeen (keys : list string) : list string := fold_left seeKey keys [].

(** The group [key], at zero when there is none. *)
Definition groupOf (key : string) (gd : GroupedData) : GroupData :=
  match Obj.get key gd with Some g => g | None => emptyGroup end.

(** One record added to a group. *)
Definition addRecordTo (v1 v2 v3 v4 v5 : float) (g : GroupData) : GroupData :=
  addUrgentFee v5 (addCancelFee v4 (addRewardDeduction v3
    (addPreparationFee v2 (addShares v1 (addCount g))))).

(** The normalized cells of [records], added from zero in list order. *)
Definition sumOf (E : Engine) (numOf : string -> Result JsValue)
  (records : list string) : float :=
  fold_left (fun acc recordId => (acc + normalized E (numOf recordId))%float)
    records 0%float.

Section NumericReads.
Context {H : Type} (ops : HostOps H).

(** The reads of the five numeric cells of the listed records give
    [numOf], in whatever state the host is. *)
Definition NumericReadable (fs : SourceFields) (recordIdList : list string)
  (numOf : IField -> string -> Result JsValue) : Prop :=
  forall field recordId, In field (numericFields fs) -> In recordId recordIdList ->
    forall h, fst (field_getValue ops field recordId h) = numOf field recordId.

End NumericReads.

(** ** Calls of the writer *)

(** The calls that ask the host for a new, empty row. *)
Definition isAddRecord (e : Event) : bool :=
  match e with
  | EvAddRecord _ _ => true
  | _ => false
  end.

Definition startWritingMessage (groupedData : GroupedData) : string :=
  template ["开始写入 "; integerToString (lengthOf (Obj.keys groupedData));
            " 条汇总数据..."].

(** ** The order of a run *)

(** The calls that ask the host for a new table. *)
Definition isAddTable (e : Event) : bool :=
  match e with
  | EvAddTable _ _ => true
  | _ => false
  end.

(** The calls that look into the tables: the field listings, the field
    handles, the record list and the cells of the source, and every write
    into the new table. *)
Definition usesTables (e : Event) : bool :=
  match e with
  | EvGetFieldMetaList _ _ | EvGetField _ _ _ | EvGetRecordIdList _ _
  | EvGetValue _ _ _ | EvAddRecords _ _ _ | EvAddRecord _ _
  | EvSetValue _ _ _ _ => true
  | _ => false
  end.

(** The closing line of the record loop. *)
Definition summaryMessage (processed matched groups : Z) : string :=
  template ["处理完成。共处理 "; integerToString processed;
            " 条记录，"; integerToString matched;
            " 条匹配指定月份，得到 "; integerToString groups;
            " 个产品类别分组"].

(** The listed records whose out-date is in the month, with or without a
    category. *)
Definition recordsInMonth (E : Engine) (month : Z) (dateOf : string -> JsValue)
  (recordIdList : list string) : list string :=
  filter (fun recordId => dateInMonth E month (dateOf recordId)) recordIdList.

(* ===================================================================== *)
(** * A host in memory *)
(* ===================================================================== *)

(** A small host to run the generator on: a source table fixed in advance
    (a cell holds the outcome of reading it) and a report table that
    starts empty and records what is written. *)
Module MemHost.

Record Config : Type := {
  sourceFields : list IFieldMeta;
  sourceRecords : list (string * list (string * Result JsValue));
  bulkFails : bool;
  failingProjects : list string;
  now : Z
}.

Record State : Type := {
  newFields : list IFieldMeta;
  newRows : list (string * list (string * JsValue))
}.

Definition initial : State := {| newFields := []; newRows := [] |}.

Definition sourceId : string := "tblSource".
Definition reportId : string := "tblReport".

Fixpoint assoc {V} (key : string) (l : list (string * V)) : option V :=
  match l with
  | [] => None
  | (k, v) :: rest => if String.eqb k key then Some v else assoc key rest
  end.

Definition rowId (n : nat) : string := template ["rec"; integerToString (Z.of_nat n)].

Definition readCell (c : Config) (field : IField) (recordId : string) : Result JsValue :=
  match assoc recordId (sourceRecords c) with
  | Some cells =>
      match assoc (field_id field) cells with
      | Some r => r
      | None => Ok JNull
      end
  | None => Throw (newError "record not found")
  end.

Definition rejects (c : Config) (value : JsValue) : bool :=
  match value with
  | JString p => existsb (String.eqb p) (failingProjects c)
  | _ => false
  end.

Fixpoint addRows (n : nat) (records : list IRecordValue)
  : list (string * list (string * JsValue)) :=
  match records with
  | [] => []
  | r :: rest => (rowId n, r) :: addRows (S n) rest
  end.

Definition ops (c : Config) : HostOps State := {|
  base_getTableById := fun id h =>
    (Ok (if String.eqb id sourceId || String.eqb id reportId
         then Some {| table_id := id |} else None), h);
  base_addTable := fun name h => (Ok (Some reportId), h);
  table_addField := fun table config h =>
    (Ok tt,
     {| newFields := newFields h ++
          [{| meta_id := template ["fld:"; cfg_name config];
              meta_name := cfg_name config |}];
        newRows := newRows h |});
  table_getFieldMetaList := fun table h =>
    (Ok (Some (if String.eqb (table_id table) sourceId
               then sourceFields c else newFields h)), h);
  table_getField := fun table id h =>
    (Ok {| field_table := table_id table; field_id := id |}, h);
  table_getRecordIdList := fun table h => (Ok (Some (map fst (sourceRecords c))), h);
  field_getValue := fun field recordId h => (readCell c field recordId, h);
  table_addRecords := fun table records h =>
    if bulkFails c then (Throw (newError "bulk insert rejected"), h)
    else (Ok tt,
          {| newFields := newFields h;
             newRows := newRows h ++ addRows (List.length (newRows h)) records |});
  table_addRecord := fun table h =>
    (Ok (rowId (List.length (newRows h))),
     {| newFields := newFields h;
        newRows := newRows h ++ [(rowId (List.length (newRows h)), [])] |});
  field_setValue := fun field recordId value h =>
    if rejects c value then (Throw (newError "cell rejected"), h)
    else (Ok tt,
          {| newFields := newFields h;
             newRows :=
               map (fun row =>
                      if String.eqb (fst row) recordId
                      then (fst row, snd row ++ [(field_id field, value)])
                      else row) (newRows h) |});
  date_now := fun h => now c
|}.

(** Local time is UTC+8; strings are neither numbers nor dates. *)
Definition engine : Engine := {|
  StringToNumber := fun _ => nan;
  NumberToString := fun _ => "number";
  DateParse := fun _ => None;
  LocalTZA := fun _ => 28800000
|}.

Definition sourceMeta : list IFieldMeta :=
  [ {| meta_id := "fCategory"; meta_name := "产品类别" |};
    {| meta_id := "fDate"; meta_name := "申请出库日期" |};
    {| meta_id := "fShares"; meta_name := "份数" |};
    {| meta_id := "fFee"; meta_name := "制备费" |};
    {| meta_id := "fReward"; meta_name := "出库订单（多单）奖励扣减" |};
    {| meta_id := "fCancel"; meta_name := "制剂取消收取费用" |};
    {| meta_id := "fUrgent"; meta_name := "制剂加急/非正常出库时间收取费用" |} ].

(** 2023-02-15, 2024-02-10 and 2024-03-01, at 12:00 UTC. *)
Definition feb2023 : JsValue := JNumber 1676462400000.
Definition feb2024 : JsValue := JNumber 1707566400000.
Definition mar2024 : JsValue := JNumber 1709294400000.

Definition start (c : Config) : Machine State unit :=
  {| host := initial; trace := []; locals := tt |}.

(** The handles of the source table's fields on this host. *)
Definition fields : SourceFields :=
  {| productCategoryField := {| field_table := sourceId; field_id := "fCategory" |};
     outDateField := {| field_table := sourceId; field_id := "fDate" |};
     sharesField := {| field_table := sourceId; field_id := "fShares" |};
     preparationFeeField := {| field_table := sourceId; field_id := "fFee" |};
     rewardDeductionField := {| field_table := sourceId; field_id := "fReward" |};
     cancelFeeField := {| field_table := sourceId; field_id := "fCancel" |};
     urgentFeeField := {| field_table := sourceId; field_id := "fUrgent" |} |}.

(** The value of a cell, for a cell that can be read. *)
Definition cell (c : Config) (fieldId recordId : string) : JsValue :=
  match readCell c {| field_table := sourceId; field_id := fieldId |} recordId with
  | Ok v => v
  | Throw _ => JUndefined
  end.

(** The state in which [getSourceData] is called by [generate]. *)
Definition prepared (c : Config) (month : Z) : Machine State unit :=
  logged "获取源表数据中..."
    (snd (prepareTables (ops c) engine sourceId month (start c))).

(** The warnings and errors of a trace, in order. *)
Definition diagnostics (evs : list Event) : list (Level * string * option Thrown) :=
  flat_map (fun e =>
              match e with
              | EvConsole WarnLevel message error => [(WarnLevel, message, error)]
              | EvConsole ErrorLevel message error => [(ErrorLevel, message, error)]
              | _ => []
              end) evs.

End MemHost.

(** Six records: two of category A in February (of 2023 and of 2024), one
    of category B in February, one in March, one whose date is a word and
    one without category. Missing cells read as null. *)
Definition cfgA : MemHost.Config := {|
  MemHost.sourceFields := MemHost.sourceMeta;
  MemHost.sourceRecords :=
    [ ("r1", [("fCategory", Ok (JString "A")); ("fDate", Ok MemHost.feb2023);
              ("fShares", Ok (JNumber 1.5)); ("fFee", Ok (JNumber 10.125))]);
      ("r2", [("fCategory", Ok (JString "A")); ("fDate", Ok MemHost.feb2024);
              ("fShares", Ok (JNumber 2.25)); ("fFee", Ok (JNumber 0))]);
      ("r3", [("fCategory", Ok (JString "B")); ("fDate", Ok MemHost.feb2024);
              ("fShares", Ok (JNumber 3));
              ("fFee", Throw (newError "cell unavailable"))]);
      ("r4", [("fCategory", Ok (JString "B")); ("fDate", Ok MemHost.mar2024);
              ("fShares", Ok (JNumber 3)); ("fFee", Ok (JNumber 5))]);
      ("r5", [("fCategory", Ok (JString "B")); ("fDate", Ok (JString "soon"));
              ("fShares", Ok (JNumber 3)); ("fFee", Ok (JNumber 5))]);
      ("r6", [("fCategory", Ok JNull); ("fDate", Ok MemHost.feb2024);
              ("fShares", Ok (JNumber 3)); ("fFee", Ok (JNumber 5))]) ];
  MemHost.bulkFails := false;
  MemHost.failingProjects := [];
  MemHost.now := 1709294400000
|}.

(** The same table on a host that refuses bulk inserts and the cells of
    project B. *)
Definition cfgFallback : MemHost.Config := {|
  MemHost.sourceFields := MemHost.sourceFields cfgA;
  MemHost.sourceRecords := MemHost.sourceRecords cfgA;
  MemHost.bulkFails := true;
  MemHost.failingProjects := ["B"];
  MemHost.now := MemHost.now cfgA
|}.

(** A source table without records. *)
Definition cfgEmpty : MemHost.Config := {|
  MemHost.sourceFields := MemHost.sourceMeta;
  MemHost.sourceRecords := [];
  MemHost.bulkFails := false;
  MemHost.failingProjects := [];
  MemHost.now := 1709294400000
|}.

(** Two February records of category A whose shares are the two
    infinities. *)
Definition cfgInfinite : MemHost.Config := {|
  MemHost.sourceFields := MemHost.sourceMeta;
  MemHost.sourceRecords :=
    [ ("r1", [("fCategory", Ok (JString "A")); ("fDate", Ok MemHost.feb2024);
              ("fShares", Ok (JNumber infinity))]);
      ("r2", [("fCategory", Ok (JString "A")); ("fDate", Ok MemHost.feb2024);
              ("fShares", Ok (JNumber neg_infinity))]) ];
  MemHost.bulkFails := false;
  MemHost.failingProjects := [];
  MemHost.now := 1709294400000
|}.

(** One February record of category A with 0.125 shares, on a host that
    accepts bulk inserts and on one that refuses them. *)
Definition cfgEighth (bulkFails : bool) : MemHost.Config := {|
  MemHost.sourceFields := MemHost.sourceMeta;
  MemHost.sourceRecords :=
    [ ("r1", [("fCategory", Ok (JString "A")); ("fDate", Ok MemHost.feb2024);
              ("fShares", Ok (JNumber 0.125))]) ];
  MemHost.bulkFails := bulkFails;
  MemHost.failingProjects := [];
  MemHost.now := 1709294400000
|}.

(** One record of category A whose out-date is the timestamp 0: the first
    of January 1970, 08:00 local time. *)
Definition cfgEpoch : MemHost.Config := {|
  MemHost.sourceFields := MemHost.sourceMeta;
  MemHost.sourceRecords :=
    [ ("r1", [("fCategory", Ok (JString "A")); ("fDate", Ok (JNumber 0));
              ("fShares", Ok (JNumber 1.5))]) ];
  MemHost.bulkFails := false;
  MemHost.failingProjects := [];
  MemHost.now := 1709294400000
|}.

(** Two records of category A: the timestamp 0 and 2024-01-15, 12:00 UTC. *)
Definition cfgEpochPair : MemHost.Config := {|
  MemHost.sourceFields := MemHost.sourceMeta;
  MemHost.sourceRecords :=
    [ ("r1", [("fCategory", Ok (JString "A")); ("fDate", Ok (JNumber 0));
              ("fShares", Ok (JNumber 1.5))]);
      ("r2", [("fCategory", Ok (JString "A")); ("fDate", Ok (JNumber 1705320000000));
              ("fShares", Ok (JNumber 2.25))]) ];
  MemHost.bulkFails := false;
  MemHost.failingProjects := [];
  MemHost.now := 1709294400000
|}.

(** Two February records, of 2023 and of 2024, whose category is the
    label [category]. *)
Definition cfgLabel (category : string) : MemHost.Config := {|
  MemHost.sourceFields := MemHost.sourceMeta;
  MemHost.sourceRecords :=
    [ ("r1", [("fCategory", Ok (JString category)); ("fDate", Ok MemHost.feb2023);
              ("fShares", Ok (JNumber 1.5))]);
      ("r2", [("fCategory", Ok (JString category)); ("fDate", Ok MemHost.feb2024);
              ("fShares", Ok (JNumber 2.25))]) ];
  MemHost.bulkFails := false;
  MemHost.failingProjects := [];
  MemHost.now := 1709294400000
|}.

(** Two February records, of the categories "constructor" and "A". *)
Definition cfgConstructor : MemHost.Config := {|
  MemHost.sourceFields := MemHost.sourceMeta;
  MemHost.sourceRecords :=
    [ ("r1", [("fCategory", Ok (JString "constructor")); ("fDate", Ok MemHost.feb2024);
              ("fShares", Ok (JNumber 1.5))]);
      ("r2", [("fCategory", Ok (JString "A")); ("fDate", Ok MemHost.feb2024);
              ("fShares", Ok (JNumber 2.25))]) ];
  MemHost.bulkFails := false;
  MemHost.failingProjects := [];
  MemHost.now := 1709294400000
|}.

(** A source table that lacks the shares and the cancel-fee fields. *)
Definition cfgPartial : MemHost.Config := {|
  MemHost.sourceFields :=
    [ {| meta_id := "fCategory"; meta_name := "产品类别" |};
      {| meta_id := "fDate"; meta_name := "申请出库日期" |};
      {| meta_id := "fFee"; meta_name := "制备费" |};
      {| meta_id := "fReward"; meta_name := "出库订单（多单）奖励扣减" |};
      {| meta_id := "fUrgent"; meta_name := "制剂加急/非正常出库时间收取费用" |} ];
  MemHost.sourceRecords := MemHost.sourceRecords cfgA;
  MemHost.bulkFails := false;
  MemHost.failingProjects := [];
  MemHost.now := MemHost.now cfgA
|}.

(** Two February records: the category of the first and the out-date of
    the second cannot be read. *)
Definition cfgUnreadable : MemHost.Config := {|
  MemHost.sourceFields := MemHost.sourceMeta;
  MemHost.sourceRecords :=
    [ ("r1", [("fCategory", Throw (newError "cell unavailable"));
              ("fDate", Ok MemHost.feb2024); ("fShares", Ok (JNumber 1.5))]);
      ("r2", [("fCategory", Ok (JString "A"));
              ("fDate", Throw (newError "cell unavailable"));
              ("fShares", Ok (JNumber 2.25))]) ];
  MemHost.bulkFails := false;
  MemHost.failingProjects := [];
  MemHost.now := 1709294400000
|}.

(** The host of [c], except that it refuses to add the field [name]; what
    it throws is not an [Error]. *)
Definition refusingField (c : MemHost.Config) (name : string) : HostOps MemHost.State :=
  let ops := MemHost.ops c in
  {| base_getTableById := base_getTableById ops;
     base_addTable := base_addTable ops;
     table_addField := fun table config h =>
       if String.eqb (cfg_name config) name
       then (Throw (NonError (JString "refused")), h)
       else table_addField ops table config h;
     table_getFieldMetaList := table_getFieldMetaList ops;
     table_getField := table_getField ops;
     table_getRecordIdList := table_getRecordIdList ops;
     field_getValue := field_getValue ops;
     table_addRecords := table_addRecords ops;
     table_addRecord := table_addRecord ops;
     field_setValue := field_setValue ops;
     date_now := date_now ops |}.

(** The component once the tables are loaded, with a table and a month
    selected, and with nothing selected. *)
Definition appReady (month : Z) : App.State :=
  {| App.tables := [{| App.label := "出库记录"; App.value := "tblSource" |}];
     App.selectedTableId := "tblSource";
     App.selectedMonth := month;
     App.loading := false;
     App.initialLoading := false;
     App.errorMessage := None;
     App.shown := [] |}.

Definition appIdle : App.State :=
  {| App.tables := [];
     App.selectedTableId := "";
     App.selectedMonth := 2;
     App.loading := false;
     App.initialLoading := false;
     App.errorMessage := Some App.noTablesMessage;
     App.shown := [] |}.

Definition appStart (c : MemHost.Config) (st : App.State) : Machine MemHost.State App.State :=
  {| host := MemHost.initial; trace := []; locals := st |}.

(* ===================================================================== *)
(** * Reasoning about runs *)
(* ===================================================================== *)

Section EmitsRules.
Context {H L : Type} (P : Event -> Prop).

Lemma emits_ret {A} (a : A) : emits P (ret a : M H L A).
Proof. intros s. exists []. cbn. rewrite app_nil_r. auto. Qed.

Lemma emits_throw {A} error : emits P (throw error : M H L A).
Proof. intros s. exists []. cbn. rewrite app_nil_r. auto. Qed.

Lemma emits_bind {A B} (m : M H L A) (k : A -> M H L B) :
  emits P m -> (forall a, emits P (k a)) -> emits P (bind m k).
Proof.
  intros Hm Hk s. unfold bind. destruct (Hm s) as (evs & Ht & Hf).
  destruct (m s) as [[a | error] s1]; cbn in *.
  - destruct (Hk a s1) as (evs' & Ht' & Hf'). exists (evs ++ evs').
    rewrite Ht', Ht, app_assoc. split; [reflexivity | apply Forall_app; auto].
  - exists evs. auto.
Qed.

Lemma emits_tryCatch {A} (body : M H L A) handler :
  emits P body -> (forall error, emits P (handler error)) ->
  emits P (tryCatch body handler).
Proof.
  intros Hm Hk s. unfold tryCatch. destruct (Hm s) as (evs & Ht & Hf).
  destruct (body s) as [[a | error] s1]; cbn in *.
  - exists evs. auto.
  - destruct (Hk error s1) as (evs' & Ht' & Hf'). exists (evs ++ evs').
    rewrite Ht', Ht, app_assoc. split; [reflexivity | apply Forall_app; auto].
Qed.

Lemma emits_emit e : P e -> emits P (emit e : M H L unit).
Proof. intros He s. exists [e]. cbn. auto. Qed.

Lemma emits_call {A} (op : H -> Result A * H) ev :
  (forall r, P (ev r)) -> emits P (call op ev : M H L A).
Proof.
  intros He s. unfold call. destruct (op (host s)) as [r h].
  exists [ev r]. cbn. auto.
Qed.

Lemma emits_getLocals : emits P (getLocals : M H L L).
Proof. intros s. exists []. cbn. rewrite app_nil_r. auto. Qed.

Lemma emits_modifyLocals f : emits P (modifyLocals f : M H L unit).
Proof. intros s. exists []. cbn. rewrite app_nil_r. auto. Qed.

Lemma emits_readHost {A} (f : H -> A) : emits P (readHost f : M H L A).
Proof. intros s. exists []. cbn. rewrite app_nil_r. auto. Qed.

Lemma emits_orThrow {A} (x : option A) error : emits P (orThrow x error : M H L A).
Proof. destruct x; [apply emits_ret | apply emits_throw]. Qed.

Lemma emits_forOf {X} (xs : list X) (body : X -> M H L unit) :
  (forall x, emits P (body x)) -> emits P (forOf xs body).
Proof.
  intros Hb. induction xs as [| x rest IH]; cbn.
  - apply emits_ret.
  - apply emits_bind; auto.
Qed.

Lemma emits_withLocals {L' A} (init : L') (body : M H L' A) :
  emits P body -> emits P (withLocals init body : M H L A).
Proof.
  intros Hb s. unfold withLocals.
  destruct (Hb {| host := host s; trace := trace s; locals := init |}) as (evs & Ht & Hf).
  destruct (body _) as [r s1]. exists evs. cbn in *. auto.
Qed.

End EmitsRules.

(** Breaks [emits P m] down along the structure of [m]. *)
Ltac emits_step :=
  match goal with
  | |- emits _ (bind _ _) => apply emits_bind; [| intros ?]
  | |- emits _ (tryCatch _ _) => apply emits_tryCatch; [| intros ?]
  | |- emits _ (ret _) => apply emits_ret
  | |- emits _ (throw _) => apply emits_throw
  | |- emits _ (orThrow _ _) => apply emits_orThrow
  | |- emits _ (emit _) => apply emits_emit
  | |- emits _ (call _ _) => apply emits_call; intros ?
  | |- emits _ getLocals => apply emits_getLocals
  | |- emits _ (modifyLocals _) => apply emits_modifyLocals
  | |- emits _ (readHost _) => apply emits_readHost
  | |- emits _ (forOf _ _) => apply emits_forOf; intros ?
  | |- emits _ (withLocals _ _) => apply emits_withLocals
  | |- emits _ (match ?x with _ => _ end) => destruct x
  | |- emits _ (let '(_, _) := ?x in _) => destruct x
  end.

Ltac emits_auto := repeat (emits_step; cbn beta iota); try (cbn; tauto).

Section GeneratorEmits.
Context {H : Type} (ops : HostOps H) (E : Engine).

Lemma createFields_emits {L} (P : Event -> Prop) table :
  (forall c r, P (EvAddField table c r)) ->
  (forall l m e, P (EvConsole l m e)) ->
  emits P (createFields ops table : M H L unit).
Proof.
  intros HP1 HP2. unfold createFields, addField, console_error. emits_auto; auto.
Qed.

Lemma prepareTables_emits {L} (P : Event -> Prop) id month :
  (forall i r, P (EvGetTableById i r)) ->
  (forall n r, P (EvAddTable n r)) ->
  (forall t c r, P (EvAddField t c r)) ->
  (forall l m e, P (EvConsole l m e)) ->
  emits P (prepareTables ops E id month : M H L _).
Proof.
  intros HP1 HP2 HP3 HP4.
  unfold prepareTables, getTableById, addTable, console_log.
  emits_auto; auto using createFields_emits.
Qed.

End GeneratorEmits.
(* ===================================================================== *)
(** * Dictionaries: lookup, update and listing *)
(* ===================================================================== *)

Section ObjFacts.
Context {V : Type}.
Implicit Types (o : Obj.t V) (key : string) (v : V).

Lemma get_set_same key v o : Obj.get key (Obj.set key v o) = Some v.
Proof.
  induction o as [| [k w] rest IH]; cbn.
  - now rewrite String.eqb_refl.
  - destruct (String.eqb k key) eqn:Ek; cbn; rewrite Ek; auto.
Qed.

Lemma get_set_other key key' v o :
  key' <> key -> Obj.get key' (Obj.set key v o) = Obj.get key' o.
Proof.
  intros Hne. induction o as [| [k w] rest IH]; cbn.
  - destruct (String.eqb_spec key key'); congruence.
  - destruct (String.eqb_spec k key) as [-> | Hk]; cbn.
    + destruct (String.eqb_spec key key'); congruence.
    + now rewrite IH.
Qed.

Lemma member_Own key v o : Obj.get key o = Some v -> Obj.member key o = Obj.Own v.
Proof. unfold Obj.member. now intros ->. Qed.

Lemma member_Inherited key o :
  Obj.member key o = Obj.Inherited <-> Obj.get key o = None /\ Obj.inherited key = true.
Proof.
  unfold Obj.member. destruct (Obj.get key o); [split; [| intros []]; discriminate |].
  destruct (Obj.inherited key); split; auto; try discriminate. intros []. discriminate.
Qed.

Lemma member_Undefined key o :
  Obj.member key o = Obj.Undefined <-> Obj.get key o = None /\ Obj.inherited key = false.
Proof.
  unfold Obj.member. destruct (Obj.get key o); [split; [| intros []]; discriminate |].
  destruct (Obj.inherited key); split; auto; try discriminate. intros []. discriminate.
Qed.

Lemma set_set key v w o : Obj.set key v (Obj.set key w o) = Obj.set key v o.
Proof.
  induction o as [| [k u] rest IH]; cbn.
  - now rewrite String.eqb_refl.
  - destruct (String.eqb k key) eqn:Ek; cbn; rewrite Ek; congruence.
Qed.

Lemma insertIndex_perm i (kv : string * V) l :
  Permutation (map snd (Obj.insertIndex i kv l)) (kv :: map snd l).
Proof.
  induction l as [| [j kw] rest IH]; cbn; [reflexivity |].
  destruct (i <? j); cbn; [reflexivity |].
  rewrite IH. apply perm_swap.
Qed.

Lemma entries_perm o : Permutation (Obj.entries o) o.
Proof.
  unfold Obj.entries, Obj.stringEntries.
  induction o as [| kv rest IH]; cbn; [reflexivity |].
  destruct (Obj.arrayIndex (fst kv)); cbn.
  - rewrite insertIndex_perm. cbn. now apply perm_skip.
  - rewrite <- Permutation_middle. now apply perm_skip.
Qed.

Lemma keys_length o : lengthOf (Obj.keys o) = lengthOf o.
Proof.
  unfold lengthOf, Obj.keys. rewrite length_map.
  now rewrite (Permutation_length (entries_perm o)).
Qed.

Lemma keys_empty o : (lengthOf (Obj.keys o) =? 0) = true <-> o = [].
Proof.
  rewrite keys_length. unfold lengthOf. rewrite Z.eqb_eq.
  destruct o; cbn; split; intros; try easy; lia.
Qed.

End ObjFacts.

Section ObjMembers.
Context {V : Type}.

Lemma In_set key (v : V) o k w :
  In (k, w) (Obj.set key v o) -> (k = key /\ w = v) \/ In (k, w) o.
Proof.
  induction o as [| [k0 w0] rest IH]; cbn.
  - intros [[= <- <-] | []]. auto.
  - destruct (String.eqb_spec k0 key) as [-> | Hne]; cbn.
    + intros [[= <- <-] | Hin]; auto.
    + intros [Heq | Hin]; auto. destruct (IH Hin); auto.
Qed.

Lemma get_In key (v : V) o : Obj.get key o = Some v -> In (key, v) o.
Proof.
  induction o as [| [k0 w0] rest IH]; cbn; [discriminate |].
  destruct (String.eqb_spec k0 key) as [-> | Hne].
  - intros [= ->]. auto.
  - auto.
Qed.

End ObjMembers.

(* ===================================================================== *)
(** * The field resolver *)
(* ===================================================================== *)

Lemma find_FirstMatch fields name f :
  find (fun field => String.eqb (meta_name field) name) fields = Some f <->
  FirstMatch fields name f.
Proof.
  split.
  - induction fields as [| g rest IH]; cbn; [discriminate |].
    destruct (String.eqb_spec (meta_name g) name) as [Heq | Hne].
    + intros [= ->]. exists [], rest. cbn. intuition.
    + intros Hf. destruct (IH Hf) as (before & after & -> & Hn & Hb).
      exists (g :: before), after. cbn. repeat split; auto.
      intros g' [<- | Hg']; auto.
  - intros (before & after & -> & Hn & Hb).
    induction before as [| g rest IH]; cbn.
    + subst. now rewrite String.eqb_refl.
    + destruct (String.eqb_spec (meta_name g) name) as [Heq | Hne].
      * exfalso. apply (Hb g); cbn; auto.
      * apply IH. intros g' Hg'. apply Hb. cbn. auto.
Qed.

Lemma FirstMatch_unique fields name f g :
  FirstMatch fields name f -> FirstMatch fields name g -> f = g.
Proof.
  intros Hf Hg. apply find_FirstMatch in Hf, Hg. congruence.
Qed.

Lemma missingId_Located fields name :
  missingId (findFieldId fields name) = false <->
  exists id, Located fields name id.
Proof.
  unfold findFieldId, Located. split.
  - destruct (find _ fields) as [f |] eqn:Hf; cbn; [| discriminate].
    intros Hid. exists (meta_id f), f. apply find_FirstMatch in Hf.
    repeat split; auto. intros Heq. now rewrite Heq in Hid.
  - intros (id & f & Hf & <- & Hne). apply find_FirstMatch in Hf. rewrite Hf. cbn.
    now apply String.eqb_neq.
Qed.

Lemma Located_fieldIdOf {Role} (NAMES : Role -> string) fields role id :
  Located fields (NAMES role) id -> nonNull (fieldIdOf NAMES fields role) = id.
Proof.
  intros (f & Hf & <- & _). unfold fieldIdOf, findFieldId.
  apply find_FirstMatch in Hf. now rewrite Hf.
Qed.

Lemma In_missingFields {Role} (roles : list Role) (NAMES : Role -> string) fields name :
  In name (missingFields roles NAMES fields) <->
  exists role, In role roles /\ NAMES role = name /\
               ~ exists id, Located fields name id.
Proof.
  unfold missingFields. rewrite in_map_iff. split.
  - intros (role & <- & Hin). apply filter_In in Hin as [Hin Hmiss].
    exists role. repeat split; auto. intros Hloc.
    apply missingId_Located in Hloc. unfold fieldIdOf in Hmiss. congruence.
  - intros (role & Hin & <- & Hloc). exists role. split; auto.
    apply filter_In. split; auto. unfold fieldIdOf.
    destruct (missingId (findFieldId fields (NAMES role))) eqn:Hm; auto.
    exfalso. apply Hloc. now apply missingId_Located.
Qed.

Lemma resolveFields_cases {Role} (roles : list Role) (NAMES : Role -> string)
  prefix fields :
  (missingFields roles NAMES fields = [] /\
   resolveFields roles NAMES prefix fields =
     Ok (fun role => nonNull (fieldIdOf NAMES fields role)))
  \/
  (missingFields roles NAMES fields <> [] /\
   resolveFields roles NAMES prefix fields =
     Throw (newError (template [prefix; join ", " (missingFields roles NAMES fields)]))).
Proof.
  unfold resolveFields, lengthOf.
  destruct (missingFields roles NAMES fields) as [| n rest]; cbn -[template join].
  - left. auto.
  - right. split; [discriminate | reflexivity].
Qed.

(* ===================================================================== *)
(** * Numbers: NaN and the infinities under addition *)
(* ===================================================================== *)

Section Floats.

Lemma SFeqb_refl x : SFeqb x x = negb (match x with S754_nan => true | _ => false end).
Proof.
  destruct x as [s | s | | s m e]; try reflexivity; try (destruct s; reflexivity).
  unfold SFeqb, SFcompare.
  destruct s; rewrite Z.compare_refl, Pos.compare_cont_refl; reflexivity.
Qed.

Lemma isNaN_Prim2SF x : isNaN x = true <-> Prim2SF x = S754_nan.
Proof.
  unfold isNaN. rewrite eqb_spec, SFeqb_refl, negb_involutive.
  destruct (Prim2SF x); split; congruence.
Qed.

Lemma isNaN_false x : isNaN x = false <-> Prim2SF x <> S754_nan.
Proof.
  rewrite <- isNaN_Prim2SF. destruct (isNaN x); split; congruence.
Qed.

Lemma isFiniteNumber_not_NaN x : isFiniteNumber x = true -> isNaN x = false.
Proof.
  unfold isFiniteNumber. intros Hf. apply isNaN_false. destruct (Prim2SF x); congruence.
Qed.

Lemma shr_1_nonneg mrs : 0 <= shr_m mrs -> 0 <= shr_m (shr_1 mrs).
Proof.
  destruct mrs as [m r s]. cbn.
  destruct m as [| p | p]; try destruct p; cbn; lia.
Qed.

Lemma iter_pos_invariant {A} (f : A -> A) (Inv : A -> Prop) :
  (forall a, Inv a -> Inv (f a)) ->
  forall n a, Inv a -> Inv (iter_pos f n a).
Proof.
  intros Hf. induction n as [n IH | n IH |]; intros a Ha; cbn; auto.
Qed.

Lemma shr_nonneg mrs e n : 0 <= shr_m mrs -> 0 <= shr_m (fst (shr mrs e n)).
Proof.
  intros Hm. unfold shr. destruct n; cbn; auto.
  apply (iter_pos_invariant shr_1 (fun r => 0 <= shr_m r)); auto using shr_1_nonneg.
Qed.

Lemma shr_fexp_nonneg p em m e l :
  0 <= m -> 0 <= shr_m (fst (shr_fexp p em m e l)).
Proof.
  intros Hm. unfold shr_fexp. apply shr_nonneg.
  destruct l as [| []]; cbn; auto.
Qed.

Lemma round_nearest_even_nonneg m l : 0 <= m -> 0 <= round_nearest_even m l.
Proof.
  intros Hm. unfold round_nearest_even.
  destruct l as [| []]; try destruct (Z.even m); lia.
Qed.

Lemma binary_round_aux_not_nan p em s m e l :
  0 <= m -> binary_round_aux p em s m e l <> S754_nan.
Proof.
  intros Hm. unfold binary_round_aux.
  pose proof (shr_fexp_nonneg p em m e l Hm) as H1.
  destruct (shr_fexp p em m e l) as [mrs' e']. cbn in H1.
  pose proof (shr_fexp_nonneg p em _ e' loc_Exact
                (round_nearest_even_nonneg _ (loc_of_shr_record mrs') H1)) as H2.
  destruct (shr_fexp p em (round_nearest_even _ _) e' loc_Exact) as [mrs'' e''].
  cbn in H2. destruct (shr_m mrs'') as [| q | q]; try lia; try discriminate.
  destruct (e'' <=? em - p); discriminate.
Qed.

Lemma binary_normalize_not_nan p em m e sz :
  binary_normalize p em m e sz <> S754_nan.
Proof.
  unfold binary_normalize, binary_round.
  destruct m as [| q | q]; [discriminate | |];
    destruct (shl_align _ _ _) as [mz ez]; apply binary_round_aux_not_nan; lia.
Qed.

(** A sum is NaN only if a term is NaN or the terms are the two
    infinities: adding a finite number to a number gives a number. *)
Lemma add_finite_not_NaN (a v : float) :
  isNaN a = false -> isFiniteNumber v = true -> isNaN (a + v)%float = false.
Proof.
  intros Ha Hv. apply isNaN_false in Ha. apply isNaN_false.
  unfold isFiniteNumber in Hv. rewrite add_spec. unfold SF64add, SFadd.
  destruct (Prim2SF a) as [sa | sa | | sa ma ea]; try congruence;
    destruct (Prim2SF v) as [sv | sv | | sv mv ev]; try congruence;
    cbn; try discriminate.
  - destruct sa, sv; discriminate.
  - apply binary_normalize_not_nan.
Qed.

End Floats.

(* ===================================================================== *)
(** * Runs of the generator, step by step *)
(* ===================================================================== *)

Section Runs.
Context {H : Type} (ops : HostOps H) (E : Engine).

Lemma bind_Ok {L A B} (m : M H L A) (k : A -> M H L B) s a s' :
  m s = (Ok a, s') -> bind m k s = k a s'.
Proof. unfold bind. now intros ->. Qed.

Lemma bind_Throw {L A B} (m : M H L A) (k : A -> M H L B) s error s' :
  m s = (Throw error, s') -> bind m k s = (Throw error, s').
Proof. unfold bind. now intros ->. Qed.

Lemma safeGetNumberValue_run {L} field recordId (s : Machine H L) :
  safeGetNumberValue ops E field recordId s =
  let '(r, h) := field_getValue ops field recordId (host s) in
  (Ok (normalized E r),
   {| host := h;
      trace := trace s ++ EvGetValue field recordId r ::
                 match r with
                 | Ok _ => []
                 | Throw error =>
                     [EvConsole WarnLevel
                        (template ["获取字段值失败: "; ThrownToString E error]) None]
                 end;
      locals := locals s |}).
Proof.
  unfold safeGetNumberValue, tryCatch, bind, getValue, call, console_warn, emit, ret.
  destruct (field_getValue ops field recordId (host s)) as [[v | error] h]; cbn.
  - destruct v; reflexivity.
  - now rewrite <- app_assoc.
Qed.

Lemma safeGetNumberValue_Ok {L} field recordId (s : Machine H L) :
  exists r h evs,
    ReadOf ops field recordId r /\
    safeGetNumberValue ops E field recordId s =
    (Ok (normalized E r),
     {| host := h; trace := trace s ++ evs; locals := locals s |}).
Proof.
  rewrite safeGetNumberValue_run. unfold ReadOf.
  destruct (field_getValue ops field recordId (host s)) as [r h] eqn:Hr.
  exists r, h. eexists. split; [| reflexivity]. exists (host s). now rewrite Hr.
Qed.

Lemma updateGroup_run key f g (s : Machine H AggState) :
  Obj.get key (groupedData (locals s)) = Some g ->
  updateGroup key f s =
  (Ok tt, {| host := host s; trace := trace s;
             locals := setGroupedData (Obj.set key (f g)) (locals s) |}).
Proof.
  intros Hg. unfold updateGroup, bind, getLocals. now rewrite (member_Own _ _ _ Hg).
Qed.

Lemma updateGroup_inherited key f (s : Machine H AggState) :
  Obj.member key (groupedData (locals s)) = Obj.Inherited ->
  updateGroup key f s = (Ok tt, s).
Proof.
  intros Hm. unfold updateGroup, bind, getLocals. now rewrite Hm.
Qed.

End Runs.

Section RecordLoop.
Context {H : Type} (ops : HostOps H) (E : Engine).

Lemma bind_updateGroup {B} key f g (k : unit -> M H AggState B) s :
  Obj.get key (groupedData (locals s)) = Some g ->
  bind (updateGroup key f) k s =
  k tt {| host := host s; trace := trace s;
          locals := setGroupedData (Obj.set key (f g)) (locals s) |}.
Proof. intros Hg. apply bind_Ok. now apply updateGroup_run. Qed.

Lemma bind_updateGroup_inherited {B} key f (k : unit -> M H AggState B) s :
  Obj.member key (groupedData (locals s)) = Obj.Inherited ->
  bind (updateGroup key f) k s = k tt s.
Proof. intros Hm. apply bind_Ok. now apply updateGroup_inherited. Qed.

(** One turn of the record loop never throws; it leaves the groups as they
    were, unless the date read gives a date in the month and the category
    read gives a non-empty value whose key does not find a member inherited
    from [Object.prototype]: then the record is accumulated under its
    category key, with the normalized values of five cell reads. *)
Lemma processRecord_run fs month recordId (s : Machine H AggState) :
  exists s',
    processRecord ops E fs month recordId s = (Ok tt, s') /\
    let '(rd, h1) := field_getValue ops (outDateField fs) recordId (host s) in
    match rd with
    | Ok date =>
        if dateInMonth E month date then
          let '(rc, h2) := field_getValue ops (productCategoryField fs) recordId h1 in
          match rc with
          | Ok cat =>
              if ToBoolean cat then
                match Obj.member (ToString E cat) (groupedData (locals s)) with
                | Obj.Inherited => groupedData (locals s') = groupedData (locals s)
                | _ =>
                    exists r1 r2 r3 r4 r5,
                      ReadOf ops (sharesField fs) recordId r1 /\
                      ReadOf ops (preparationFeeField fs) recordId r2 /\
                      ReadOf ops (rewardDeductionField fs) recordId r3 /\
                      ReadOf ops (cancelFeeField fs) recordId r4 /\
                      ReadOf ops (urgentFeeField fs) recordId r5 /\
                      groupedData (locals s') =
                        accumulate (ToString E cat)
                          (normalized E r1) (normalized E r2) (normalized E r3)
                          (normalized E r4) (normalized E r5) (groupedData (locals s))
                end
              else groupedData (locals s') = groupedData (locals s)
          | Throw _ => groupedData (locals s') = groupedData (locals s)
          end
        else groupedData (locals s') = groupedData (locals s)
    | Throw _ => groupedData (locals s') = groupedData (locals s)
    end.
Proof.
  unfold processRecord, tryCatch. unfold bind at 1. unfold getValue at 1, call.
  destruct (field_getValue ops (outDateField fs) recordId (host s))
    as [[date | e] h1]; cbn.
  2: { eexists; split; reflexivity. }
  unfold dateInMonth. destruct (ToBoolean date); cbn.
  2: { eexists; split; reflexivity. }
  destruct (newDate E date) as [t |]; cbn.
  2: { eexists; split; reflexivity. }
  destruct (getMonth E t + 1 =? month); cbn.
  2: { eexists; split; reflexivity. }
  unfold bind at 1. cbn. unfold bind at 1. unfold getValue at 1, call. cbn.
  destruct (field_getValue ops (productCategoryField fs) recordId h1)
    as [[cat | e] h2]; cbn.
  2: { eexists; split; reflexivity. }
  destruct (ToBoolean cat); cbn.
  2: { eexists; split; reflexivity. }
  set (key := ToString E cat).
  set (gd := groupedData (locals s)).
  destruct (Obj.member key gd) eqn:Hmember.
  2: { (* an inherited member: the five cells are read, no group changes *)
       unfold bind at 1. cbn [ret].
       rewrite bind_updateGroup_inherited by exact Hmember.
       repeat match goal with
       | |- context [bind (safeGetNumberValue ?o ?e ?f ?rid) _ ?s0] =>
           let r := fresh "r" in
           let h := fresh "h" in
           let evs := fresh "evs" in
           let Hr := fresh "Hr" in
           let Hrun := fresh "Hrun" in
           destruct (safeGetNumberValue_Ok o e f rid s0) as (r & h & evs & Hr & Hrun);
           rewrite (bind_Ok _ _ _ _ _ Hrun); clear Hrun;
           rewrite bind_updateGroup_inherited by exact Hmember
       end.
       cbn. eexists. split; reflexivity. }
  all: set (g := match Obj.get key gd with Some g => g | None => emptyGroup end);
    match goal with |- context [bind ?init _ ?s0] =>
      assert (Hinit : exists s1, init s0 = (Ok tt, s1) /\
                Obj.get key (groupedData (locals s1)) = Some g /\
                forall x, Obj.set key x (groupedData (locals s1)) = Obj.set key x gd)
    end;
    [ subst g;
      first [ apply member_Undefined in Hmember as [Hg _]
            | unfold Obj.member in Hmember;
              destruct (Obj.get key gd) as [g0 |] eqn:Hg;
              [| destruct (Obj.inherited key); discriminate] ];
      eexists; (split; [reflexivity |]); cbn; fold gd; rewrite ?Hg;
      first [ split; [apply get_set_same | intros; apply set_set]
            | auto ]
    | ];
    destruct Hinit as (s1 & Hinit & Hget & Hset);
    rewrite (bind_Ok _ _ _ _ _ Hinit);
    rewrite (bind_updateGroup key _ _ _ _ Hget);
    repeat match goal with
    | |- context [bind (safeGetNumberValue ?o ?e ?f ?rid) _ ?s0] =>
        let r := fresh "r" in
        let h := fresh "h" in
        let evs := fresh "evs" in
        let Hr := fresh "Hr" in
        let Hrun := fresh "Hrun" in
        destruct (safeGetNumberValue_Ok o e f rid s0) as (r & h & evs & Hr & Hrun);
        rewrite (bind_Ok _ _ _ _ _ Hrun); clear Hrun;
        erewrite bind_updateGroup by (cbn; apply get_set_same)
    end;
    cbn; eexists; (split; [reflexivity |]);
    do 5 eexists; repeat (split; [eassumption |]);
    cbn; rewrite !set_set, Hset; reflexivity.
Qed.

Lemma processRecord_emits P fs month recordId :
  (forall f i r, P (EvGetValue f i r)) ->
  (forall l m e, P (EvConsole l m e)) ->
  emits P (processRecord ops E fs month recordId).
Proof.
  intros HP1 HP2.
  unfold processRecord, updateGroup, safeGetNumberValue, getValue, console_warn.
  emits_auto; auto.
Qed.

(** ** Counting *)

Lemma totalCount_set key v gd :
  totalCount (Obj.set key v gd) = totalCount gd - countOf key gd + count v.
Proof.
  unfold countOf. induction gd as [| [k w] rest IH]; cbn.
  - lia.
  - destruct (String.eqb k key); cbn; [lia |].
    fold (totalCount (Obj.set key v rest)). fold (totalCount rest). lia.
Qed.

Lemma countOf_set key key' v gd :
  countOf key' (Obj.set key v gd) =
  if String.eqb key key' then count v else countOf key' gd.
Proof.
  unfold countOf. destruct (String.eqb_spec key key') as [<- | Hne].
  - now rewrite get_set_same.
  - rewrite get_set_other; auto.
Qed.

Lemma accumulate_count key v1 v2 v3 v4 v5 gd :
  count (addUrgentFee v5 (addCancelFee v4 (addRewardDeduction v3
           (addPreparationFee v2 (addShares v1
              (addCount (match Obj.get key gd with
                         | Some g => g
                         | None => emptyGroup
                         end)))))))
  = countOf key gd + 1.
Proof. unfold countOf. destruct (Obj.get key gd); reflexivity. Qed.

Lemma totalCount_accumulate key v1 v2 v3 v4 v5 gd :
  totalCount (accumulate key v1 v2 v3 v4 v5 gd) = totalCount gd + 1.
Proof.
  unfold accumulate. rewrite totalCount_set, accumulate_count. lia.
Qed.

Lemma countOf_accumulate key key' v1 v2 v3 v4 v5 gd :
  countOf key' (accumulate key v1 v2 v3 v4 v5 gd) =
  countOf key' gd + (if String.eqb key key' then 1 else 0).
Proof.
  unfold accumulate. rewrite countOf_set, accumulate_count.
  destruct (String.eqb_spec key key') as [<- | Hne]; lia.
Qed.

End RecordLoop.

Section Aggregation.
Context {H : Type} (ops : HostOps H) (E : Engine).

(** One turn of the loop on a record whose cells can be read and whose
    key, if it enters a group, names no inherited member. *)
Lemma processRecord_counts fs month recordId date cat (s : Machine H AggState) :
  (forall h, fst (field_getValue ops (outDateField fs) recordId h) = Ok date) ->
  (forall h, fst (field_getValue ops (productCategoryField fs) recordId h) = Ok cat) ->
  (contributes E month date cat = true -> Obj.inherited (ToString E cat) = false) ->
  exists s',
    processRecord ops E fs month recordId s = (Ok tt, s') /\
    totalCount (groupedData (locals s')) =
      totalCount (groupedData (locals s)) + (if contributes E month date cat then 1 else 0) /\
    forall key,
      countOf key (groupedData (locals s')) =
      countOf key (groupedData (locals s)) +
      (if contributesTo E month key date cat then 1 else 0).
Proof.
  intros Hdate Hcat Hplain.
  destruct (processRecord_run ops E fs month recordId s) as (s' & Hrun & Hgd).
  exists s'. split; [exact Hrun |].
  unfold contributesTo, contributes in *.
  specialize (Hdate (host s)).
  destruct (field_getValue ops (outDateField fs) recordId (host s)) as [rd h1].
  cbn in Hdate. subst rd.
  destruct (dateInMonth E month date); cbn.
  2: { rewrite Hgd. split; [lia | intros; lia]. }
  specialize (Hcat h1).
  destruct (field_getValue ops (productCategoryField fs) recordId h1) as [rc h2].
  cbn in Hcat. subst rc.
  destruct (ToBoolean cat); cbn.
  2: { rewrite Hgd. split; [lia | intros; lia]. }
  specialize (Hplain eq_refl).
  destruct (Obj.member (ToString E cat) (groupedData (locals s))) eqn:Hmember.
  2: { apply member_Inherited in Hmember as [_ Hinh]. congruence. }
  all: destruct Hgd as (r1 & r2 & r3 & r4 & r5 & _ & _ & _ & _ & _ & ->);
    (split; [apply totalCount_accumulate | intros; apply countOf_accumulate]).
Qed.

(** One turn of the loop, as seen on the count of a key that names no
    inherited member, whatever the key of the record. *)
Lemma processRecord_countOf fs month recordId date cat key (s : Machine H AggState) :
  (forall h, fst (field_getValue ops (outDateField fs) recordId h) = Ok date) ->
  (forall h, fst (field_getValue ops (productCategoryField fs) recordId h) = Ok cat) ->
  Obj.inherited key = false ->
  exists s',
    processRecord ops E fs month recordId s = (Ok tt, s') /\
    countOf key (groupedData (locals s')) =
    countOf key (groupedData (locals s)) +
    (if contributesTo E month key date cat then 1 else 0).
Proof.
  intros Hdate Hcat Hkey.
  destruct (processRecord_run ops E fs month recordId s) as (s' & Hrun & Hgd).
  exists s'. split; [exact Hrun |].
  unfold contributesTo, contributes in *.
  specialize (Hdate (host s)).
  destruct (field_getValue ops (outDateField fs) recordId (host s)) as [rd h1].
  cbn in Hdate. subst rd.
  destruct (dateInMonth E month date); cbn.
  2: { rewrite Hgd. lia. }
  specialize (Hcat h1).
  destruct (field_getValue ops (productCategoryField fs) recordId h1) as [rc h2].
  cbn in Hcat. subst rc.
  destruct (ToBoolean cat); cbn.
  2: { rewrite Hgd. lia. }
  destruct (Obj.member (ToString E cat) (groupedData (locals s))) eqn:Hmember.
  2: { apply member_Inherited in Hmember as [_ Hinh]. rewrite Hgd.
       destruct (String.eqb (ToString E cat) key) eqn:Heq; [| lia].
       apply String.eqb_eq in Heq. congruence. }
  all: destruct Hgd as (r1 & r2 & r3 & r4 & r5 & _ & _ & _ & _ & _ & ->);
    apply countOf_accumulate.
Qed.

Lemma forOf_processRecord_counts fs month dateOf catOf recordIdList :
  Readable ops fs recordIdList dateOf catOf ->
  PlainKeys E month dateOf catOf recordIdList ->
  forall s : Machine H AggState,
  exists s',
    forOf recordIdList (processRecord ops E fs month) s = (Ok tt, s') /\
    totalCount (groupedData (locals s')) =
      totalCount (groupedData (locals s)) +
      lengthOf (matchingRecords E month dateOf catOf recordIdList) /\
    forall key,
      countOf key (groupedData (locals s')) =
      countOf key (groupedData (locals s)) +
      lengthOf (matchingRecordsOf E month key dateOf catOf recordIdList).
Proof.
  unfold lengthOf.
  induction recordIdList as [| recordId rest IH]; intros Hread Hplain s; cbn.
  - exists s. repeat split; intros; lia.
  - destruct (processRecord_counts fs month recordId (dateOf recordId) (catOf recordId) s)
      as (s1 & Hrun & Htot & Hkey).
    { intros h. apply Hread. cbn. auto. }
    { intros h. apply Hread. cbn. auto. }
    { apply Hplain. cbn. auto. }
    destruct (IH (fun r Hin => Hread r (or_intror Hin))
                 (fun r Hin => Hplain r (or_intror Hin)) s1)
      as (s' & Hloop & Htot' & Hkey').
    exists s'. rewrite (bind_Ok _ _ _ _ _ Hrun). split; [exact Hloop |]. split.
    + rewrite Htot', Htot.
      unfold matchingRecords. cbn [filter].
      destruct (contributes E month (dateOf recordId) (catOf recordId)); cbn [List.length]; lia.
    + intros key. rewrite Hkey', Hkey. unfold matchingRecordsOf. cbn [filter].
      destruct (contributesTo E month key (dateOf recordId) (catOf recordId));
        cbn [List.length]; lia.
Qed.

Lemma forOf_processRecord_countOf fs month dateOf catOf key recordIdList :
  Readable ops fs recordIdList dateOf catOf ->
  Obj.inherited key = false ->
  forall s : Machine H AggState,
  exists s',
    forOf recordIdList (processRecord ops E fs month) s = (Ok tt, s') /\
    countOf key (groupedData (locals s')) =
    countOf key (groupedData (locals s)) +
    lengthOf (matchingRecordsOf E month key dateOf catOf recordIdList).
Proof.
  unfold lengthOf. intros Hread Hkey. revert Hread.
  induction recordIdList as [| recordId rest IH]; intros Hread s; cbn.
  - exists s. split; [reflexivity | lia].
  - destruct (processRecord_countOf fs month recordId (dateOf recordId) (catOf recordId)
                key s) as (s1 & Hrun & Hcount); auto.
    { intros h. apply Hread. cbn. auto. }
    { intros h. apply Hread. cbn. auto. }
    destruct (IH (fun r Hin => Hread r (or_intror Hin)) s1) as (s' & Hloop & Hcount').
    exists s'. rewrite (bind_Ok _ _ _ _ _ Hrun). split; [exact Hloop |].
    rewrite Hcount', Hcount. unfold matchingRecordsOf. cbn [filter].
    destruct (contributesTo E month key (dateOf recordId) (catOf recordId));
      cbn [List.length]; lia.
Qed.

Lemma forOf_processRecord_Ok fs month recordIdList (s : Machine H AggState) :
  exists s', forOf recordIdList (processRecord ops E fs month) s = (Ok tt, s').
Proof.
  revert s. induction recordIdList as [| recordId rest IH]; intros s; cbn.
  - now exists s.
  - destruct (processRecord_run ops E fs month recordId s) as (s1 & Hrun & _).
    rewrite (bind_Ok _ _ _ _ _ Hrun). apply IH.
Qed.

(** The loop ends, and [aggregate] returns the groups it has built. *)
Lemma aggregate_run fs month recordIdList (s : Machine H AggState) :
  exists s1,
    forOf recordIdList (processRecord ops E fs month) s = (Ok tt, s1) /\
    exists e,
      aggregate ops E fs month recordIdList s =
      (Ok (groupedData (locals s1)),
       {| host := host s1; trace := trace s1 ++ [e]; locals := locals s1 |}).
Proof.
  destruct (forOf_processRecord_Ok fs month recordIdList s) as (s1 & Hloop).
  exists s1. split; [exact Hloop |]. eexists.
  unfold aggregate. rewrite (bind_Ok _ _ _ _ _ Hloop). reflexivity.
Qed.

(** [getSourceData], once the fields are open and the record list is not
    empty: the groups that the record loop builds from no groups. *)
Lemma getSourceData_run {L} sourceTable month (s s1 : Machine H L) fs recordIdList h2 :
  openSourceFields ops sourceTable s = (Ok fs, s1) ->
  table_getRecordIdList ops sourceTable (host s1) = (Ok (Some recordIdList), h2) ->
  recordIdList <> [] ->
  exists (s0 s2 : Machine H AggState) evs,
    host s0 = h2 /\ locals s0 = initialAggState /\
    forOf recordIdList (processRecord ops E fs month) s0 = (Ok tt, s2) /\
    getSourceData ops E sourceTable month s =
    (Ok (groupedData (locals s2)),
     {| host := host s2; trace := trace s1 ++ evs; locals := locals s1 |}).
Proof.
  intros Hopen Hlist Hne.
  unfold getSourceData, tryCatch. rewrite (bind_Ok _ _ _ _ _ Hopen).
  unfold bind at 1. unfold getRecordIdList at 1, call. rewrite Hlist.
  destruct recordIdList as [| r0 rest]; [congruence |].
  set (rids := r0 :: rest) in *.
  unfold bind at 1, console_log at 1, emit. cbn -[rids aggregate].
  unfold withLocals. cbn -[rids aggregate].
  match goal with |- context [aggregate ops E fs month rids ?s0] =>
    destruct (aggregate_run fs month rids s0) as (s2 & Hloop & e & Hagg);
    exists s0, s2
  end.
  rewrite Hagg. cbn -[rids].
  pose proof (emits_forOf (fun _ => True) rids (processRecord ops E fs month)
                (fun x => processRecord_emits ops E _ fs month x
                            (fun _ _ _ => I) (fun _ _ _ => I))) as Hem.
  match type of Hloop with forOf _ _ ?s0 = _ => specialize (Hem s0) end.
  rewrite Hloop in Hem. destruct Hem as (evs & Htr & _). cbn in Htr.
  eexists. repeat split; [exact Hloop |]. rewrite Htr.
  rewrite <- !app_assoc. reflexivity.
Qed.

End Aggregation.

Section MoreRuns.
Context {H : Type} (ops : HostOps H) (E : Engine).

Lemma openSourceFields_emits {L} (P : Event -> Prop) sourceTable :
  (forall t r, P (EvGetFieldMetaList t r)) ->
  (forall t i r, P (EvGetField t i r)) ->
  emits P (openSourceFields ops sourceTable : M H L _).
Proof.
  intros HP1 HP2. unfold openSourceFields, getFieldMetaList, getField.
  emits_auto; auto.
Qed.

Lemma run_emits {L A} (P : Event -> Prop) (m : M H L A) s r s' :
  emits P m -> m s = (r, s') ->
  exists evs, trace s' = trace s ++ evs /\ Forall P evs.
Proof. intros Hem Hrun. specialize (Hem s). now rewrite Hrun in Hem. Qed.

Lemma generate_valid sourceTableId month (s : Machine H unit) :
  sourceTableId <> "" -> 1 <= month <= 12 ->
  generate ops E sourceTableId month s =
  tryCatch
    ('(sourceTable, newTable) <- prepareTables ops E sourceTableId month ;;
     console_log "获取源表数据中..." ;;
     sourceData <- getSourceData ops E sourceTable month ;;
     (if lengthOf (Obj.keys sourceData) =? 0
      then throw (newError (noDataMessage month))
      else ret tt) ;;
     console_log "写入数据到新表中..." ;;
     writeDataToNewTable ops newTable sourceData ;;
     console_log "汇总表生成完成")
    (fun error =>
       console_error "生成汇总表时发生错误:" (Some error) ;;
       rethrow error "生成汇总表时发生未知错误") s.
Proof.
  intros Hid Hm. unfold generate.
  destruct (String.eqb_spec sourceTableId ""); [congruence |].
  replace ((month <? 1) || (month >? 12)) with false; [reflexivity |].
  symmetry. apply orb_false_iff. rewrite Z.gtb_ltb. split; apply Z.ltb_ge; lia.
Qed.

Lemma getSourceData_emits {L} (P : Event -> Prop) sourceTable month :
  (forall t r, P (EvGetFieldMetaList t r)) ->
  (forall t i r, P (EvGetField t i r)) ->
  (forall t r, P (EvGetRecordIdList t r)) ->
  (forall f i r, P (EvGetValue f i r)) ->
  (forall l m e, P (EvConsole l m e)) ->
  emits P (getSourceData ops E sourceTable month : M H L _).
Proof.
  intros HP1 HP2 HP3 HP4 HP5.
  unfold getSourceData, aggregate, getRecordIdList, console_log, console_error, rethrow.
  emits_auto; auto using openSourceFields_emits, processRecord_emits.
Qed.

Lemma noRecords_is_not_noData month : noRecordsMessage <> noDataMessage month.
Proof. unfold noRecordsMessage, noDataMessage, template. cbn. discriminate. Qed.

Lemma In_trace_run {L A} (m : M H L A) s e :
  emits (fun _ => True) m -> In e (trace s) -> In e (trace (snd (m s))).
Proof.
  intros Hm Hin. destruct (Hm s) as (evs & -> & _). apply in_or_app. auto.
Qed.

Lemma prepareTables_names_the_table {L} sourceTableId month (m : Machine H L) t h1 :
  base_getTableById ops sourceTableId (host m) = (Ok (Some t), h1) ->
  exists r,
    In (EvAddTable (newTableName (getFullYear E (date_now ops h1)) month) r)
       (trace (snd (prepareTables ops E sourceTableId month m))).
Proof.
  intros Hget. unfold prepareTables.
  unfold bind at 1. unfold getTableById at 1, call. rewrite Hget. cbn.
  unfold addTable, call. unfold bind at 1. cbn.
  match goal with |- context [base_addTable ops ?n h1] =>
    destruct (base_addTable ops n h1) as [r h2]
  end. exists r.
  destruct r as [a | error]; cbn.
  - apply In_trace_run.
    + unfold getTableById, console_log.
      emits_auto; auto using createFields_emits.
    + cbn. apply in_or_app. right. cbn. auto.
  - apply in_or_app. right. cbn. auto.
Qed.

Lemma length_matching_two {A} (p : A -> bool) before r1 between r2 after :
  p r1 = true -> p r2 = true ->
  2 <= lengthOf (filter p (before ++ r1 :: between ++ r2 :: after)).
Proof.
  intros H1 H2. unfold lengthOf.
  rewrite filter_app. cbn. rewrite H1. rewrite filter_app. cbn. rewrite H2.
  rewrite length_app. cbn. rewrite length_app. cbn. lia.
Qed.

Lemma normalized_not_NaN r : isNaN (normalized E r) = false.
Proof.
  destruct r as [v | error]; [| reflexivity].
  assert (Hgen : isNaN (let n := ToNumber E v in if isNaN n then 0%float else n) = false).
  { cbn zeta. destruct (isNaN (ToNumber E v)) eqn:Hn; [reflexivity | exact Hn]. }
  destruct v; try exact Hgen; reflexivity.
Qed.

Lemma accumulate_NoNaN key v1 v2 v3 v4 v5 gd :
  GroupsNoNaN gd ->
  isFiniteNumber v1 = true -> isFiniteNumber v2 = true -> isFiniteNumber v3 = true ->
  isFiniteNumber v4 = true -> isFiniteNumber v5 = true ->
  GroupsNoNaN (accumulate key v1 v2 v3 v4 v5 gd).
Proof.
  intros Hgd H1 H2 H3 H4 H5 k g Hin. unfold accumulate in Hin.
  apply In_set in Hin as [[_ ->] | Hin]; [| eauto].
  assert (Hg : NoNaN match Obj.get key gd with Some g => g | None => emptyGroup end).
  { destruct (Obj.get key gd) as [g |] eqn:Hget.
    - eapply Hgd, get_In, Hget.
    - repeat split; reflexivity. }
  destruct Hg as (N1 & N2 & N3 & N4 & N5).
  repeat split; cbn; apply add_finite_not_NaN; assumption.
Qed.

Lemma processRecord_NoNaN fs month recordId (s : Machine H AggState) :
  (forall field r, In field (numericFields fs) -> ReadOf ops field recordId r ->
                   isFiniteNumber (normalized E r) = true) ->
  GroupsNoNaN (groupedData (locals s)) ->
  exists s',
    processRecord ops E fs month recordId s = (Ok tt, s') /\
    GroupsNoNaN (groupedData (locals s')).
Proof.
  intros Hfin Hgd.
  destruct (processRecord_run ops E fs month recordId s) as (s' & Hrun & Hcases).
  exists s'. split; [exact Hrun |].
  destruct (field_getValue ops (outDateField fs) recordId (host s)) as [[date | e] h1];
    [| now rewrite Hcases].
  destruct (dateInMonth E month date); [| now rewrite Hcases].
  destruct (field_getValue ops (productCategoryField fs) recordId h1) as [[cat | e] h2];
    [| now rewrite Hcases].
  destruct (ToBoolean cat); [| now rewrite Hcases].
  destruct (Obj.member (ToString E cat) (groupedData (locals s)));
    [| now rewrite Hcases |];
    destruct Hcases as (r1 & r2 & r3 & r4 & r5 & R1 & R2 & R3 & R4 & R5 & ->);
    apply accumulate_NoNaN; auto; eapply Hfin; eauto; cbn; auto 10.
Qed.

Lemma forOf_processRecord_NoNaN fs month recordIdList :
  FiniteReads ops E fs recordIdList ->
  forall s : Machine H AggState,
    GroupsNoNaN (groupedData (locals s)) ->
    exists s',
      forOf recordIdList (processRecord ops E fs month) s = (Ok tt, s') /\
      GroupsNoNaN (groupedData (locals s')).
Proof.
  induction recordIdList as [| recordId rest IH]; intros Hfin s Hgd; cbn.
  - now exists s.
  - destruct (processRecord_NoNaN fs month recordId s) as (s1 & Hrun & Hgd1); auto.
    { intros field r Hf Hr. eapply Hfin; eauto. cbn. auto. }
    rewrite (bind_Ok _ _ _ _ _ Hrun). apply IH; auto.
    intros field r0 r Hf Hin. apply Hfin; cbn; auto.
Qed.

End MoreRuns.

Section Writer.
Context {H : Type} (ops : HostOps H) (E : Engine).

Lemma RowOutcome_incl newTable tf evs evs' entry ok :
  incl evs evs' -> RowOutcome newTable tf evs entry ok -> RowOutcome newTable tf evs' entry ok.
Proof.
  intros Hincl. destruct ok; cbn.
  - intros (recordId & H1 & H2 & H3 & H4 & H5 & H6 & H7 & H8).
    exists recordId. repeat split; apply Hincl; assumption.
  - intros (error & H1). exists error. now apply Hincl.
Qed.

Ltac row_call :=
  unfold bind at 1; first [unfold addRecord at 1 | unfold setValue at 1];
  unfold call at 1;
  match goal with
  | |- context [table_addRecord ops ?t (host ?s)] =>
      destruct (table_addRecord ops t (host s)) as [[? | ?] ?]
  | |- context [field_setValue ops ?f ?i ?v (host ?s)] =>
      destruct (field_setValue ops f i v (host s)) as [[? | ?] ?]
  end; repeat match goal with u : unit |- _ => destruct u end;
  cbn [host trace locals].

Ltac row_done ok :=
  cbn; eexists; eexists; exists ok; split; [reflexivity |];
  cbn [host trace locals]; rewrite <- ?app_assoc; cbn [app];
  split; [reflexivity |]; split; [lia |];
  cbn -[In template]; eexists; repeat split;
  cbn [In]; repeat (first [left; reflexivity | right]).

Lemma writeRow_run newTable tf entry (s : Machine H Z) :
  exists s' evs ok,
    writeRow ops newTable tf entry s = (Ok tt, s') /\
    trace s' = trace s ++ evs /\
    locals s' = locals s + (if ok : bool then 1 else 0) /\
    RowOutcome newTable tf evs entry ok.
Proof.
  destruct entry as [productCategory data]. unfold writeRow, tryCatch.
  do 8 (row_call; [| row_done false]).
  row_done true.
Qed.

Lemma succeeded_cons ok outcomes :
  succeeded (ok :: outcomes) = (if ok : bool then 1 else 0) + succeeded outcomes.
Proof. unfold succeeded, lengthOf. destruct ok; cbn [filter List.length]; lia. Qed.

Lemma succeeded_nonneg outcomes : 0 <= succeeded outcomes.
Proof. unfold succeeded, lengthOf. lia. Qed.

Lemma forOf_writeRow_run newTable tf entries :
  forall s : Machine H Z,
  exists s' evs outcomes,
    forOf entries (writeRow ops newTable tf) s = (Ok tt, s') /\
    trace s' = trace s ++ evs /\
    locals s' = locals s + succeeded outcomes /\
    Forall2 (RowOutcome newTable tf evs) entries outcomes.
Proof.
  induction entries as [| entry rest IH]; intros s; cbn [forOf].
  - exists s, [], []. rewrite app_nil_r. repeat split; auto. cbn. lia.
  - destruct (writeRow_run newTable tf entry s) as (s1 & evs1 & ok & Hrun & Ht1 & Hl1 & Hout).
    destruct (IH s1) as (s' & evs2 & outcomes & Hloop & Ht2 & Hl2 & Hall).
    exists s', (evs1 ++ evs2), (ok :: outcomes).
    rewrite (bind_Ok _ _ _ _ _ Hrun). split; [exact Hloop |].
    split; [now rewrite Ht2, Ht1, app_assoc |].
    split; [rewrite succeeded_cons; lia |].
    constructor.
    + eapply RowOutcome_incl; [apply incl_appl, incl_refl | exact Hout].
    + eapply Forall2_impl; [| exact Hall].
      intros e o. apply RowOutcome_incl. apply incl_appr, incl_refl.
Qed.

Lemma perRowWrite_run newTable tf gd (s : Machine H Z) :
  locals s = 0 ->
  exists r s' evs outcomes,
    perRowWrite ops newTable tf gd s = (r, s') /\
    trace s' = trace s ++ evs /\
    Forall2 (RowOutcome newTable tf evs) (Obj.entries gd) outcomes /\
    (succeeded outcomes = 0 -> r = Throw (newError noRowMessage)) /\
    (0 < succeeded outcomes -> r = Ok tt) /\
    (0 < succeeded outcomes < lengthOf (Obj.keys gd) ->
     In (EvConsole WarnLevel
           (partialMessage (succeeded outcomes) (lengthOf (Obj.keys gd))) None) evs).
Proof.
  intros Hzero. unfold perRowWrite.
  destruct (forOf_writeRow_run newTable tf (Obj.entries gd) s)
    as (s1 & evs1 & outcomes & Hloop & Ht1 & Hl1 & Hall).
  rewrite (bind_Ok _ _ _ _ _ Hloop). rewrite Hzero in Hl1. cbn in Hl1.
  unfold bind at 1. cbn [getLocals]. unfold bind at 1, console_log at 1, emit.
  cbn [host trace locals]. rewrite Hl1.
  pose proof (succeeded_nonneg outcomes) as Hnn.
  destruct (Z.eqb_spec (succeeded outcomes) 0) as [Hs | Hs].
  - eexists. eexists. eexists. exists outcomes. split; [reflexivity |].
    cbn [trace]. rewrite Ht1, <- app_assoc. split; [reflexivity |].
    split; [| repeat split; intros; try lia; reflexivity ].
    eapply Forall2_impl; [| exact Hall].
    intros e o. apply RowOutcome_incl. apply incl_appl, incl_refl.
  - destruct (Z.ltb_spec (succeeded outcomes) (lengthOf (Obj.keys gd))) as [Hlt | Hge].
    + eexists. eexists. eexists. exists outcomes. split; [reflexivity |].
      cbn [trace]. rewrite Ht1, <- !app_assoc. split; [reflexivity |].
      split; [| repeat split; intros; try lia; try reflexivity ].
      * eapply Forall2_impl; [| exact Hall].
        intros e o. apply RowOutcome_incl. apply incl_appl, incl_refl.
      * apply in_or_app. right. cbn. auto.
    + eexists. eexists. eexists. exists outcomes. split; [reflexivity |].
      cbn [trace]. rewrite Ht1, <- !app_assoc. split; [reflexivity |].
      split; [| repeat split; intros; try lia; try reflexivity ].
      eapply Forall2_impl; [| exact Hall].
      intros e o. apply RowOutcome_incl. apply incl_appl, incl_refl.
Qed.

Lemma perRowWrite_emits P newTable tf gd :
  (forall t r, P (EvAddRecord t r)) ->
  (forall f i v r, P (EvSetValue f i v r)) ->
  (forall l m e, P (EvConsole l m e)) ->
  emits P (perRowWrite ops newTable tf gd).
Proof.
  intros HP1 HP2 HP3.
  unfold perRowWrite, writeRow, addRecord, setValue, console_log, console_warn,
    console_error.
  emits_auto; auto.
Qed.

Ltac bulk_finish :=
  repeat split; auto;
  try solve [repeat constructor; cbn; auto];
  try solve [right; eexists; cbn; auto];
  try solve [cbn; auto];
  try discriminate.

Lemma bulkWrite_run {L} newTable fieldId gd (s : Machine H L) :
  exists done s' evs,
    bulkWrite ops newTable fieldId gd s = (Ok done, s') /\
    trace s' = trace s ++ evs /\
    locals s' = locals s /\
    Forall (fun e => ~ isRowWrite e) evs /\
    if done : bool
    then Obj.entries gd <> [] /\
         In (EvAddRecords newTable (map (bulkRecord fieldId) (Obj.entries gd)) (Ok tt)) evs
    else Forall (fun e => ~ isBulkSuccess e) evs /\
         (Obj.entries gd = [] \/
          exists error, In (EvConsole WarnLevel bulkFailedMessage (Some error)) evs).
Proof.
  unfold bulkWrite, tryCatch.
  destruct (Obj.entries gd) as [| entry rest] eqn:Hentries.
  - exists false, s, []. cbn. rewrite app_nil_r. repeat split; auto.
  - set (entries := entry :: rest) in *.
    assert (Hpos : (0 <? lengthOf entries) = true) by (apply Z.ltb_lt; unfold lengthOf; cbn; lia).
    assert (Hpos' : (0 <? lengthOf (map (bulkRecord fieldId) entries)) = true).
    { apply Z.ltb_lt. unfold lengthOf. rewrite length_map. cbn. lia. }
    unfold bind at 1. rewrite Hpos. cbn [andb].
    destruct (existsb _ Target.roles).
    + exists false. eexists. eexists. cbn -[entries]. split; [reflexivity |].
      bulk_finish.
    + cbn -[entries]. rewrite Hpos'. unfold bind at 1, addRecords at 1, call.
      destruct (table_addRecords ops newTable _ (host s)) as [[[] | error] h].
      * exists true. eexists. eexists. cbn -[entries]. split; [reflexivity |].
        rewrite <- app_assoc. bulk_finish.
      * exists false. eexists. eexists. cbn -[entries]. split; [reflexivity |].
        rewrite <- app_assoc. bulk_finish.
Qed.

Lemma Forall2_In_l {A B} (R : A -> B -> Prop) l l' a :
  Forall2 R l l' -> In a l -> exists b, R a b.
Proof.
  induction 1 as [| x y l l' Hxy Hrest IH]; cbn; [tauto |].
  intros [<- | Hin]; eauto.
Qed.

End Writer.

(* ===================================================================== *)
(** * C1: the counts of the groups *)
(* ===================================================================== *)

Section CountsOfGroups.
Context {H : Type} (ops : HostOps H) (E : Engine).

(** [getSourceData] on a table whose out-date and category cells can be
    read and whose grouped records have plain keys: the counts of the
    groups it returns. *)
Lemma getSourceData_counts
  {L} sourceTable month (s s1 : Machine H L) fs recordIdList h2 dateOf catOf :
  openSourceFields ops sourceTable s = (Ok fs, s1) ->
  table_getRecordIdList ops sourceTable (host s1) = (Ok (Some recordIdList), h2) ->
  recordIdList <> [] ->
  Readable ops fs recordIdList dateOf catOf ->
  PlainKeys E month dateOf catOf recordIdList ->
  exists gd s',
    getSourceData ops E sourceTable month s = (Ok gd, s') /\
    totalCount gd = lengthOf (matchingRecords E month dateOf catOf recordIdList) /\
    forall key,
      countOf key gd =
      lengthOf (matchingRecordsOf E month key dateOf catOf recordIdList).
Proof.
  intros Hopen Hlist Hne Hread Hplain.
  destruct (getSourceData_run ops E sourceTable month s s1 fs recordIdList h2
              Hopen Hlist Hne) as (s0 & s2 & evs & _ & Hinit & Hloop & Hrun).
  destruct (forOf_processRecord_counts ops E fs month dateOf catOf recordIdList
              Hread Hplain s0) as (s2' & Hloop' & Htot & Hkey).
  rewrite Hloop in Hloop'. injection Hloop' as <-.
  rewrite Hinit in Htot, Hkey. cbn in Htot, Hkey.
  eexists. eexists. split; [exact Hrun |]. split; [lia |].
  intros key. rewrite Hkey. unfold countOf. cbn. lia.
Qed.

(** C1 (amended). For every month and every source table whose out-date
    and category cells can be read, and in which no record that enters a
    group has a category key naming a member that objects inherit from
    [Object.prototype], [getSourceData] returns groups whose [count]
    values sum to the number of records that have an out-date that is
    there (truthy, the source's test: the timestamp 0 reads as absent) and
    in the month, and a non-empty category; group by group, [count] is the
    number of such records with that category key. Nothing is asked of the
    five numeric cells: a record counts even when reading them fails or
    gives nothing, and the normalizer then contributes 0. *)
Theorem getSourceData_counts_matching_records
  {L} sourceTable month (s s1 : Machine H L) fs recordIdList h2 dateOf catOf :
  openSourceFields ops sourceTable s = (Ok fs, s1) ->
  table_getRecordIdList ops sourceTable (host s1) = (Ok (Some recordIdList), h2) ->
  recordIdList <> [] ->
  Readable ops fs recordIdList dateOf catOf ->
  PlainKeys E month dateOf catOf recordIdList ->
  (exists gd s',
      getSourceData ops E sourceTable month s = (Ok gd, s') /\
      totalCount gd = lengthOf (matchingRecords E month dateOf catOf recordIdList) /\
      forall key,
        countOf key gd =
        lengthOf (matchingRecordsOf E month key dateOf catOf recordIdList))
  /\
  (forall field recordId (m : Machine H AggState) r,
      fst (field_getValue ops field recordId (host m)) = r ->
      r = Ok JNull \/ r = Ok JUndefined \/ (exists error, r = Throw error) ->
      fst (safeGetNumberValue ops E field recordId m) = Ok 0%float).
Proof.
  intros Hopen Hlist Hne Hread Hplain. split.
  - now apply getSourceData_counts with (s1 := s1) (fs := fs) (h2 := h2).
  - intros field recordId m r Hr Hcase.
    rewrite safeGetNumberValue_run.
    destruct (field_getValue ops field recordId (host m)) as [r' h]. cbn in *. subst r'.
    destruct Hcase as [-> | [-> | [error ->]]]; reflexivity.
Qed.

End CountsOfGroups.

(** The cells of the host in memory can be read, whatever its state. *)
Lemma MemHost_Readable c recordIdList :
  (forall recordId, In recordId recordIdList ->
     MemHost.readCell c (outDateField MemHost.fields) recordId
       = Ok (MemHost.cell c "fDate" recordId) /\
     MemHost.readCell c (productCategoryField MemHost.fields) recordId
       = Ok (MemHost.cell c "fCategory" recordId)) ->
  Readable (MemHost.ops c) MemHost.fields recordIdList
    (MemHost.cell c "fDate") (MemHost.cell c "fCategory").
Proof. intros Hcells recordId Hin h. cbn. now apply Hcells. Qed.

(** February on the six records: A counts r1 and r2 (of different years),
    B counts r3, whose fee cannot be read; the sum is 3. *)
Example february_groups :
  fst (getSourceData (MemHost.ops cfgA) MemHost.engine {| table_id := "tblSource" |} 2
         (MemHost.prepared cfgA 2))
  = Ok [ ("A", {| count := 2; shares := 3.75; preparationFee := 10.125;
                  rewardDeduction := 0; cancelFee := 0; urgentFee := 0 |});
         ("B", {| count := 1; shares := 3; preparationFee := 0;
                  rewardDeduction := 0; cancelFee := 0; urgentFee := 0 |}) ].
Proof. vm_compute. reflexivity. Qed.

Lemma getSourceData_counts_matching_records_witness :
  (exists gd s',
      getSourceData (MemHost.ops cfgA) MemHost.engine {| table_id := "tblSource" |} 2
        (MemHost.prepared cfgA 2) = (Ok gd, s') /\
      totalCount gd =
        lengthOf (matchingRecords MemHost.engine 2
                    (MemHost.cell cfgA "fDate") (MemHost.cell cfgA "fCategory")
                    ["r1"; "r2"; "r3"; "r4"; "r5"; "r6"]) /\
      forall key,
        countOf key gd =
        lengthOf (matchingRecordsOf MemHost.engine 2 key
                    (MemHost.cell cfgA "fDate") (MemHost.cell cfgA "fCategory")
                    ["r1"; "r2"; "r3"; "r4"; "r5"; "r6"]))
  /\
  (forall field recordId (m : Machine MemHost.State AggState) r,
      fst (field_getValue (MemHost.ops cfgA) field recordId (host m)) = r ->
      r = Ok JNull \/ r = Ok JUndefined \/ (exists error, r = Throw error) ->
      fst (safeGetNumberValue (MemHost.ops cfgA) MemHost.engine field recordId m)
        = Ok 0%float).
Proof.
  eapply (getSourceData_counts_matching_records (MemHost.ops cfgA) MemHost.engine
            {| table_id := "tblSource" |} 2 (MemHost.prepared cfgA 2) _
            MemHost.fields).
  - vm_compute. reflexivity.
  - vm_compute. reflexivity.
  - discriminate.
  - apply MemHost_Readable. intros recordId Hin. cbn in Hin.
    repeat (destruct Hin as [<- | Hin]; [split; vm_compute; reflexivity |]).
    destruct Hin.
  - intros recordId Hin _. cbn in Hin.
    repeat (destruct Hin as [<- | Hin]; [vm_compute; reflexivity |]).
    destruct Hin.
Defined.

(** C1 as stated fails, in two ways. A record of category A whose out-date
    is the timestamp 0 has an out-date that parses to a date of January
    and a non-empty category, so for January the claim's k is 1; the
    source's test [!outDateValue] reads that out-date as absent, and
    [getSourceData] returns no group: the counts sum to 0. And of two
    February records of the categories "constructor" and "A", both counted
    by the claim, only A enters a group ([groupedData["constructor"]] finds
    the member inherited from [Object.prototype], so no group is created):
    the counts sum to 1. *)
Lemma zero_timestamp_and_inherited_key_are_not_counted :
  (let records := ["r1"] in
   let dateOf := MemHost.cell cfgEpoch "fDate" in
   let catOf := MemHost.cell cfgEpoch "fCategory" in
   lengthOf (filter (fun recordId => parsesInMonth MemHost.engine 1 (dateOf recordId)
                                     && ToBoolean (catOf recordId)) records) = 1 /\
   exists gd,
     fst (getSourceData (MemHost.ops cfgEpoch) MemHost.engine
            {| table_id := "tblSource" |} 1 (MemHost.prepared cfgEpoch 1)) = Ok gd /\
     totalCount gd = 0)
  /\
  (let records := ["r1"; "r2"] in
   let dateOf := MemHost.cell cfgConstructor "fDate" in
   let catOf := MemHost.cell cfgConstructor "fCategory" in
   lengthOf (filter (fun recordId => parsesInMonth MemHost.engine 2 (dateOf recordId)
                                     && ToBoolean (catOf recordId)) records) = 2 /\
   exists gd,
     fst (getSourceData (MemHost.ops cfgConstructor) MemHost.engine
            {| table_id := "tblSource" |} 2 (MemHost.prepared cfgConstructor 2)) = Ok gd /\
     map fst gd = ["A"] /\
     totalCount gd = 1).
Proof.
  split.
  - split; [vm_compute; reflexivity |].
    eexists. split; vm_compute; reflexivity.
  - split; [vm_compute; reflexivity |].
    eexists. split; [vm_compute; reflexivity |]. split; vm_compute; reflexivity.
Qed.

(* ===================================================================== *)
(** * C2: rounding on the two write paths *)
(* ===================================================================== *)

(** The record of the bulk path carries the five sums as they are. *)
Lemma bulkRecord_sums fieldId productCategory data :
  map snd (bulkRecord fieldId (productCategory, data)) =
  [ JString productCategory; JNumber (ofZ (count data));
    JNumber (shares data); JNumber (preparationFee data);
    JNumber (rewardDeduction data); JNumber (cancelFee data);
    JNumber (urgentFee data) ].
Proof. reflexivity. Qed.

(** C2 (the code departs from the claim). One February record of category
    A with 0.125 shares. When the host accepts the bulk insert, the row of
    A holds 0.125 shares, not rounded; when it refuses it, the per-row path
    writes [Math.round(0.125 * 100) / 100], which is another number (0.13).
    The two paths do not persist the same value, and the bulk path does
    not round. *)
Theorem bulk_path_persists_unrounded_sums :
  let report bulkFails :=
    MemHost.newRows
      (host (snd (generate (MemHost.ops (cfgEighth bulkFails)) MemHost.engine
                    "tblSource" 2 (MemHost.start (cfgEighth bulkFails))))) in
  let sharesOf rows :=
    match rows with
    | [(_, cells)] => MemHost.assoc "fld:份数" cells
    | _ => None
    end in
  sharesOf (report false) = Some (JNumber 0.125) /\
  sharesOf (report true) = Some (JNumber (round2 0.125)) /\
  (round2 0.125 =? 0.125)%float = false /\
  (0.125 <? round2 0.125)%float = true.
Proof. vm_compute. repeat split; reflexivity. Qed.

(* ===================================================================== *)
(** * C3: the numeric normalizer *)
(* ===================================================================== *)

Section Normalizer.
Context {H : Type} (ops : HostOps H) (E : Engine).

(** C3 (as amended). The numeric normalizer always returns, never throws,
    and what it returns is not NaN: 0 for null, for undefined, for a read
    that fails and for a value whose number is NaN, and otherwise the
    number of the value, which may be an infinity. Consequently, on a
    source table where no read of a numeric cell normalizes to an infinity,
    [getSourceData] returns groups none of whose five sums is NaN. *)
Theorem normalizer_returns_a_number_and_finite_sums_are_numbers
  {L} sourceTable month (s s1 : Machine H L) fs recordIdList h2 :
  openSourceFields ops sourceTable s = (Ok fs, s1) ->
  table_getRecordIdList ops sourceTable (host s1) = (Ok (Some recordIdList), h2) ->
  recordIdList <> [] ->
  FiniteReads ops E fs recordIdList ->
  (forall field recordId (m : Machine H AggState),
      exists n m',
        safeGetNumberValue ops E field recordId m = (Ok n, m') /\
        n = normalized E (fst (field_getValue ops field recordId (host m))) /\
        isNaN n = false)
  /\
  (normalized E (Ok JNull) = 0%float /\
   normalized E (Ok JUndefined) = 0%float /\
   (forall error, normalized E (Throw error) = 0%float) /\
   (forall v, isNaN (ToNumber E v) = true -> normalized E (Ok v) = 0%float) /\
   (forall v, v <> JNull -> v <> JUndefined -> isNaN (ToNumber E v) = false ->
              normalized E (Ok v) = ToNumber E v))
  /\
  (exists gd s',
      getSourceData ops E sourceTable month s = (Ok gd, s') /\
      GroupsNoNaN gd).
Proof.
  intros Hopen Hlist Hne Hfin. split; [| split].
  - intros field recordId m. rewrite safeGetNumberValue_run.
    destruct (field_getValue ops field recordId (host m)) as [r h]. cbn.
    eexists. eexists. split; [reflexivity |]. split; [reflexivity |].
    apply normalized_not_NaN.
  - repeat split; try reflexivity.
    + intros v Hv. destruct v; cbn in *; try reflexivity; now rewrite Hv.
    + intros v Hn Hu Hv. destruct v; cbn in *; try congruence; now rewrite Hv.
  - destruct (getSourceData_run ops E sourceTable month s s1 fs recordIdList h2
                Hopen Hlist Hne) as (s0 & s2 & evs & _ & Hinit & Hloop & Hrun).
    destruct (forOf_processRecord_NoNaN ops E fs month recordIdList Hfin s0)
      as (s2' & Hloop' & Hgd).
    { rewrite Hinit. intros key g []. }
    rewrite Hloop in Hloop'. injection Hloop' as <-.
    eexists. eexists. split; [exact Hrun | exact Hgd].
Qed.

End Normalizer.

(** On the host in memory a read does not depend on the state. *)
Lemma MemHost_FiniteReads c recordIdList :
  (forall field recordId,
      In field (numericFields MemHost.fields) -> In recordId recordIdList ->
      isFiniteNumber (normalized MemHost.engine (MemHost.readCell c field recordId))
        = true) ->
  FiniteReads (MemHost.ops c) MemHost.engine MemHost.fields recordIdList.
Proof. intros Hcells field recordId r Hf Hr (h & <-). cbn. now apply Hcells. Qed.

Lemma normalizer_returns_a_number_and_finite_sums_are_numbers_witness :
  (forall field recordId (m : Machine MemHost.State AggState),
      exists n m',
        safeGetNumberValue (MemHost.ops cfgA) MemHost.engine field recordId m = (Ok n, m') /\
        n = normalized MemHost.engine
              (fst (field_getValue (MemHost.ops cfgA) field recordId (host m))) /\
        isNaN n = false)
  /\
  (normalized MemHost.engine (Ok JNull) = 0%float /\
   normalized MemHost.engine (Ok JUndefined) = 0%float /\
   (forall error, normalized MemHost.engine (Throw error) = 0%float) /\
   (forall v, isNaN (ToNumber MemHost.engine v) = true ->
              normalized MemHost.engine (Ok v) = 0%float) /\
   (forall v, v <> JNull -> v <> JUndefined ->
              isNaN (ToNumber MemHost.engine v) = false ->
              normalized MemHost.engine (Ok v) = ToNumber MemHost.engine v))
  /\
  (exists gd s',
      getSourceData (MemHost.ops cfgA) MemHost.engine {| table_id := "tblSource" |} 2
        (MemHost.prepared cfgA 2) = (Ok gd, s') /\
      GroupsNoNaN gd).
Proof.
  eapply (normalizer_returns_a_number_and_finite_sums_are_numbers
            (MemHost.ops cfgA) MemHost.engine
            {| table_id := "tblSource" |} 2 (MemHost.prepared cfgA 2) _
            MemHost.fields ["r1"; "r2"; "r3"; "r4"; "r5"; "r6"]).
  - vm_compute. reflexivity.
  - vm_compute. reflexivity.
  - discriminate.
  - apply MemHost_FiniteReads. intros field recordId Hf Hr. cbn in Hf, Hr.
    repeat (destruct Hf as [<- | Hf];
            [repeat (destruct Hr as [<- | Hr]; [vm_compute; reflexivity |]);
             destruct Hr |]).
    destruct Hf.
Defined.

(** C3 as stated fails. The number [Infinity] is not a finite number, and
    the normalizer returns it, not 0; and two February records of one
    category whose shares are [Infinity] and [-Infinity] give that group a
    [shares] sum that is NaN. *)
Lemma normalizer_passes_infinity_and_a_sum_is_NaN :
  isFiniteNumber (ToNumber MemHost.engine (JNumber infinity)) = false /\
  fst (safeGetNumberValue (MemHost.ops cfgInfinite) MemHost.engine
         (sharesField MemHost.fields) "r1"
         {| host := MemHost.initial; trace := []; locals := initialAggState |})
    = Ok infinity /\
  (exists gd g,
      fst (getSourceData (MemHost.ops cfgInfinite) MemHost.engine
             {| table_id := "tblSource" |} 2 (MemHost.prepared cfgInfinite 2)) = Ok gd /\
      Obj.get "A" gd = Some g /\
      count g = 2 /\
      isNaN (shares g) = true).
Proof.
  split; [vm_compute; reflexivity |].
  split; [vm_compute; reflexivity |].
  eexists. eexists. split; [vm_compute; reflexivity |].
  split; [vm_compute; reflexivity |].
  split; vm_compute; reflexivity.
Qed.

(* ===================================================================== *)
(** * C4: the report writer *)
(* ===================================================================== *)

Section ReportWriter.
Context {H : Type} (ops : HostOps H) (E : Engine).

(** C4. Once the fields of the new table are open, [writeDataToNewTable]
    ends in one of two ways. Either the bulk insert succeeded: the call
    succeeds and no row is written one at a time. Or no bulk insert
    succeeded (there is no group, or the bulk path failed and said so in a
    warning): then every group takes one turn of the per-row loop, which
    writes its row or logs its failure and goes on; the call fails with the
    error that no record was written when no row went in, and succeeds
    otherwise, with a warning when some but not all rows went in. When the
    call succeeds, every group of the mapping went in with the bulk insert,
    was written as a row, or had its failure logged. *)
Theorem report_writer_writes_or_logs_every_group
  {L} newTable gd (s s1 : Machine H L) fieldId tf :
  openTargetFields ops newTable s = (Ok (fieldId, tf), s1) ->
  exists r s' evs outcomes,
    writeDataToNewTable ops newTable gd s = (r, s') /\
    trace s' = trace s1 ++ evs /\
    (r = Ok tt ->
     forall entry, In entry gd ->
       BulkWritten newTable fieldId entry evs \/
       RowWritten newTable tf entry evs \/
       RowFailureLogged entry evs) /\
    ((Exists isBulkSuccess evs /\ Forall (fun e => ~ isRowWrite e) evs /\ r = Ok tt)
     \/
     (Forall (fun e => ~ isBulkSuccess e) evs /\
      (gd = [] \/
       exists error, In (EvConsole WarnLevel bulkFailedMessage (Some error)) evs) /\
      Forall2 (RowOutcome newTable tf evs) (Obj.entries gd) outcomes /\
      (succeeded outcomes = 0 -> r = Throw (newError noRowMessage)) /\
      (0 < succeeded outcomes -> r = Ok tt) /\
      (0 < succeeded outcomes < lengthOf (Obj.keys gd) ->
       In (EvConsole WarnLevel
             (partialMessage (succeeded outcomes) (lengthOf (Obj.keys gd))) None) evs))).
Proof.
  intros Hopen. unfold writeDataToNewTable, tryCatch.
  rewrite (bind_Ok _ _ _ _ _ Hopen). cbn iota beta.
  unfold bind at 1, console_log at 1, emit. cbn iota beta.
  match goal with |- context [bind (bulkWrite ops newTable fieldId gd) _ ?s0] =>
    destruct (bulkWrite_run ops newTable fieldId gd s0)
      as (done & s2 & evs1 & Hbulk & Ht2 & Hl2 & Hnorow & Hdone)
  end.
  rewrite (bind_Ok _ _ _ _ _ Hbulk). cbn [trace] in Ht2.
  destruct done.
  - destruct Hdone as (Hne & Hin).
    exists (Ok tt), s2. eexists. exists []. split; [reflexivity |].
    rewrite Ht2, <- app_assoc. split; [reflexivity |].
    assert (Hin' : In (EvAddRecords newTable (map (bulkRecord fieldId) (Obj.entries gd))
                         (Ok tt))
                      ([EvConsole LogLevel
                          (template ["开始写入 ";
                                     integerToString (lengthOf (Obj.keys gd));
                                     " 条汇总数据..."]) None] ++ evs1)).
    { apply in_or_app. auto. }
    split.
    + intros _ entry Hentry. left. eexists. split; [exact Hin' |].
      apply in_map. eapply Permutation_in; [| exact Hentry].
      symmetry. apply entries_perm.
    + left. split; [| split; [| reflexivity]].
      * apply Exists_exists. eexists. split; [exact Hin' | exact I].
      * apply Forall_app. split; [repeat constructor; cbn; auto | exact Hnorow].
  - destruct Hdone as (Hnobulk & Hwhy).
    unfold withLocals.
    match goal with |- context [perRowWrite ops newTable tf gd ?s0] =>
      destruct (perRowWrite_run ops newTable tf gd s0 eq_refl)
        as (r & s3 & evs2 & outcomes & Hrows & Ht3 & Hall & Hzero & Hpos & Hpart);
      pose proof (run_emits (fun e => ~ isBulkSuccess e) _ _ _ _
                    (perRowWrite_emits ops _ newTable tf gd
                       (fun _ _ => id) (fun _ _ _ _ => id) (fun _ _ _ => id)) Hrows)
        as (evs2' & Ht3' & Hnobulk2)
    end.
    rewrite Ht3 in Ht3'. apply app_inv_head in Ht3'. subst evs2'.
    rewrite Hrows. cbn [trace] in Ht3. cbn [host trace locals].
    pose proof (succeeded_nonneg outcomes) as Hnn.
    assert (Hwhy' : gd = [] \/
              exists error, In (EvConsole WarnLevel bulkFailedMessage (Some error)) evs1).
    { destruct Hwhy as [Hnil | Hwarn]; [left | right; exact Hwarn].
      apply (Permutation_nil (l := gd)). rewrite <- Hnil. apply entries_perm. }
    destruct (Z.eq_dec (succeeded outcomes) 0) as [Hs | Hs].
    + rewrite (Hzero Hs). cbn.
      eexists. eexists. eexists. exists outcomes. split; [reflexivity |].
      cbn [trace]. rewrite Ht3, Ht2, <- !app_assoc. split; [reflexivity |].
      split; [discriminate |]. right.
      split; [| split; [| split; [| repeat split; intros; try lia; auto]]].
      * repeat (apply Forall_app; split); auto; repeat constructor; cbn; auto.
      * destruct Hwhy' as [Hnil | (error & Hwarn)]; [left; exact Hnil | right].
        exists error. apply in_or_app. right. apply in_or_app. auto.
      * eapply Forall2_impl; [| exact Hall]. intros e o. apply RowOutcome_incl.
        intros x Hx. apply in_or_app. right. apply in_or_app. right.
        apply in_or_app. auto.
    + assert (Hr : r = Ok tt) by (apply Hpos; lia). rewrite Hr. cbn.
      eexists. eexists. eexists. exists outcomes. split; [reflexivity |].
      cbn [trace]. rewrite Ht3, Ht2, <- !app_assoc. split; [reflexivity |].
      assert (Hall' : Forall2
                (RowOutcome newTable tf
                   ([EvConsole LogLevel
                       (template ["开始写入 ";
                                  integerToString (lengthOf (Obj.keys gd));
                                  " 条汇总数据..."]) None] ++ evs1 ++ evs2))
                (Obj.entries gd) outcomes).
      { eapply Forall2_impl; [| exact Hall]. intros e o. apply RowOutcome_incl.
        intros x Hx. apply in_or_app. right. apply in_or_app. auto. }
      split.
      * intros _ entry Hentry. right.
        assert (Hentry' : In entry (Obj.entries gd)).
        { eapply Permutation_in; [| exact Hentry]. symmetry. apply entries_perm. }
        destruct (Forall2_In_l _ _ _ _ Hall' Hentry') as ([] & Hout); cbn in Hout; auto.
      * right.
        split; [| split; [| split; [exact Hall' | repeat split; intros; try lia; auto]]].
        -- repeat (apply Forall_app; split); auto; repeat constructor; cbn; auto.
        -- destruct Hwhy' as [Hnil | (error & Hwarn)]; [left; exact Hnil | right].
           exists error. apply in_or_app. right. apply in_or_app. auto.
        -- apply in_or_app. right. apply in_or_app. right. apply Hpart. lia.
Qed.

End ReportWriter.

(** The groups of February on the six records. *)
Definition groupsOfFebruary : GroupedData :=
  [ ("A", {| count := 2; shares := 3.75; preparationFee := 10.125;
             rewardDeduction := 0; cancelFee := 0; urgentFee := 0 |});
    ("B", {| count := 1; shares := 3; preparationFee := 0;
             rewardDeduction := 0; cancelFee := 0; urgentFee := 0 |}) ].

(** On a host that refuses bulk inserts and the cells of project B, the
    writer falls back to rows: A goes in, the failure of B is logged, and
    the call succeeds with the warning of a partial write. *)
Example fallback_writes_A_and_logs_B :
  let run := writeDataToNewTable (MemHost.ops cfgFallback)
               {| table_id := "tblReport" |} groupsOfFebruary
               (MemHost.prepared cfgFallback 2) in
  fst run = Ok tt /\
  map fst (MemHost.newRows (host (snd run))) = ["rec0"; "rec1"] /\
  MemHost.diagnostics (trace (snd run)) =
    [ (WarnLevel, bulkFailedMessage, Some (newError "bulk insert rejected"));
      (ErrorLevel, rowFailedMessage "B", Some (newError "cell rejected"));
      (WarnLevel, partialMessage 1 2, None) ].
Proof. vm_compute. repeat split; reflexivity. Qed.

Lemma report_writer_writes_or_logs_every_group_witness :
  exists fieldId tf s1,
    openTargetFields (MemHost.ops cfgFallback) {| table_id := "tblReport" |}
      (MemHost.prepared cfgFallback 2) = (Ok (fieldId, tf), s1) /\
    exists r s' evs outcomes,
      writeDataToNewTable (MemHost.ops cfgFallback) {| table_id := "tblReport" |}
        groupsOfFebruary (MemHost.prepared cfgFallback 2) = (r, s') /\
      trace s' = trace s1 ++ evs /\
      (r = Ok tt ->
       forall entry, In entry groupsOfFebruary ->
         BulkWritten {| table_id := "tblReport" |} fieldId entry evs \/
         RowWritten {| table_id := "tblReport" |} tf entry evs \/
         RowFailureLogged entry evs) /\
      ((Exists isBulkSuccess evs /\ Forall (fun e => ~ isRowWrite e) evs /\ r = Ok tt)
       \/
       (Forall (fun e => ~ isBulkSuccess e) evs /\
        (groupsOfFebruary = [] \/
         exists error, In (EvConsole WarnLevel bulkFailedMessage (Some error)) evs) /\
        Forall2 (RowOutcome {| table_id := "tblReport" |} tf evs)
          (Obj.entries groupsOfFebruary) outcomes /\
        (succeeded outcomes = 0 -> r = Throw (newError noRowMessage)) /\
        (0 < succeeded outcomes -> r = Ok tt) /\
        (0 < succeeded outcomes < lengthOf (Obj.keys groupsOfFebruary) ->
         In (EvConsole WarnLevel
               (partialMessage (succeeded outcomes)
                  (lengthOf (Obj.keys groupsOfFebruary))) None) evs))).
Proof.
  eexists. eexists. eexists. split.
  - vm_compute. reflexivity.
  - eapply (report_writer_writes_or_logs_every_group (MemHost.ops cfgFallback)).
    vm_compute. reflexivity.
Defined.

(* ===================================================================== *)
(** * C5: a month without data *)
(* ===================================================================== *)

Section NoData.
Context {H : Type} (ops : HostOps H) (E : Engine).

(** C5. When the tables are prepared and the aggregation returns no group,
    [generate] throws the error that says no data was found for the month
    (and logs it); from the start of the run to the throw no record was
    added to the new table and no cell of it was set. *)
Theorem no_groups_is_a_fatal_no_data_error
  sourceTableId month (s s1 s2 : Machine H unit) sourceTable newTable sourceData :
  sourceTableId <> "" -> 1 <= month <= 12 ->
  prepareTables ops E sourceTableId month s = (Ok (sourceTable, newTable), s1) ->
  getSourceData ops E sourceTable month (logged "获取源表数据中..." s1)
    = (Ok sourceData, s2) ->
  Obj.keys sourceData = [] ->
  exists s' evs,
    generate ops E sourceTableId month s =
      (Throw (newError (noDataMessage month)), s') /\
    trace s' = trace s ++ evs /\
    Forall (fun e => ~ isWrite e) evs /\
    In (EvConsole ErrorLevel "生成汇总表时发生错误:"
          (Some (newError (noDataMessage month)))) evs.
Proof.
  intros Hid Hm Hprep Hsrc Hkeys.
  destruct (run_emits (fun e => ~ isWrite e) _ _ _ _
              (prepareTables_emits ops E _ sourceTableId month
                 (fun _ _ => id) (fun _ _ => id) (fun _ _ _ => id) (fun _ _ _ => id))
              Hprep) as (evs1 & Ht1 & Hf1).
  destruct (run_emits (fun e => ~ isWrite e) _ _ _ _
              (getSourceData_emits ops E _ sourceTable month
                 (fun _ _ => id) (fun _ _ _ => id) (fun _ _ => id)
                 (fun _ _ _ => id) (fun _ _ _ => id))
              Hsrc) as (evs2 & Ht2 & Hf2).
  cbn in Ht2.
  eexists. eexists. split; [| split; [| split]].
  - rewrite generate_valid by assumption.
    unfold tryCatch. rewrite (bind_Ok _ _ _ _ _ Hprep).
    unfold bind at 1. cbn. fold (logged "获取源表数据中..." s1).
    rewrite (bind_Ok _ _ _ _ _ Hsrc). rewrite Hkeys. cbn. reflexivity.
  - cbn. rewrite Ht2, Ht1. rewrite <- !app_assoc. reflexivity.
  - repeat (apply Forall_app; split); auto; repeat constructor; cbn; auto.
  - repeat (apply in_or_app; right). cbn. auto.
Qed.

End NoData.

Lemma no_groups_is_a_fatal_no_data_error_witness :
  exists s' evs,
    generate (MemHost.ops cfgA) MemHost.engine "tblSource" 7 (MemHost.start cfgA) =
      (Throw (newError (noDataMessage 7)), s') /\
    trace s' = trace (MemHost.start cfgA) ++ evs /\
    Forall (fun e => ~ isWrite e) evs /\
    In (EvConsole ErrorLevel "生成汇总表时发生错误:"
          (Some (newError (noDataMessage 7)))) evs.
Proof.
  eapply (no_groups_is_a_fatal_no_data_error (MemHost.ops cfgA) MemHost.engine
            "tblSource" 7 (MemHost.start cfgA)).
  - discriminate.
  - lia.
  - vm_compute. reflexivity.
  - vm_compute. reflexivity.
  - vm_compute. reflexivity.
Defined.

(* ===================================================================== *)
(** * C6: the arguments of generate *)
(* ===================================================================== *)

Section Arguments.
Context {H : Type} (ops : HostOps H) (E : Engine).

(** C6. [generate] with an empty source table id, or with a month below 1
    or above 12, throws at once with a message that says which: the
    machine is as it was, so no host call was made and no table was read
    or created. *)
Theorem generate_rejects_bad_arguments_before_any_host_call
  sourceTableId month (s : Machine H unit) :
  sourceTableId = "" \/ month < 1 \/ 12 < month ->
  exists message,
    generate ops E sourceTableId month s = (Throw (newError message), s) /\
    (message = "源表ID不能为空" \/ message = "月份必须在1-12之间").
Proof.
  intros Hbad. unfold generate.
  destruct (String.eqb_spec sourceTableId "") as [Hid | Hid].
  - eexists. split; [reflexivity | auto].
  - assert (Hm : (month <? 1) || (month >? 12) = true).
    { destruct Hbad as [? | [? | ?]]; [congruence | |].
      - apply orb_true_iff. left. now apply Z.ltb_lt.
      - apply orb_true_iff. right. rewrite Z.gtb_ltb. now apply Z.ltb_lt. }
    rewrite Hm. eexists. split; [reflexivity | auto].
Qed.

End Arguments.

Lemma generate_rejects_bad_arguments_before_any_host_call_witness :
  exists message,
    generate (MemHost.ops cfgA) MemHost.engine "tblSource" 13 (MemHost.start cfgA) =
      (Throw (newError message), MemHost.start cfgA) /\
    (message = "源表ID不能为空" \/ message = "月份必须在1-12之间").
Proof.
  apply (generate_rejects_bad_arguments_before_any_host_call
           (MemHost.ops cfgA) MemHost.engine "tblSource" 13 (MemHost.start cfgA)).
  right. right. lia.
Defined.

(* ===================================================================== *)
(** * C7: a date that does not parse *)
(* ===================================================================== *)

Section UnparseableDate.
Context {H : Type} (ops : HostOps H) (E : Engine).

(** C7. A record whose out-date is there but does not parse to a valid date
    takes one turn of the loop, which reads the date, logs a warning and
    ends normally with the groups untouched; the loop goes on with the
    next record and ends normally too. *)
Theorem unparseable_date_is_skipped_with_a_warning
  fs month recordId (s : Machine H AggState) outDateValue h1 :
  field_getValue ops (outDateField fs) recordId (host s) = (Ok outDateValue, h1) ->
  ToBoolean outDateValue = true ->
  newDate E outDateValue = None ->
  let s' :=
    {| host := h1;
       trace := trace s ++
         [EvGetValue (outDateField fs) recordId (Ok outDateValue);
          EvConsole WarnLevel
            (template ["记录 "; recordId; " 的日期格式无效: "; ToString E outDateValue])
            None];
       locals := locals s |} in
  processRecord ops E fs month recordId s = (Ok tt, s') /\
  (forall rest,
      forOf (recordId :: rest) (processRecord ops E fs month) s =
      forOf rest (processRecord ops E fs month) s' /\
      exists s'', forOf (recordId :: rest) (processRecord ops E fs month) s = (Ok tt, s'')).
Proof.
  intros Hread Htruthy Hinvalid s'.
  assert (Hrun : processRecord ops E fs month recordId s = (Ok tt, s')).
  { unfold processRecord, tryCatch, bind, getValue, call, console_warn, emit.
    rewrite Hread. cbn. rewrite Htruthy, Hinvalid. cbn.
    subst s'. now rewrite <- app_assoc. }
  split; [exact Hrun |]. intros rest. split.
  - cbn [forOf]. now rewrite (bind_Ok _ _ _ _ _ Hrun).
  - apply forOf_processRecord_Ok.
Qed.

End UnparseableDate.

Lemma unparseable_date_is_skipped_with_a_warning_witness :
  let s := {| host := MemHost.initial; trace := []; locals := initialAggState |} in
  let s' :=
    {| host := MemHost.initial;
       trace :=
         [EvGetValue (outDateField MemHost.fields) "r5" (Ok (JString "soon"));
          EvConsole WarnLevel
            (template ["记录 "; "r5"; " 的日期格式无效: ";
                       ToString MemHost.engine (JString "soon")])
            None];
       locals := initialAggState |} in
  processRecord (MemHost.ops cfgA) MemHost.engine MemHost.fields 2 "r5" s = (Ok tt, s') /\
  (forall rest,
      forOf ("r5" :: rest)
        (processRecord (MemHost.ops cfgA) MemHost.engine MemHost.fields 2) s =
      forOf rest (processRecord (MemHost.ops cfgA) MemHost.engine MemHost.fields 2) s' /\
      exists s'',
        forOf ("r5" :: rest)
          (processRecord (MemHost.ops cfgA) MemHost.engine MemHost.fields 2) s
        = (Ok tt, s'')).
Proof.
  apply (unparseable_date_is_skipped_with_a_warning (MemHost.ops cfgA) MemHost.engine
           MemHost.fields 2 "r5"
           {| host := MemHost.initial; trace := []; locals := initialAggState |}
           (JString "soon") MemHost.initial).
  - reflexivity.
  - reflexivity.
  - reflexivity.
Defined.

(* ===================================================================== *)
(** * C8: the field resolver *)
(* ===================================================================== *)

(** C8. The field resolver either binds every required role to the first
    field, in listing order, whose name is exactly the role's display name,
    or fails with one error whose message joins every display name it
    could not resolve, not only the first. (An empty id is no id.) *)
Theorem resolveFields_binds_every_role_or_names_every_missing
  {Role} (roles : list Role) (NAMES : Role -> string) prefix fields :
  (forall fieldId,
      resolveFields roles NAMES prefix fields = Ok fieldId ->
      forall role, In role roles -> Located fields (NAMES role) (fieldId role))
  /\
  (forall error,
      resolveFields roles NAMES prefix fields = Throw error ->
      exists missing,
        error = newError (template [prefix; join ", " missing]) /\
        missing <> [] /\
        forall name,
          In name missing <->
          exists role, In role roles /\ NAMES role = name /\
                       ~ exists id, Located fields name id)
  /\
  ((exists fieldId, resolveFields roles NAMES prefix fields = Ok fieldId) <->
   (forall role, In role roles -> exists id, Located fields (NAMES role) id)).
Proof.
  assert (Hall : missingFields roles NAMES fields = [] ->
                 forall role, In role roles -> exists id, Located fields (NAMES role) id).
  { intros Hnil role Hin.
    apply missingId_Located.
    destruct (missingId (findFieldId fields (NAMES role))) eqn:Hm; auto.
    assert (Hmem : In (NAMES role) (missingFields roles NAMES fields)).
    { unfold missingFields. apply in_map, filter_In. auto. }
    rewrite Hnil in Hmem. destruct Hmem. }
  destruct (resolveFields_cases roles NAMES prefix fields) as [[Hnil Hr] | [Hne Hr]];
    rewrite Hr; repeat split.
  - intros fieldId [= <-] role Hin.
    destruct (Hall Hnil role Hin) as (id & Hloc).
    now rewrite (Located_fieldIdOf NAMES fields role id Hloc).
  - discriminate.
  - auto.
  - intros _. eauto.
  - discriminate.
  - intros error [= <-]. exists (missingFields roles NAMES fields).
    repeat split; auto; apply In_missingFields.
  - intros (fieldId & Hok). discriminate.
  - intros Hloc. exfalso.
    destruct (missingFields roles NAMES fields) as [| name rest] eqn:Hm; [congruence |].
    assert (Hin : In name (missingFields roles NAMES fields)) by (rewrite Hm; cbn; auto).
    apply In_missingFields in Hin as (role & Hin & <- & Hno). auto.
Qed.

(** The two uses of the resolver in the source. *)
Example resolve_source_first_match :
  resolveFields Source.roles SOURCE_FIELD_NAMES "源表中缺少以下必要的字段: "
    [ {| meta_id := "f1"; meta_name := "产品类别" |};
      {| meta_id := "f2"; meta_name := "申请出库日期" |};
      {| meta_id := "f3"; meta_name := "份数" |};
      {| meta_id := "f4"; meta_name := "产品类别 " |} ]
  = Throw (newError
      "源表中缺少以下必要的字段: 制备费, 出库订单（多单）奖励扣减, 制剂取消收取费用, 制剂加急/非正常出库时间收取费用").
Proof. reflexivity. Qed.

(* ===================================================================== *)
(** * C9: the month filter and the year *)
(* ===================================================================== *)

Section MonthOnly.
Context {H : Type} (ops : HostOps H) (E : Engine).

(** The count of a key that names no inherited member, on a table whose
    out-date and category cells can be read. *)
Lemma getSourceData_countOf
  {L} sourceTable month (s s1 : Machine H L) fs recordIdList h2 dateOf catOf key :
  openSourceFields ops sourceTable s = (Ok fs, s1) ->
  table_getRecordIdList ops sourceTable (host s1) = (Ok (Some recordIdList), h2) ->
  recordIdList <> [] ->
  Readable ops fs recordIdList dateOf catOf ->
  Obj.inherited key = false ->
  exists gd s',
    getSourceData ops E sourceTable month s = (Ok gd, s') /\
    countOf key gd =
    lengthOf (matchingRecordsOf E month key dateOf catOf recordIdList).
Proof.
  intros Hopen Hlist Hne Hread Hkey.
  destruct (getSourceData_run ops E sourceTable month s s1 fs recordIdList h2
              Hopen Hlist Hne) as (s0 & s2 & evs & _ & Hinit & Hloop & Hrun).
  destruct (forOf_processRecord_countOf ops E fs month dateOf catOf key recordIdList
              Hread Hkey s0) as (s2' & Hloop' & Hcount).
  rewrite Hloop in Hloop'. injection Hloop' as <-.
  rewrite Hinit in Hcount. cbn in Hcount.
  eexists. eexists. split; [exact Hrun |].
  rewrite Hcount. unfold countOf. cbn. lia.
Qed.

(** C9 (amended). The month filter looks at the calendar month of a
    record's out-date and never at its year: two records of the list whose
    out-dates are there (truthy, the source's test: the timestamp 0 reads
    as absent) and in the requested month, of different years, and whose
    categories give the same key are both counted in the one group of that
    key by a single run of [getSourceData], for a key that names no member
    that objects inherit from [Object.prototype]. The table that
    [prepareTables] asks the host to create is named after the year of the
    clock and the requested month, whatever the years of the records. *)
Theorem same_month_of_different_years_shares_a_group
  {L} sourceTable month (s s1 : Machine H L) fs recordIdList h2 dateOf catOf
  before r1 between r2 after t1 t2 key :
  openSourceFields ops sourceTable s = (Ok fs, s1) ->
  table_getRecordIdList ops sourceTable (host s1) = (Ok (Some recordIdList), h2) ->
  Readable ops fs recordIdList dateOf catOf ->
  Obj.inherited key = false ->
  recordIdList = before ++ r1 :: between ++ r2 :: after ->
  ToBoolean (dateOf r1) = true -> newDate E (dateOf r1) = Some t1 ->
  ToBoolean (dateOf r2) = true -> newDate E (dateOf r2) = Some t2 ->
  getMonth E t1 + 1 = month -> getMonth E t2 + 1 = month ->
  getFullYear E t1 <> getFullYear E t2 ->
  ToBoolean (catOf r1) = true -> ToBoolean (catOf r2) = true ->
  ToString E (catOf r1) = key -> ToString E (catOf r2) = key ->
  (exists gd s' g,
      getSourceData ops E sourceTable month s = (Ok gd, s') /\
      Obj.get key gd = Some g /\
      count g = lengthOf (matchingRecordsOf E month key dateOf catOf recordIdList) /\
      In r1 (matchingRecordsOf E month key dateOf catOf recordIdList) /\
      In r2 (matchingRecordsOf E month key dateOf catOf recordIdList) /\
      2 <= count g)
  /\
  (forall sourceTableId (m : Machine H unit) t h1,
      base_getTableById ops sourceTableId (host m) = (Ok (Some t), h1) ->
      exists r,
        In (EvAddTable (newTableName (getFullYear E (date_now ops h1)) month) r)
           (trace (snd (prepareTables ops E sourceTableId month m)))).
Proof.
  intros Hopen Hlist Hread Hplain Hsplit Hd1 Hp1 Hd2 Hp2 Hm1 Hm2 Hyear Hc1 Hc2 Hk1 Hk2.
  split; [| intros; now apply prepareTables_names_the_table with (t := t)].
  assert (Hne : recordIdList <> []).
  { rewrite Hsplit. destruct before; discriminate. }
  destruct (getSourceData_countOf sourceTable month s s1 fs
              recordIdList h2 dateOf catOf key Hopen Hlist Hne Hread Hplain)
    as (gd & s' & Hrun & Hkey).
  assert (Hc : forall r d, ToBoolean (dateOf r) = true -> newDate E (dateOf r) = Some d ->
               getMonth E d + 1 = month -> ToBoolean (catOf r) = true ->
               ToString E (catOf r) = key ->
               contributesTo E month key (dateOf r) (catOf r) = true).
  { intros r d Hd Hp Hm Hc Hk. unfold contributesTo, contributes, dateInMonth.
    rewrite Hd, Hp, Hc, Hk. cbn. rewrite String.eqb_refl.
    now apply Z.eqb_eq in Hm as ->. }
  pose proof (Hc r1 t1 Hd1 Hp1 Hm1 Hc1 Hk1) as Hr1.
  pose proof (Hc r2 t2 Hd2 Hp2 Hm2 Hc2 Hk2) as Hr2.
  assert (Htwo : 2 <= countOf key gd).
  { rewrite Hkey. unfold matchingRecordsOf. rewrite Hsplit.
    now apply length_matching_two. }
  unfold countOf in Htwo, Hkey.
  destruct (Obj.get key gd) as [g |] eqn:Hg; [| lia].
  exists gd, s', g. repeat split; auto.
  - unfold matchingRecordsOf. apply filter_In. split; auto.
    rewrite Hsplit. apply in_or_app. right. cbn. auto.
  - unfold matchingRecordsOf. apply filter_In. split; auto.
    rewrite Hsplit. apply in_or_app. right. cbn. right. apply in_or_app. right. cbn. auto.
Qed.

End MonthOnly.

Lemma same_month_of_different_years_shares_a_group_witness :
  (exists gd s' g,
      getSourceData (MemHost.ops cfgA) MemHost.engine {| table_id := "tblSource" |} 2
        (MemHost.prepared cfgA 2) = (Ok gd, s') /\
      Obj.get "A" gd = Some g /\
      count g =
        lengthOf (matchingRecordsOf MemHost.engine 2 "A"
                    (MemHost.cell cfgA "fDate") (MemHost.cell cfgA "fCategory")
                    ["r1"; "r2"; "r3"; "r4"; "r5"; "r6"]) /\
      In "r1" (matchingRecordsOf MemHost.engine 2 "A"
                 (MemHost.cell cfgA "fDate") (MemHost.cell cfgA "fCategory")
                 ["r1"; "r2"; "r3"; "r4"; "r5"; "r6"]) /\
      In "r2" (matchingRecordsOf MemHost.engine 2 "A"
                 (MemHost.cell cfgA "fDate") (MemHost.cell cfgA "fCategory")
                 ["r1"; "r2"; "r3"; "r4"; "r5"; "r6"]) /\
      2 <= count g)
  /\
  (forall sourceTableId (m : Machine MemHost.State unit) t h1,
      base_getTableById (MemHost.ops cfgA) sourceTableId (host m) = (Ok (Some t), h1) ->
      exists r,
        In (EvAddTable
              (newTableName
                 (getFullYear MemHost.engine (date_now (MemHost.ops cfgA) h1)) 2) r)
           (trace (snd (prepareTables (MemHost.ops cfgA) MemHost.engine
                          sourceTableId 2 m)))).
Proof.
  eapply (same_month_of_different_years_shares_a_group
            (MemHost.ops cfgA) MemHost.engine
            {| table_id := "tblSource" |} 2 (MemHost.prepared cfgA 2) _
            MemHost.fields ["r1"; "r2"; "r3"; "r4"; "r5"; "r6"] _
            (MemHost.cell cfgA "fDate") (MemHost.cell cfgA "fCategory")
            [] "r1" [] "r2" ["r3"; "r4"; "r5"; "r6"]
            1676462400000 1707566400000 "A").
  - vm_compute. reflexivity.
  - vm_compute. reflexivity.
  - apply MemHost_Readable. intros recordId Hin. cbn in Hin.
    repeat (destruct Hin as [<- | Hin]; [split; vm_compute; reflexivity |]).
    destruct Hin.
  - reflexivity.
  - reflexivity.
  - reflexivity.
  - vm_compute. reflexivity.
  - reflexivity.
  - vm_compute. reflexivity.
  - vm_compute. reflexivity.
  - vm_compute. reflexivity.
  - vm_compute. discriminate.
  - reflexivity.
  - reflexivity.
  - reflexivity.
  - reflexivity.
Defined.

(** C9 as stated fails, in two ways. Of two records of category A dated
    the timestamp 0 (January 1970) and January 2024, the first has an
    out-date that falls in January, and the source's test [!outDateValue]
    reads it as absent: the group of A counts one record, not both. And
    two February records of 2023 and 2024 that share the category
    "toString" enter no group at all: [groupedData["toString"]] finds the
    member inherited from [Object.prototype], no group is created, and
    [generate] ends with the error that the month has no data. *)
Lemma epoch_record_and_inherited_key_share_no_group :
  (let dateOf := MemHost.cell cfgEpochPair "fDate" in
   parsesInMonth MemHost.engine 1 (dateOf "r1") = true /\
   parsesInMonth MemHost.engine 1 (dateOf "r2") = true /\
   option_map (getFullYear MemHost.engine) (newDate MemHost.engine (dateOf "r1"))
     = Some 1970 /\
   option_map (getFullYear MemHost.engine) (newDate MemHost.engine (dateOf "r2"))
     = Some 2024 /\
   MemHost.cell cfgEpochPair "fCategory" "r1" = JString "A" /\
   MemHost.cell cfgEpochPair "fCategory" "r2" = JString "A" /\
   exists gd,
     fst (getSourceData (MemHost.ops cfgEpochPair) MemHost.engine
            {| table_id := "tblSource" |} 1 (MemHost.prepared cfgEpochPair 1)) = Ok gd /\
     map (fun entry => (fst entry, count (snd entry))) gd = [("A", 1)])
  /\
  (let c := cfgLabel "toString" in
   let dateOf := MemHost.cell c "fDate" in
   parsesInMonth MemHost.engine 2 (dateOf "r1") = true /\
   parsesInMonth MemHost.engine 2 (dateOf "r2") = true /\
   option_map (getFullYear MemHost.engine) (newDate MemHost.engine (dateOf "r1"))
     = Some 2023 /\
   option_map (getFullYear MemHost.engine) (newDate MemHost.engine (dateOf "r2"))
     = Some 2024 /\
   fst (getSourceData (MemHost.ops c) MemHost.engine
          {| table_id := "tblSource" |} 2 (MemHost.prepared c 2)) = Ok [] /\
   fst (generate (MemHost.ops c) MemHost.engine "tblSource" 2 (MemHost.start c))
     = Throw (newError (noDataMessage 2))).
Proof.
  split.
  - repeat (split; [vm_compute; reflexivity |]).
    eexists. split; vm_compute; reflexivity.
  - repeat (split; [vm_compute; reflexivity |]). vm_compute. reflexivity.
Qed.

(* ===================================================================== *)
(** * C10: a source table without records *)
(* ===================================================================== *)

Section NoRecords.
Context {H : Type} (ops : HostOps H) (E : Engine).

(** C10. When the tables are prepared, the source fields are open and the
    list of record ids is empty (or absent), [generate] throws the error
    that says the source table has no records, which is not the error for
    a month without data; no cell was read in the run, so no record was
    filtered by month. *)
Theorem empty_record_list_is_a_fatal_no_records_error
  sourceTableId month (s s1 s2 : Machine H unit) sourceTable newTable fs recordIdList h3 :
  sourceTableId <> "" -> 1 <= month <= 12 ->
  prepareTables ops E sourceTableId month s = (Ok (sourceTable, newTable), s1) ->
  openSourceFields ops sourceTable (logged "获取源表数据中..." s1) = (Ok fs, s2) ->
  table_getRecordIdList ops sourceTable (host s2) = (Ok recordIdList, h3) ->
  recordIdList = None \/ recordIdList = Some [] ->
  exists s' evs,
    generate ops E sourceTableId month s = (Throw (newError noRecordsMessage), s') /\
    noRecordsMessage <> noDataMessage month /\
    trace s' = trace s ++ evs /\
    Forall (fun e => ~ isGetValue e) evs.
Proof.
  intros Hid Hm Hprep Hopen Hlist Hempty.
  destruct (run_emits (fun e => ~ isGetValue e) _ _ _ _
              (prepareTables_emits ops E _ sourceTableId month
                 (fun _ _ => id) (fun _ _ => id) (fun _ _ _ => id) (fun _ _ _ => id))
              Hprep) as (evs1 & Ht1 & Hf1).
  destruct (run_emits (fun e => ~ isGetValue e) _ _ _ _
              (openSourceFields_emits ops _ sourceTable
                 (fun _ _ => id) (fun _ _ _ => id))
              Hopen) as (evs2 & Ht2 & Hf2).
  cbn in Ht2.
  rewrite generate_valid by assumption.
  unfold tryCatch at 1. rewrite (bind_Ok _ _ _ _ _ Hprep).
  unfold bind at 1. cbn. fold (logged "获取源表数据中..." s1).
  unfold bind at 1. unfold getSourceData, tryCatch.
  rewrite (bind_Ok _ _ _ _ _ Hopen).
  unfold bind at 1. unfold getRecordIdList at 1, call. rewrite Hlist.
  destruct Hempty as [-> | ->]; cbn;
    (eexists; eexists; split; [reflexivity |];
     split; [apply noRecords_is_not_noData |]; cbn; rewrite Ht2, Ht1;
     rewrite <- !app_assoc; split; [reflexivity |];
     repeat (apply Forall_app; split); auto; repeat constructor; cbn; auto).
Qed.

End NoRecords.

Lemma empty_record_list_is_a_fatal_no_records_error_witness :
  exists s' evs,
    generate (MemHost.ops cfgEmpty) MemHost.engine "tblSource" 2 (MemHost.start cfgEmpty) =
      (Throw (newError noRecordsMessage), s') /\
    noRecordsMessage <> noDataMessage 2 /\
    trace s' = trace (MemHost.start cfgEmpty) ++ evs /\
    Forall (fun e => ~ isGetValue e) evs.
Proof.
  eapply (empty_record_list_is_a_fatal_no_records_error
            (MemHost.ops cfgEmpty) MemHost.engine "tblSource" 2 (MemHost.start cfgEmpty)).
  - discriminate.
  - lia.
  - vm_compute. reflexivity.
  - vm_compute. reflexivity.
  - vm_compute. reflexivity.
  - right. reflexivity.
Defined.

(* ===================================================================== *)
(** * Further properties: how a run starts and fails *)
(* ===================================================================== *)

Section StartOfARun.
Context {H : Type} (ops : HostOps H) (E : Engine).

Lemma forOf_addField_run {L} table configs (s : Machine H L) :
  exists done rest s',
    configs = done ++ rest /\
    trace s' = trace s ++ addFieldEvents table done /\
    locals s' = locals s /\
    ((rest = [] /\
      forOf configs (fun config => addField ops table config) s = (Ok tt, s'))
     \/
     (exists config rest' error h,
        rest = config :: rest' /\
        table_addField ops table config (host s') = (Throw error, h) /\
        forOf configs (fun config => addField ops table config) s =
        (Throw error,
         {| host := h;
            trace := trace s' ++ [EvAddField table config (Throw error)];
            locals := locals s' |}))).
Proof.
  revert s. induction configs as [| config rest IH]; intros s.
  - exists [], [], s. cbn. rewrite app_nil_r.
    split; [reflexivity |]. split; [reflexivity |]. split; [reflexivity |].
    left. split; reflexivity.
  - cbn [forOf]. unfold bind at 1. unfold addField at 1, call.
    destruct (table_addField ops table config (host s)) as [[[] | error] h] eqn:Hadd.
    + match goal with |- context [forOf rest _ ?s1] =>
        destruct (IH s1) as (done & rest' & s' & Hsplit & Ht & Hl & Hcases)
      end.
      exists (config :: done), rest', s'. cbn [trace locals] in Ht, Hl.
      split; [cbn; now rewrite Hsplit |].
      split; [rewrite Ht; cbn; now rewrite <- app_assoc |].
      split; [exact Hl |].
      destruct Hcases as [[Hnil Hrun] | (c & rest'' & error & h' & Hrest & Hfail & Hrun)].
      * left. split; [exact Hnil |]. exact Hrun.
      * right. exists c, rest'', error, h'.
        split; [exact Hrest |]. split; [exact Hfail |].
        unfold bind at 1. unfold addField at 1, call. rewrite Hadd. exact Hrun.
    + exists [], (config :: rest), s. cbn. rewrite app_nil_r.
      split; [reflexivity |]. split; [reflexivity |]. split; [reflexivity |].
      right. exists config, rest, error, h.
      split; [reflexivity |]. split; [exact Hadd |].
      unfold bind at 1. unfold addField at 1, call. rewrite Hadd. reflexivity.
Qed.

(** X1. [createFields] asks for the seven fields in their fixed order and
    stops at the first [addField] that fails: the fields before it were
    added, none after it is asked for, the failure is logged, and what is
    thrown is the fixed error of [createFields], not the host's. *)
Theorem createFields_stops_at_the_first_failure {L} table (s : Machine H L) :
  exists done rest s',
    targetFieldConfigs = done ++ rest /\
    trace s' = trace s ++ addFieldEvents table done /\
    ((rest = [] /\ createFields ops table s = (Ok tt, s'))
     \/
     (exists config rest' error h,
        rest = config :: rest' /\
        table_addField ops table config (host s') = (Throw error, h) /\
        createFields ops table s =
        (Throw (newError createFieldsFailedMessage),
         {| host := h;
            trace := trace s' ++
              [EvAddField table config (Throw error);
               EvConsole ErrorLevel "创建字段时发生错误:" (Some error)];
            locals := locals s |}))).
Proof.
  destruct (forOf_addField_run table targetFieldConfigs s)
    as (done & rest & s' & Hsplit & Ht & Hl & Hcases).
  exists done, rest, s'. split; [exact Hsplit |]. split; [exact Ht |].
  unfold createFields, tryCatch.
  destruct Hcases as [[Hnil Hrun] | (config & rest' & error & h & Hrest & Hadd & Hrun)];
    rewrite Hrun.
  - left. auto.
  - right. exists config, rest', error, h. repeat split; auto.
    cbn. rewrite <- app_assoc, Hl. reflexivity.
Qed.

Lemma rethrow_rejectsWithError {L A} error unknown (s : Machine H L) :
  rejectsWithError (rethrow error unknown s : Result A * _).
Proof. unfold rejectsWithError, rethrow. destruct error; reflexivity. Qed.

Lemma tryCatch_rethrow_rejectsWithError {L A} (body : M H L A) message unknown s :
  rejectsWithError
    (tryCatch body
       (fun error => console_error message (Some error) ;; rethrow error unknown) s).
Proof.
  unfold tryCatch. destruct (body s) as [[a | error] s1]; [exact I |].
  unfold bind, console_error, emit. apply rethrow_rejectsWithError.
Qed.

Lemma generate_rejectsWithError sourceTableId month (s : Machine H unit) :
  rejectsWithError (generate ops E sourceTableId month s).
Proof.
  unfold generate. destruct (String.eqb sourceTableId ""); [reflexivity |].
  destruct ((month <? 1) || (month >? 12)); [reflexivity |].
  apply tryCatch_rethrow_rejectsWithError.
Qed.

(** X2. Whatever the host does, and whatever it throws, [generate],
    [createFields], [getSourceData] and [writeDataToNewTable] end normally
    or throw an [Error] instance: a thrown value of another kind never
    leaves them. *)
Theorem generator_throws_only_Error_instances
  sourceTableId month table groupedData (s : Machine H unit) :
  rejectsWithError (generate ops E sourceTableId month s) /\
  rejectsWithError (createFields ops table s) /\
  rejectsWithError (getSourceData ops E table month s) /\
  rejectsWithError (writeDataToNewTable ops table groupedData s).
Proof.
  repeat split.
  - apply generate_rejectsWithError.
  - unfold createFields, tryCatch.
    match goal with |- context [forOf ?l ?b s] => destruct (forOf l b s) as [[a | e] s1] end;
      [exact I | reflexivity].
  - apply tryCatch_rethrow_rejectsWithError.
  - apply tryCatch_rethrow_rejectsWithError.
Qed.

(** X3. With valid arguments, when the host has no table of the given id,
    [generate] throws the error that names the id after that one call: no
    table is created. When the lookup itself is rejected, [generate]
    rejects with the same value if it is an [Error], and with the error of
    an unknown failure otherwise. *)
Theorem generate_without_source_table
  sourceTableId month (s : Machine H unit) r h1 :
  sourceTableId <> "" -> 1 <= month <= 12 ->
  base_getTableById ops sourceTableId (host s) = (r, h1) ->
  match r with
  | Ok (Some _) => True
  | Ok None =>
      generate ops E sourceTableId month s =
      (Throw (newError (tableNotFoundMessage sourceTableId)),
       {| host := h1;
          trace := trace s ++
            [EvGetTableById sourceTableId r;
             EvConsole ErrorLevel "生成汇总表时发生错误:"
               (Some (newError (tableNotFoundMessage sourceTableId)))];
          locals := locals s |})
  | Throw error =>
      generate ops E sourceTableId month s =
      (Throw (if instanceofError error then error else newError unknownGenerateMessage),
       {| host := h1;
          trace := trace s ++
            [EvGetTableById sourceTableId r;
             EvConsole ErrorLevel "生成汇总表时发生错误:" (Some error)];
          locals := locals s |})
  end.
Proof.
  intros Hid Hm Hget.
  destruct r as [[t |] | error]; [exact I | |];
    rewrite generate_valid by assumption;
    unfold tryCatch, prepareTables; unfold bind at 1; unfold bind at 1;
    unfold getTableById at 1, call; rewrite Hget.
  - cbn. rewrite <- ?app_assoc. reflexivity.
  - cbn. rewrite <- ?app_assoc. unfold rethrow. destruct error; reflexivity.
Qed.

End StartOfARun.

(** On a host that refuses the third field, two fields are added, the
    refusal is logged, and [createFields] throws its own error. *)
Example createFields_refused_at_the_third_field :
  let run := createFields (refusingField cfgA "份数") {| table_id := "tblReport" |}
               (MemHost.start cfgA) in
  fst run = Throw (newError createFieldsFailedMessage) /\
  map meta_name (MemHost.newFields (host (snd run))) = ["项目"; "人数"] /\
  MemHost.diagnostics (trace (snd run)) =
    [(ErrorLevel, "创建字段时发生错误:", Some (NonError (JString "refused")))].
Proof. vm_compute. repeat split; reflexivity. Qed.

Lemma generate_without_source_table_witness :
  generate (MemHost.ops cfgA) MemHost.engine "tblOther" 2 (MemHost.start cfgA) =
  (Throw (newError (tableNotFoundMessage "tblOther")),
   {| host := MemHost.initial;
      trace :=
        [EvGetTableById "tblOther" (Ok None);
         EvConsole ErrorLevel "生成汇总表时发生错误:"
           (Some (newError (tableNotFoundMessage "tblOther")))];
      locals := tt |}).
Proof.
  apply (generate_without_source_table (MemHost.ops cfgA) MemHost.engine "tblOther" 2
           (MemHost.start cfgA) (Ok None) MemHost.initial).
  - discriminate.
  - lia.
  - reflexivity.
Defined.

(* ===================================================================== *)
(** * Further properties: tables that lack a field *)
(* ===================================================================== *)

Section MissingFields.
Context {H : Type} (ops : HostOps H) (E : Engine).

Lemma missingFieldsError_resolve {Role} (roles : list Role) NAMES emptyMessage prefix
  field fields message :
  missingFieldsError roles NAMES emptyMessage prefix (Some (field :: fields)) = Some message ->
  resolveFields roles NAMES prefix (field :: fields) = Throw (newError message).
Proof.
  unfold missingFieldsError. intros Herr.
  destruct (resolveFields_cases roles NAMES prefix (field :: fields))
    as [[Hnil Hres] | [Hne Hres]]; rewrite Hres.
  - rewrite Hnil in Herr. discriminate.
  - destruct (missingFields roles NAMES (field :: fields)); [congruence |].
    now inversion Herr.
Qed.

(** X4. When the source table lists no fields, or lacks one of the seven
    required names, [getSourceData] throws the error that says so (with
    every missing name) right after the listing: no field is opened, the
    records are not listed and no cell is read. *)
Theorem getSourceData_without_required_fields {L}
  sourceTable month (s : Machine H L) meta h1 message :
  table_getFieldMetaList ops sourceTable (host s) = (Ok meta, h1) ->
  sourceFieldsError meta = Some message ->
  getSourceData ops E sourceTable month s =
  (Throw (newError message),
   {| host := h1;
      trace := trace s ++
        [EvGetFieldMetaList sourceTable (Ok meta);
         EvConsole ErrorLevel "获取源表数据时发生错误:" (Some (newError message))];
      locals := locals s |}).
Proof.
  intros Hmeta Herr.
  unfold getSourceData, tryCatch, openSourceFields.
  unfold bind at 1. unfold bind at 1. unfold getFieldMetaList at 1, call.
  rewrite Hmeta.
  destruct meta as [[| field fields] |].
  - inversion Herr. cbn. rewrite <- ?app_assoc. reflexivity.
  - cbn beta iota.
    rewrite (missingFieldsError_resolve _ _ _ _ _ _ _ Herr).
    cbn. rewrite <- ?app_assoc. reflexivity.
  - inversion Herr. cbn. rewrite <- ?app_assoc. reflexivity.
Qed.

(** X5. When the new table lists no fields, or lacks one of the seven
    names that [createFields] gives, [writeDataToNewTable] throws the
    error that says so right after the listing: nothing is written, by
    neither path. *)
Theorem writeDataToNewTable_without_required_fields {L}
  newTable groupedData (s : Machine H L) meta h1 message :
  table_getFieldMetaList ops newTable (host s) = (Ok meta, h1) ->
  targetFieldsError meta = Some message ->
  writeDataToNewTable ops newTable groupedData s =
  (Throw (newError message),
   {| host := h1;
      trace := trace s ++
        [EvGetFieldMetaList newTable (Ok meta);
         EvConsole ErrorLevel "写入数据到新表时发生错误:" (Some (newError message))];
      locals := locals s |}).
Proof.
  intros Hmeta Herr.
  unfold writeDataToNewTable, tryCatch, openTargetFields.
  unfold bind at 1. unfold bind at 1. unfold getFieldMetaList at 1, call.
  rewrite Hmeta.
  destruct meta as [[| field fields] |].
  - inversion Herr. cbn. rewrite <- ?app_assoc. reflexivity.
  - cbn beta iota.
    rewrite (missingFieldsError_resolve _ _ _ _ _ _ _ Herr).
    cbn. rewrite <- ?app_assoc. reflexivity.
  - inversion Herr. cbn. rewrite <- ?app_assoc. reflexivity.
Qed.

End MissingFields.

Lemma getSourceData_without_required_fields_witness :
  getSourceData (MemHost.ops cfgPartial) MemHost.engine {| table_id := "tblSource" |} 2
    (MemHost.start cfgPartial) =
  (Throw (newError "源表中缺少以下必要的字段: 份数, 制剂取消收取费用"),
   {| host := MemHost.initial;
      trace :=
        [EvGetFieldMetaList {| table_id := "tblSource" |}
           (Ok (Some (MemHost.sourceFields cfgPartial)));
         EvConsole ErrorLevel "获取源表数据时发生错误:"
           (Some (newError "源表中缺少以下必要的字段: 份数, 制剂取消收取费用"))];
      locals := tt |}).
Proof.
  apply (getSourceData_without_required_fields (MemHost.ops cfgPartial) MemHost.engine
           {| table_id := "tblSource" |} 2 (MemHost.start cfgPartial)
           (Some (MemHost.sourceFields cfgPartial)) MemHost.initial).
  - reflexivity.
  - vm_compute. reflexivity.
Defined.

Lemma writeDataToNewTable_without_required_fields_witness :
  writeDataToNewTable (MemHost.ops cfgA) {| table_id := "tblReport" |}
    [("A", emptyGroup)] (MemHost.start cfgA) =
  (Throw (newError noTargetFieldsMessage),
   {| host := MemHost.initial;
      trace :=
        [EvGetFieldMetaList {| table_id := "tblReport" |} (Ok (Some []));
         EvConsole ErrorLevel "写入数据到新表时发生错误:"
           (Some (newError noTargetFieldsMessage))];
      locals := tt |}).
Proof.
  apply (writeDataToNewTable_without_required_fields (MemHost.ops cfgA)
           {| table_id := "tblReport" |} [("A", emptyGroup)] (MemHost.start cfgA)
           (Some []) MemHost.initial).
  - reflexivity.
  - reflexivity.
Defined.

(* ===================================================================== *)
(** * Further properties: records that join no group *)
(* ===================================================================== *)
Section SkippedRecords.
Context {H : Type} (ops : HostOps H) (E : Engine).

(** X6. A record whose out-date is absent, or is a valid date of another
    month, costs one cell read and nothing else: its category is not read,
    nothing is logged and the counters and groups stay as they are. *)
Theorem record_outside_the_month_costs_one_read
  fs month recordId (s : Machine H AggState) date h1 :
  field_getValue ops (outDateField fs) recordId (host s) = (Ok date, h1) ->
  ToBoolean date = false \/
  (exists t, newDate E date = Some t /\ getMonth E t + 1 <> month) ->
  processRecord ops E fs month recordId s =
  (Ok tt,
   {| host := h1;
      trace := trace s ++ [EvGetValue (outDateField fs) recordId (Ok date)];
      locals := locals s |}).
Proof.
  intros Hdate Hout. unfold processRecord, tryCatch.
  unfold bind at 1. unfold getValue at 1, call. rewrite Hdate.
  destruct Hout as [Habsent | (t & Ht & Hmonth)].
  - rewrite Habsent. reflexivity.
  - destruct (ToBoolean date); [| reflexivity]. cbn [negb].
    rewrite Ht. apply Z.eqb_neq in Hmonth. rewrite Hmonth. reflexivity.
Qed.

(** X7. A record with an out-date in the month and an empty category is
    counted as matching the month, a warning names it, and it joins no
    group: the groups stay as they are and none of its numeric cells is
    read. *)
Theorem record_without_category_is_matched_but_not_grouped
  fs month recordId (s : Machine H AggState) date h1 cat h2 :
  field_getValue ops (outDateField fs) recordId (host s) = (Ok date, h1) ->
  dateInMonth E month date = true ->
  field_getValue ops (productCategoryField fs) recordId h1 = (Ok cat, h2) ->
  ToBoolean cat = false ->
  processRecord ops E fs month recordId s =
  (Ok tt,
   {| host := h2;
      trace := trace s ++
        [EvGetValue (outDateField fs) recordId (Ok date);
         EvGetValue (productCategoryField fs) recordId (Ok cat);
         EvConsole WarnLevel (noCategoryMessage recordId) None];
      locals := incrMatched (locals s) |}).
Proof.
  intros Hdate Hin Hcat Hempty. unfold processRecord, tryCatch.
  unfold bind at 1. unfold getValue at 1, call. rewrite Hdate.
  unfold dateInMonth in Hin. apply andb_prop in Hin as [Htruthy Hmonth].
  rewrite Htruthy. cbn [negb].
  destruct (newDate E date) as [t |]; [| discriminate].
  rewrite Hmonth. cbn [negb].
  unfold bind at 1. unfold modifyLocals at 1.
  unfold bind at 1. unfold getValue at 1, call. cbn [host trace locals].
  rewrite Hcat, Hempty. cbn. rewrite <- ?app_assoc. reflexivity.
Qed.

(** X8. A failing read of the out-date or of the category costs only that
    record: the error is logged as a warning under the record's id, the
    groups stay as they are and the loop body ends normally. A record
    whose category could not be read was already counted as matching the
    month. *)
Theorem failing_read_skips_the_record
  fs month recordId (s : Machine H AggState) rd h1 rc h2 :
  field_getValue ops (outDateField fs) recordId (host s) = (rd, h1) ->
  field_getValue ops (productCategoryField fs) recordId h1 = (rc, h2) ->
  match rd, rc with
  | Throw error, _ =>
      processRecord ops E fs month recordId s =
      (Ok tt,
       {| host := h1;
          trace := trace s ++
            [EvGetValue (outDateField fs) recordId rd;
             EvConsole WarnLevel (recordFailedMessage recordId) (Some error)];
          locals := locals s |})
  | Ok date, Throw error =>
      dateInMonth E month date = true ->
      processRecord ops E fs month recordId s =
      (Ok tt,
       {| host := h2;
          trace := trace s ++
            [EvGetValue (outDateField fs) recordId rd;
             EvGetValue (productCategoryField fs) recordId rc;
             EvConsole WarnLevel (recordFailedMessage recordId) (Some error)];
          locals := incrMatched (locals s) |})
  | Ok _, Ok _ => True
  end.
Proof.
  intros Hdate Hcat.
  destruct rd as [date | error].
  - destruct rc as [cat | error]; [exact I |]. intros Hin.
    unfold processRecord, tryCatch.
    unfold bind at 1. unfold getValue at 1, call. rewrite Hdate.
    unfold dateInMonth in Hin. apply andb_prop in Hin as [Htruthy Hmonth].
    rewrite Htruthy. cbn [negb].
    destruct (newDate E date) as [t |]; [| discriminate].
    rewrite Hmonth. cbn [negb].
    unfold bind at 1. unfold modifyLocals at 1.
    unfold bind at 1. unfold getValue at 1, call. cbn [host trace locals].
    rewrite Hcat. unfold console_warn, emit. cbn. rewrite <- ?app_assoc. reflexivity.
  - unfold processRecord, tryCatch.
    unfold bind at 1. unfold getValue at 1, call. rewrite Hdate.
    unfold console_warn, emit. cbn. rewrite <- ?app_assoc. reflexivity.
Qed.

End SkippedRecords.

Lemma record_outside_the_month_costs_one_read_witness :
  processRecord (MemHost.ops cfgA) MemHost.engine MemHost.fields 2 "r4"
    {| host := MemHost.initial; trace := []; locals := initialAggState |} =
  (Ok tt,
   {| host := MemHost.initial;
      trace := [EvGetValue (outDateField MemHost.fields) "r4" (Ok MemHost.mar2024)];
      locals := initialAggState |}).
Proof.
  apply (record_outside_the_month_costs_one_read (MemHost.ops cfgA) MemHost.engine
           MemHost.fields 2 "r4"
           {| host := MemHost.initial; trace := []; locals := initialAggState |}
           MemHost.mar2024 MemHost.initial).
  - reflexivity.
  - right. eexists. split; [vm_compute; reflexivity | vm_compute; discriminate].
Defined.

Lemma record_without_category_is_matched_but_not_grouped_witness :
  processRecord (MemHost.ops cfgA) MemHost.engine MemHost.fields 2 "r6"
    {| host := MemHost.initial; trace := []; locals := initialAggState |} =
  (Ok tt,
   {| host := MemHost.initial;
      trace :=
        [EvGetValue (outDateField MemHost.fields) "r6" (Ok MemHost.feb2024);
         EvGetValue (productCategoryField MemHost.fields) "r6" (Ok JNull);
         EvConsole WarnLevel (noCategoryMessage "r6") None];
      locals := incrMatched initialAggState |}).
Proof.
  apply (record_without_category_is_matched_but_not_grouped (MemHost.ops cfgA)
           MemHost.engine MemHost.fields 2 "r6"
           {| host := MemHost.initial; trace := []; locals := initialAggState |}
           MemHost.feb2024 MemHost.initial JNull MemHost.initial).
  - reflexivity.
  - vm_compute. reflexivity.
  - reflexivity.
  - reflexivity.
Defined.

Lemma failing_read_skips_the_record_witness :
  processRecord (MemHost.ops cfgUnreadable) MemHost.engine MemHost.fields 2 "r1"
    {| host := MemHost.initial; trace := []; locals := initialAggState |} =
  (Ok tt,
   {| host := MemHost.initial;
      trace :=
        [EvGetValue (outDateField MemHost.fields) "r1" (Ok MemHost.feb2024);
         EvGetValue (productCategoryField MemHost.fields) "r1"
           (Throw (newError "cell unavailable"));
         EvConsole WarnLevel (recordFailedMessage "r1")
           (Some (newError "cell unavailable"))];
      locals := incrMatched initialAggState |}).
Proof.
  apply (failing_read_skips_the_record (MemHost.ops cfgUnreadable) MemHost.engine
           MemHost.fields 2 "r1"
           {| host := MemHost.initial; trace := []; locals := initialAggState |}
           (Ok MemHost.feb2024) MemHost.initial
           (Throw (newError "cell unavailable")) MemHost.initial).
  - reflexivity.
  - reflexivity.
  - vm_compute. reflexivity.
Defined.

(* ===================================================================== *)
(** * Further properties: the groups, their order and their sums *)
(* ===================================================================== *)

Section KeysOfGroups.
Context {V : Type}.

Lemma keys_set key (v : V) o :
  map fst (Obj.set key v o) = seeKey (map fst o) key.
Proof.
  unfold seeKey. induction o as [| [k w] rest IH]; cbn; [reflexivity |].
  destruct (String.eqb k key); cbn; [reflexivity |].
  rewrite IH. destruct (existsb _ (map fst rest)); reflexivity.
Qed.

Lemma entries_without_index (o : Obj.t V) :
  (forall key, In key (map fst o) -> Obj.arrayIndex key = None) ->
  Obj.entries o = o.
Proof.
  intros Hnone. unfold Obj.entries.
  assert (Hidx : Obj.indexEntries o = [] /\ Obj.stringEntries o = o).
  { induction o as [| [k w] rest IH]; [split; reflexivity |].
    destruct IH as [IHi IHs]; [intros key Hin; apply Hnone; cbn; auto |].
    unfold Obj.stringEntries in *. cbn.
    rewrite (Hnone k) by (cbn; auto). rewrite IHs. split; [exact IHi | reflexivity]. }
  destruct Hidx as [-> ->]. reflexivity.
Qed.

End KeysOfGroups.

Lemma existsb_eqb_In key seen :
  existsb (fun k => String.eqb k key) seen = true <-> In key seen.
Proof.
  rewrite existsb_exists. split.
  - intros (k & Hin & Heq). apply String.eqb_eq in Heq. now subst.
  - intros Hin. exists key. split; [exact Hin | apply String.eqb_refl].
Qed.

Lemma seeKey_NoDup seen key : NoDup seen -> NoDup (seeKey seen key).
Proof.
  intros Hnd. unfold seeKey.
  destruct (existsb _ seen) eqn:Hex; [exact Hnd |].
  assert (Hnotin : ~ In key seen).
  { intros Hin. apply existsb_eqb_In in Hin. congruence. }
  apply NoDup_rev in Hnd. rewrite <- (rev_involutive (seen ++ [key])).
  apply NoDup_rev. rewrite rev_app_distr. cbn. constructor; [| exact Hnd].
  now rewrite <- in_rev.
Qed.

Lemma fold_seeKey_NoDup keys : forall seen, NoDup seen -> NoDup (fold_left seeKey keys seen).
Proof.
  induction keys as [| key rest IH]; intros seen Hnd; cbn; [exact Hnd |].
  apply IH. now apply seeKey_NoDup.
Qed.

Lemma groupOf_accumulate key key' v1 v2 v3 v4 v5 gd :
  groupOf key' (accumulate key v1 v2 v3 v4 v5 gd) =
  if String.eqb key key' then addRecordTo v1 v2 v3 v4 v5 (groupOf key gd)
  else groupOf key' gd.
Proof.
  unfold groupOf, accumulate.
  destruct (String.eqb key key') eqn:Heq.
  - apply String.eqb_eq in Heq. subst key'. now rewrite get_set_same.
  - apply String.eqb_neq in Heq. rewrite get_set_other by congruence. reflexivity.
Qed.

Section GroupsOfARun.
Context {H : Type} (ops : HostOps H) (E : Engine).

(** The step of the record loop on a record whose out-date and category
    can be read and whose key, if it enters a group, names no inherited
    member. *)
Lemma processRecord_groups fs month recordId date cat (s : Machine H AggState) :
  (forall h, fst (field_getValue ops (outDateField fs) recordId h) = Ok date) ->
  (forall h, fst (field_getValue ops (productCategoryField fs) recordId h) = Ok cat) ->
  (contributes E month date cat = true -> Obj.inherited (ToString E cat) = false) ->
  exists s',
    processRecord ops E fs month recordId s = (Ok tt, s') /\
    if contributes E month date cat then
      exists r1 r2 r3 r4 r5,
        ReadOf ops (sharesField fs) recordId r1 /\
        ReadOf ops (preparationFeeField fs) recordId r2 /\
        ReadOf ops (rewardDeductionField fs) recordId r3 /\
        ReadOf ops (cancelFeeField fs) recordId r4 /\
        ReadOf ops (urgentFeeField fs) recordId r5 /\
        groupedData (locals s') =
          accumulate (ToString E cat)
            (normalized E r1) (normalized E r2) (normalized E r3)
            (normalized E r4) (normalized E r5) (groupedData (locals s))
    else groupedData (locals s') = groupedData (locals s).
Proof.
  intros Hdate Hcat Hplain.
  destruct (processRecord_run ops E fs month recordId s) as (s' & Hrun & Hgd).
  exists s'. split; [exact Hrun |].
  unfold contributes in *.
  specialize (Hdate (host s)).
  destruct (field_getValue ops (outDateField fs) recordId (host s)) as [rd h1].
  cbn in Hdate. subst rd.
  destruct (dateInMonth E month date); cbn; [| exact Hgd].
  specialize (Hcat h1).
  destruct (field_getValue ops (productCategoryField fs) recordId h1) as [rc h2].
  cbn in Hcat. subst rc.
  destruct (ToBoolean cat); cbn; [| exact Hgd].
  specialize (Hplain eq_refl).
  destruct (Obj.member (ToString E cat) (groupedData (locals s))) eqn:Hmember;
    [exact Hgd | | exact Hgd].
  apply member_Inherited in Hmember as [_ Hinh]. congruence.
Qed.

Lemma forOf_processRecord_keys fs month dateOf catOf recordIdList :
  Readable ops fs recordIdList dateOf catOf ->
  PlainKeys E month dateOf catOf recordIdList ->
  forall s : Machine H AggState,
  exists s',
    forOf recordIdList (processRecord ops E fs month) s = (Ok tt, s') /\
    map fst (groupedData (locals s')) =
    fold_left seeKey
      (map (fun recordId => ToString E (catOf recordId))
         (matchingRecords E month dateOf catOf recordIdList))
      (map fst (groupedData (locals s))).
Proof.
  induction recordIdList as [| recordId rest IH]; intros Hread Hplain s.
  - exists s. split; reflexivity.
  - destruct (processRecord_groups fs month recordId (dateOf recordId) (catOf recordId) s)
      as (s1 & Hrun & Hgd).
    { intros h. apply Hread. cbn. auto. }
    { intros h. apply Hread. cbn. auto. }
    { apply Hplain. cbn. auto. }
    destruct (IH (fun r Hin => Hread r (or_intror Hin))
                 (fun r Hin => Hplain r (or_intror Hin)) s1) as (s' & Hloop & Hkeys).
    exists s'. cbn [forOf]. rewrite (bind_Ok _ _ _ _ _ Hrun).
    split; [exact Hloop |]. rewrite Hkeys.
    unfold matchingRecords. cbn [filter].
    destruct (contributes E month (dateOf recordId) (catOf recordId)).
    + destruct Hgd as (r1 & r2 & r3 & r4 & r5 & _ & _ & _ & _ & _ & ->).
      unfold accumulate. rewrite keys_set. reflexivity.
    + rewrite Hgd. reflexivity.
Qed.

(** X9. On a source table whose out-date and category cells can be read
    and whose grouped records have keys that name no inherited member, the
    groups that [getSourceData] returns are created in the order in which
    their category keys are first seen among the matching records, one
    group per distinct key; when no key is an array index, [Object.keys]
    lists them in that order. *)
Theorem groups_are_created_in_first_seen_order
  {L} sourceTable month (s s1 : Machine H L) fs recordIdList h2 dateOf catOf :
  openSourceFields ops sourceTable s = (Ok fs, s1) ->
  table_getRecordIdList ops sourceTable (host s1) = (Ok (Some recordIdList), h2) ->
  recordIdList <> [] ->
  Readable ops fs recordIdList dateOf catOf ->
  PlainKeys E month dateOf catOf recordIdList ->
  exists gd s',
    getSourceData ops E sourceTable month s = (Ok gd, s') /\
    map fst gd =
      firstSeen (map (fun recordId => ToString E (catOf recordId))
                   (matchingRecords E month dateOf catOf recordIdList)) /\
    NoDup (map fst gd) /\
    ((forall key, In key (map fst gd) -> Obj.arrayIndex key = None) ->
     Obj.keys gd = map fst gd).
Proof.
  intros Hopen Hlist Hne Hread Hplain.
  destruct (getSourceData_run ops E sourceTable month s s1 fs recordIdList h2
              Hopen Hlist Hne) as (s0 & s2 & evs & _ & Hinit & Hloop & Hrun).
  destruct (forOf_processRecord_keys fs month dateOf catOf recordIdList Hread Hplain s0)
    as (s2' & Hloop' & Hkeys).
  rewrite Hloop in Hloop'. injection Hloop' as <-.
  rewrite Hinit in Hkeys. cbn [groupedData initialAggState map] in Hkeys.
  eexists. eexists. split; [exact Hrun |]. split; [exact Hkeys |]. split.
  - rewrite Hkeys. apply fold_seeKey_NoDup. constructor.
  - intros Hnone. unfold Obj.keys. now rewrite entries_without_index.
Qed.

(** The group of [key] after the loop: the records of that key added one
    by one, in list order. *)
Lemma forOf_processRecord_groupOf fs month dateOf catOf numOf recordIdList :
  Readable ops fs recordIdList dateOf catOf ->
  PlainKeys E month dateOf catOf recordIdList ->
  NumericReadable ops fs recordIdList numOf ->
  forall s : Machine H AggState,
  exists s',
    forOf recordIdList (processRecord ops E fs month) s = (Ok tt, s') /\
    forall key,
      groupOf key (groupedData (locals s')) =
      fold_left
        (fun g recordId =>
           addRecordTo
             (normalized E (numOf (sharesField fs) recordId))
             (normalized E (numOf (preparationFeeField fs) recordId))
             (normalized E (numOf (rewardDeductionField fs) recordId))
             (normalized E (numOf (cancelFeeField fs) recordId))
             (normalized E (numOf (urgentFeeField fs) recordId)) g)
        (matchingRecordsOf E month key dateOf catOf recordIdList)
        (groupOf key (groupedData (locals s))).
Proof.
  induction recordIdList as [| recordId rest IH]; intros Hread Hplain Hnum s.
  - exists s. split; reflexivity.
  - destruct (processRecord_groups fs month recordId (dateOf recordId) (catOf recordId) s)
      as (s1 & Hrun & Hgd).
    { intros h. apply Hread. cbn. auto. }
    { intros h. apply Hread. cbn. auto. }
    { apply Hplain. cbn. auto. }
    destruct (IH (fun r Hin => Hread r (or_intror Hin))
                 (fun r Hin => Hplain r (or_intror Hin))
                 (fun f r Hf Hin => Hnum f r Hf (or_intror Hin)) s1)
      as (s' & Hloop & Hgroups).
    exists s'. cbn [forOf]. rewrite (bind_Ok _ _ _ _ _ Hrun).
    split; [exact Hloop |]. intros key. rewrite Hgroups.
    unfold matchingRecordsOf, contributesTo. cbn [filter].
    destruct (contributes E month (dateOf recordId) (catOf recordId)); cbn [andb].
    + destruct Hgd as (r1 & r2 & r3 & r4 & r5 & [h1 H1] & [h2' H2] & [h3 H3]
                       & [h4 H4] & [h5 H5] & ->).
      rewrite Hnum in H1, H2, H3, H4, H5 by (cbn; auto 10).
      subst r1 r2 r3 r4 r5.
      rewrite groupOf_accumulate.
      destruct (String.eqb (ToString E (catOf recordId)) key) eqn:Heq; [| reflexivity].
      apply String.eqb_eq in Heq. subst key. reflexivity.
    + rewrite Hgd. reflexivity.
Qed.

Lemma fold_addRecordTo (v1 v2 v3 v4 v5 : string -> float) records : forall g,
  let g' := fold_left (fun g r => addRecordTo (v1 r) (v2 r) (v3 r) (v4 r) (v5 r) g)
              records g in
  count g' = count g + lengthOf records /\
  shares g' = fold_left (fun acc r => (acc + v1 r)%float) records (shares g) /\
  preparationFee g' =
    fold_left (fun acc r => (acc + v2 r)%float) records (preparationFee g) /\
  rewardDeduction g' =
    fold_left (fun acc r => (acc + v3 r)%float) records (rewardDeduction g) /\
  cancelFee g' = fold_left (fun acc r => (acc + v4 r)%float) records (cancelFee g) /\
  urgentFee g' = fold_left (fun acc r => (acc + v5 r)%float) records (urgentFee g).
Proof.
  unfold lengthOf. induction records as [| r rest IH]; intros g; cbn zeta.
  - cbn. repeat split; lia.
  - cbn [fold_left List.length].
    destruct (IH (addRecordTo (v1 r) (v2 r) (v3 r) (v4 r) (v5 r) g))
      as (Hc & H1 & H2 & H3 & H4 & H5).
    rewrite Hc, H1, H2, H3, H4, H5. cbn. repeat split; lia.
Qed.

(** X10. On a source table whose cells can be read and whose grouped
    records have keys that name no inherited member, each group that
    [getSourceData] returns holds, for each of the five numeric fields,
    the normalized cells of the matching records of its category key,
    added from zero in the order of the record list (floating-point
    addition, so the order matters), and their number as [count]. *)
Theorem group_sums_add_the_cells_in_record_order
  {L} sourceTable month (s s1 : Machine H L) fs recordIdList h2 dateOf catOf numOf :
  openSourceFields ops sourceTable s = (Ok fs, s1) ->
  table_getRecordIdList ops sourceTable (host s1) = (Ok (Some recordIdList), h2) ->
  recordIdList <> [] ->
  Readable ops fs recordIdList dateOf catOf ->
  PlainKeys E month dateOf catOf recordIdList ->
  NumericReadable ops fs recordIdList numOf ->
  exists gd s',
    getSourceData ops E sourceTable month s = (Ok gd, s') /\
    forall key g, Obj.get key gd = Some g ->
      let records := matchingRecordsOf E month key dateOf catOf recordIdList in
      count g = lengthOf records /\
      shares g = sumOf E (numOf (sharesField fs)) records /\
      preparationFee g = sumOf E (numOf (preparationFeeField fs)) records /\
      rewardDeduction g = sumOf E (numOf (rewardDeductionField fs)) records /\
      cancelFee g = sumOf E (numOf (cancelFeeField fs)) records /\
      urgentFee g = sumOf E (numOf (urgentFeeField fs)) records.
Proof.
  intros Hopen Hlist Hne Hread Hplain Hnum.
  destruct (getSourceData_run ops E sourceTable month s s1 fs recordIdList h2
              Hopen Hlist Hne) as (s0 & s2 & evs & _ & Hinit & Hloop & Hrun).
  destruct (forOf_processRecord_groupOf fs month dateOf catOf numOf recordIdList
              Hread Hplain Hnum s0) as (s2' & Hloop' & Hgroups).
  rewrite Hloop in Hloop'. injection Hloop' as <-.
  eexists. eexists. split; [exact Hrun |].
  intros key g Hget records.
  specialize (Hgroups key). rewrite Hinit in Hgroups.
  unfold groupOf at 1 in Hgroups. rewrite Hget in Hgroups.
  change (groupOf key (groupedData initialAggState)) with emptyGroup in Hgroups.
  rewrite Hgroups. unfold sumOf.
  apply (fold_addRecordTo
           (fun r => normalized E (numOf (sharesField fs) r))
           (fun r => normalized E (numOf (preparationFeeField fs) r))
           (fun r => normalized E (numOf (rewardDeductionField fs) r))
           (fun r => normalized E (numOf (cancelFeeField fs) r))
           (fun r => normalized E (numOf (urgentFeeField fs) r))
           records emptyGroup).
Qed.

End GroupsOfARun.

Lemma groups_are_created_in_first_seen_order_witness :
  exists gd s',
    getSourceData (MemHost.ops cfgA) MemHost.engine {| table_id := "tblSource" |} 2
      (MemHost.prepared cfgA 2) = (Ok gd, s') /\
    map fst gd =
      firstSeen
        (map (fun recordId => ToString MemHost.engine (MemHost.cell cfgA "fCategory" recordId))
           (matchingRecords MemHost.engine 2
              (MemHost.cell cfgA "fDate") (MemHost.cell cfgA "fCategory")
              ["r1"; "r2"; "r3"; "r4"; "r5"; "r6"])) /\
    NoDup (map fst gd) /\
    ((forall key, In key (map fst gd) -> Obj.arrayIndex key = None) ->
     Obj.keys gd = map fst gd).
Proof.
  eapply (groups_are_created_in_first_seen_order (MemHost.ops cfgA) MemHost.engine
            {| table_id := "tblSource" |} 2 (MemHost.prepared cfgA 2) _
            MemHost.fields).
  - vm_compute. reflexivity.
  - vm_compute. reflexivity.
  - discriminate.
  - apply MemHost_Readable. intros recordId Hin. cbn in Hin.
    repeat (destruct Hin as [<- | Hin]; [split; vm_compute; reflexivity |]).
    destruct Hin.
  - intros recordId Hin _. cbn in Hin.
    repeat (destruct Hin as [<- | Hin]; [vm_compute; reflexivity |]).
    destruct Hin.
Defined.

(** The keys of February on the six records: A, then B. *)
Example february_keys :
  firstSeen
    (map (fun recordId => ToString MemHost.engine (MemHost.cell cfgA "fCategory" recordId))
       (matchingRecords MemHost.engine 2
          (MemHost.cell cfgA "fDate") (MemHost.cell cfgA "fCategory")
          ["r1"; "r2"; "r3"; "r4"; "r5"; "r6"]))
  = ["A"; "B"].
Proof. vm_compute. reflexivity. Qed.

Lemma group_sums_add_the_cells_in_record_order_witness :
  exists gd s',
    getSourceData (MemHost.ops cfgA) MemHost.engine {| table_id := "tblSource" |} 2
      (MemHost.prepared cfgA 2) = (Ok gd, s') /\
    forall key g, Obj.get key gd = Some g ->
      let records :=
        matchingRecordsOf MemHost.engine 2 key
          (MemHost.cell cfgA "fDate") (MemHost.cell cfgA "fCategory")
          ["r1"; "r2"; "r3"; "r4"; "r5"; "r6"] in
      let sum field := sumOf MemHost.engine (MemHost.readCell cfgA field) records in
      count g = lengthOf records /\
      shares g = sum (sharesField MemHost.fields) /\
      preparationFee g = sum (preparationFeeField MemHost.fields) /\
      rewardDeduction g = sum (rewardDeductionField MemHost.fields) /\
      cancelFee g = sum (cancelFeeField MemHost.fields) /\
      urgentFee g = sum (urgentFeeField MemHost.fields).
Proof.
  eapply (group_sums_add_the_cells_in_record_order (MemHost.ops cfgA) MemHost.engine
            {| table_id := "tblSource" |} 2 (MemHost.prepared cfgA 2) _
            MemHost.fields _ _ _ _ (MemHost.readCell cfgA)).
  - vm_compute. reflexivity.
  - vm_compute. reflexivity.
  - discriminate.
  - apply MemHost_Readable. intros recordId Hin. cbn in Hin.
    repeat (destruct Hin as [<- | Hin]; [split; vm_compute; reflexivity |]).
    destruct Hin.
  - intros recordId Hin _. cbn in Hin.
    repeat (destruct Hin as [<- | Hin]; [vm_compute; reflexivity |]).
    destruct Hin.
  - intros field recordId _ _ h. reflexivity.
Defined.

(* ===================================================================== *)
(** * Further properties: the calls of the writer *)
(* ===================================================================== *)

Section WriterCalls.
Context {H : Type} (ops : HostOps H) (E : Engine).

Lemma Target_roles_complete role : In role Target.roles.
Proof. destruct role; cbn; auto 10. Qed.

Lemma resolveFields_ids {Role} (roles : list Role) (NAMES : Role -> string)
  prefix fields fieldId :
  resolveFields roles NAMES prefix fields = Ok fieldId ->
  forall role, In role roles -> fieldId role <> "".
Proof.
  intros Hres role Hin.
  destruct (resolveFields_cases roles NAMES prefix fields)
    as [[Hnil Hok] | [_ Hthrow]]; [| congruence].
  rewrite Hok in Hres. injection Hres as <-.
  assert (Hfound : missingId (fieldIdOf NAMES fields role) = false).
  { destruct (missingId (fieldIdOf NAMES fields role)) eqn:Hmiss; [| reflexivity].
    assert (Hin' : In (NAMES role) (missingFields roles NAMES fields)).
    { unfold missingFields. apply in_map. apply filter_In. now split. }
    rewrite Hnil in Hin'. destruct Hin'. }
  destruct (proj1 (missingId_Located fields (NAMES role)) Hfound) as (id & Hloc).
  rewrite (Located_fieldIdOf NAMES fields role id Hloc).
  now destruct Hloc as (f & _ & _ & Hne).
Qed.

Ltac open_call :=
  unfold bind at 1; unfold getField at 1, call;
  match goal with
  | |- context [table_getField ops ?t ?i (host ?s)] =>
      destruct (table_getField ops t i (host s)) as [[? | ?] ?]
  end; cbn [host trace locals]; [| discriminate].

Lemma openTargetFields_ids {L} newTable (s s1 : Machine H L) fieldId tf :
  openTargetFields ops newTable s = (Ok (fieldId, tf), s1) ->
  forall role, fieldId role <> "".
Proof.
  unfold openTargetFields. unfold bind at 1. unfold getFieldMetaList at 1, call.
  destruct (table_getFieldMetaList ops newTable (host s)) as [[[[| field fields] |] | error] h];
    try discriminate.
  cbn iota beta.
  destruct (resolveFields Target.roles TARGET_FIELD_NAMES _ (field :: fields))
    as [ids | error] eqn:Hres; [| discriminate].
  do 7 open_call.
  intros Heq role. cbn in Heq. injection Heq as <- _ _.
  eapply resolveFields_ids; [exact Hres | apply Target_roles_complete].
Qed.

(** X11. Once the fields of the new table are open, every field id is a
    non-empty string, so the completeness check of the bulk path cannot
    fail: for a mapping with at least one group, the first thing
    [writeDataToNewTable] does after announcing the write is one bulk
    insert that carries one record per group, in the order of
    [Object.entries]. *)
Theorem bulk_insert_is_attempted_first
  {L} newTable gd (s s1 : Machine H L) fieldId tf :
  openTargetFields ops newTable s = (Ok (fieldId, tf), s1) ->
  gd <> [] ->
  (forall role, fieldId role <> "") /\
  exists r evs,
    r = fst (table_addRecords ops newTable
               (map (bulkRecord fieldId) (Obj.entries gd)) (host s1)) /\
    trace (snd (writeDataToNewTable ops newTable gd s)) =
    trace s1 ++
      EvConsole LogLevel (startWritingMessage gd) None ::
      EvAddRecords newTable (map (bulkRecord fieldId) (Obj.entries gd)) r :: evs.
Proof.
  intros Hopen Hne.
  pose proof (openTargetFields_ids _ _ _ _ _ Hopen) as Hids.
  split; [exact Hids |].
  assert (Hex : existsb (fun role => String.eqb (fieldId role) "") Target.roles = false).
  { destruct (existsb _ Target.roles) eqn:Hex; [| reflexivity].
    apply existsb_exists in Hex as (role & _ & Heq).
    apply String.eqb_eq in Heq. now destruct (Hids role). }
  assert (Hentries : Obj.entries gd <> []).
  { intros Hnil. pose proof (entries_perm gd) as Hperm. rewrite Hnil in Hperm.
    apply Permutation_nil in Hperm. contradiction. }
  unfold writeDataToNewTable, tryCatch.
  rewrite (bind_Ok _ _ _ _ _ Hopen). cbn iota beta.
  unfold bind at 1, console_log at 1, emit. cbn iota beta.
  unfold bind at 1. unfold bulkWrite, tryCatch. rewrite Hex, andb_false_r.
  unfold bind at 1. cbn [ret].
  destruct (Obj.entries gd) as [| entry rest] eqn:Hentries'; [contradiction |].
  set (records := map (bulkRecord fieldId) (entry :: rest)).
  assert (Hpos : (0 <? lengthOf records) = true).
  { apply Z.ltb_lt. unfold lengthOf, records. cbn. lia. }
  rewrite Hpos. unfold bind at 1, addRecords at 1, call. cbn [host trace locals].
  destruct (table_addRecords ops newTable records (host s1)) as [[[] | error] h].
  - cbn [fst]. eexists. eexists. split; [reflexivity |].
    cbn. rewrite <- ?app_assoc. cbn. reflexivity.
  - cbn [fst]. unfold bind at 1, console_warn at 1, emit. cbn [ret host trace locals].
    match goal with |- context [withLocals 0 ?m ?s0] =>
      destruct (run_emits (fun _ => True) (withLocals 0 m) s0
                  (fst (withLocals 0 m s0)) (snd (withLocals 0 m s0)))
        as (evs & Ht & _)
    end.
    { apply emits_withLocals.
      apply (perRowWrite_emits ops); intros; exact I. }
    { now destruct (withLocals _ _ _). }
    cbn [trace] in Ht.
    destruct (withLocals 0 _ _) as [[[] | error'] s2]; cbn [snd] in Ht.
    + eexists. eexists. split; [reflexivity |]. cbn [snd]. rewrite Ht.
      rewrite <- ?app_assoc. cbn. reflexivity.
    + eexists. eexists. split; [reflexivity |].
      unfold bind, console_error, emit, rethrow.
      destruct (instanceofError error'); cbn; rewrite Ht;
        rewrite <- ?app_assoc; cbn; reflexivity.
Qed.

Ltac row_step :=
  unfold bind at 1; first [unfold addRecord at 1 | unfold setValue at 1];
  unfold call at 1;
  match goal with
  | |- context [table_addRecord ops ?t (host ?s)] =>
      destruct (table_addRecord ops t (host s)) as [[? | ?] ?]
  | |- context [field_setValue ops ?f ?i ?v (host ?s)] =>
      destruct (field_setValue ops f i v (host s)) as [[? | ?] ?]
  end; repeat match goal with u : unit |- _ => destruct u end;
  cbn [host trace locals].

Ltac row_end :=
  cbn; eexists; eexists; eexists; split; [reflexivity |];
  cbn [host trace locals]; rewrite <- ?app_assoc; cbn [app];
  split; reflexivity.

Lemma writeRow_asks_one_row newTable tf entry (s : Machine H Z) :
  exists s' r evs,
    writeRow ops newTable tf entry s = (Ok tt, s') /\
    trace s' = trace s ++ EvAddRecord newTable r :: evs /\
    filter isAddRecord evs = [].
Proof.
  destruct entry as [productCategory data]. unfold writeRow, tryCatch.
  do 8 (row_step; [| row_end]).
  row_end.
Qed.

Lemma forOf_writeRow_asks newTable tf entries :
  forall s : Machine H Z,
  exists s' evs,
    forOf entries (writeRow ops newTable tf) s = (Ok tt, s') /\
    trace s' = trace s ++ evs /\
    lengthOf (filter isAddRecord evs) = lengthOf entries.
Proof.
  unfold lengthOf.
  induction entries as [| entry rest IH]; intros s.
  - exists s, []. cbn. rewrite app_nil_r. auto.
  - destruct (writeRow_asks_one_row newTable tf entry s) as (s1 & r & evs1 & Hrow & Ht1 & Hf1).
    destruct (IH s1) as (s' & evs & Hloop & Ht & Hlen).
    exists s', (EvAddRecord newTable r :: evs1 ++ evs).
    cbn [forOf]. rewrite (bind_Ok _ _ _ _ _ Hrow).
    split; [exact Hloop |]. split.
    + rewrite Ht, Ht1, <- app_assoc. reflexivity.
    + cbn [filter isAddRecord List.length]. rewrite filter_app, Hf1. cbn [app].
      lia.
Qed.

(** X12. The per-row path asks the host for exactly one new row per
    group, whatever fails on the way: a group whose row or cell is refused
    is not tried again, and the groups after it are still written. *)
Theorem per_row_path_asks_one_row_per_group newTable tf gd (s : Machine H Z) :
  exists evs,
    trace (snd (perRowWrite ops newTable tf gd s)) = trace s ++ evs /\
    lengthOf (filter isAddRecord evs) = lengthOf gd.
Proof.
  destruct (forOf_writeRow_asks newTable tf (Obj.entries gd) s)
    as (s1 & evs1 & Hloop & Ht1 & Hlen).
  assert (Hgd : lengthOf (Obj.entries gd) = lengthOf gd).
  { unfold lengthOf. now rewrite (Permutation_length (entries_perm gd)). }
  unfold perRowWrite. rewrite (bind_Ok _ _ _ _ _ Hloop).
  unfold bind at 1. cbn [getLocals]. unfold bind at 1, console_log at 1, emit.
  cbn [host trace locals].
  destruct (locals s1 =? 0); [| destruct (locals s1 <? _)];
    eexists; (split; [cbn; rewrite Ht1, <- ?app_assoc; reflexivity |]);
    rewrite filter_app; cbn [filter isAddRecord app];
    rewrite app_nil_r; lia.
Qed.

End WriterCalls.

Lemma bulk_insert_is_attempted_first_witness :
  exists fieldId tf s1,
    openTargetFields (MemHost.ops cfgFallback) {| table_id := "tblReport" |}
      (MemHost.prepared cfgFallback 2) = (Ok (fieldId, tf), s1) /\
    (forall role, fieldId role <> "") /\
    exists r evs,
      r = fst (table_addRecords (MemHost.ops cfgFallback) {| table_id := "tblReport" |}
                 (map (bulkRecord fieldId) (Obj.entries groupsOfFebruary)) (host s1)) /\
      trace (snd (writeDataToNewTable (MemHost.ops cfgFallback)
                    {| table_id := "tblReport" |} groupsOfFebruary
                    (MemHost.prepared cfgFallback 2))) =
      trace s1 ++
        EvConsole LogLevel (startWritingMessage groupsOfFebruary) None ::
        EvAddRecords {| table_id := "tblReport" |}
          (map (bulkRecord fieldId) (Obj.entries groupsOfFebruary)) r :: evs.
Proof.
  eexists. eexists. eexists. split.
  - vm_compute. reflexivity.
  - eapply (bulk_insert_is_attempted_first (MemHost.ops cfgFallback)).
    + vm_compute. reflexivity.
    + discriminate.
Defined.

(* ===================================================================== *)
(** * Further properties: a run that succeeds *)
(* ===================================================================== *)

Section SuccessfulRuns.
Context {H : Type} (ops : HostOps H) (E : Engine).








End SuccessfulRuns.


(* ===================================================================== *)
(** * Further properties: the component that calls the generator *)
(* ===================================================================== *)

Section ComponentRuns.
Context {H : Type} (ops : HostOps H) (E : Engine).

(** X14. Pressed while no table or no month is selected, the button shows
    one warning and does nothing else: the host is not called, nothing is
    logged, and the component's state is otherwise as it was (it is not
    set to loading, and an error message on display stays). *)
Theorem generateReport_without_selection_only_warns (s : Machine H App.State) :
  App.selectedTableId (locals s) = "" \/ App.selectedMonth (locals s) = 0 ->
  exists content,
    App.generateReport ops E s =
    (Ok tt,
     {| host := host s; trace := trace s;
        locals := App.show App.ToastWarning content (locals s) |}).
Proof.
  intros Hnone. unfold App.generateReport. unfold bind at 1. cbn [getLocals].
  destruct (String.eqb (App.selectedTableId (locals s)) "") eqn:Hid.
  - eexists. reflexivity.
  - destruct Hnone as [Hempty | Hzero].
    + rewrite Hempty in Hid. discriminate.
    + rewrite Hzero. cbn. eexists. reflexivity.
Qed.

(** X15. Pressed with a table and a month selected, the button runs
    [generate] on them, never rejects, and ends not loading with exactly
    one more toast. When [generate] returned, the toast says so and no
    error message is on display. When [generate] threw, what it threw is an
    [Error]: the message on display is the fixed prefix followed by the
    message of that error (the fallback text for other thrown values is
    never used), the toast announces the failure and the error is
    logged. *)
Theorem generateReport_settles_with_one_toast (s : Machine H App.State) :
  App.selectedTableId (locals s) <> "" ->
  App.selectedMonth (locals s) <> 0 ->
  let st := locals s in
  let run :=
    generate ops E (App.selectedTableId st) (App.selectedMonth st)
      {| host := host s; trace := trace s; locals := tt |} in
  exists s' toast,
    App.generateReport ops E s = (Ok tt, s') /\
    host s' = host (snd run) /\
    App.loading (locals s') = false /\
    App.shown (locals s') = App.shown st ++ [toast] /\
    App.tables (locals s') = App.tables st /\
    App.selectedTableId (locals s') = App.selectedTableId st /\
    App.selectedMonth (locals s') = App.selectedMonth st /\
    match fst run with
    | Ok _ =>
        toast = (App.ToastSuccess, "汇总表生成成功！") /\
        App.errorMessage (locals s') = None /\
        trace s' = trace (snd run)
    | Throw error =>
        exists name message,
          error = ErrorObj name message /\
          toast = (App.ToastError, "生成汇总表失败，请查看详细错误信息") /\
          App.errorMessage (locals s') =
            Some (template ["生成汇总表失败: "; message]) /\
          trace s' =
            trace (snd run) ++ [EvConsole ErrorLevel "生成汇总表失败:" (Some error)]
    end.
Proof.
  intros Hid Hmonth st run. subst st.
  pose proof (generate_rejectsWithError ops E
                (App.selectedTableId (locals s)) (App.selectedMonth (locals s))
                {| host := host s; trace := trace s; locals := tt |})
    as Herr.
  unfold rejectsWithError in Herr. fold run in Herr.
  unfold App.generateReport. unfold bind at 1. cbn [getLocals].
  apply String.eqb_neq in Hid. apply Z.eqb_neq in Hmonth.
  rewrite Hid, Hmonth.
  unfold bind at 1. unfold modifyLocals at 1. unfold bind at 1. unfold modifyLocals at 1.
  cbn [host trace locals].
  unfold App.tryFinally, tryCatch. unfold bind at 1. unfold withLocals.
  cbn [host trace locals]. fold run.
  destruct run as [[[] | error] s1]; cbn [fst snd] in *.
  - eexists. eexists. split; [reflexivity |]. cbn. repeat split; reflexivity.
  - destruct error as [name message | v]; [| discriminate].
    eexists. eexists. split; [reflexivity |]. cbn.
    repeat split; try reflexivity. exists name, message. repeat split; reflexivity.
Qed.

Lemma tableOption_label table : App.label (App.tableOption table) <> "".
Proof.
  unfold App.tableOption. cbn.
  destruct (String.eqb (App.name table) "") eqn:Hname; [discriminate |].
  now apply String.eqb_neq.
Qed.

(** X16. [loadTables] never rejects and always ends with the initial
    loading over. A listing that is missing or empty leaves the error
    message that no table was found, without a toast; a listing with
    tables gives one option per table in listing order, each with the
    table's id and a label that is not empty, selects the first table
    and leaves no error message; a rejected listing leaves the message
    that carries the error's text, one error toast and one logged error. *)
Theorem loadTables_ends_the_initial_loading
  (base_getTableMetaList : H -> Result (option (list App.TableMeta)) * H)
  (s : Machine H App.State) :
  exists s',
    App.loadTables base_getTableMetaList s = (Ok tt, s') /\
    host s' = snd (base_getTableMetaList (host s)) /\
    App.initialLoading (locals s') = false /\
    App.loading (locals s') = App.loading (locals s) /\
    App.selectedMonth (locals s') = App.selectedMonth (locals s) /\
    match fst (base_getTableMetaList (host s)) with
    | Ok None | Ok (Some []) =>
        App.errorMessage (locals s') = Some App.noTablesMessage /\
        App.tables (locals s') = App.tables (locals s) /\
        App.selectedTableId (locals s') = App.selectedTableId (locals s) /\
        App.shown (locals s') = App.shown (locals s) /\
        trace s' = trace s
    | Ok (Some (first :: rest)) =>
        App.errorMessage (locals s') = None /\
        map App.value (App.tables (locals s')) = map App.id (first :: rest) /\
        Forall (fun option => App.label option <> "") (App.tables (locals s')) /\
        App.selectedTableId (locals s') = App.id first /\
        App.shown (locals s') = App.shown (locals s) /\
        trace s' = trace s
    | Throw error =>
        App.errorMessage (locals s') = Some (App.loadFailedMessage error) /\
        App.tables (locals s') = App.tables (locals s) /\
        App.selectedTableId (locals s') = App.selectedTableId (locals s) /\
        App.shown (locals s') =
          App.shown (locals s) ++
          [(App.ToastError, "获取表格列表失败，请检查网络连接或刷新页面重试")] /\
        trace s' = trace s ++ [EvConsole ErrorLevel "获取表格列表失败:" (Some error)]
    end.
Proof.
  unfold App.loadTables.
  unfold bind at 1. unfold modifyLocals at 1. unfold bind at 1. unfold modifyLocals at 1.
  cbn [host trace locals].
  unfold App.tryFinally, tryCatch. unfold bind at 1. unfold App.getTableMetaList.
  cbn [host trace locals].
  destruct (base_getTableMetaList (host s)) as [[[[| first rest] |] | error] h];
    cbn [fst snd].
  - eexists. split; [reflexivity |]. cbn. repeat split; reflexivity.
  - eexists. split; [reflexivity |]. cbn -[App.tableOption].
    repeat split; try reflexivity.
    + f_equal. rewrite map_map. reflexivity.
    + constructor; [apply tableOption_label |].
      apply Forall_map. apply Forall_forall. intros t _. apply tableOption_label.
  - eexists. split; [reflexivity |]. cbn. repeat split; reflexivity.
  - eexists. split; [reflexivity |]. cbn. repeat split; reflexivity.
Qed.

End ComponentRuns.

Lemma generateReport_without_selection_only_warns_witness :
  exists content,
    App.generateReport (MemHost.ops cfgA) MemHost.engine (appStart cfgA appIdle) =
    (Ok tt,
     {| host := MemHost.initial; trace := [];
        locals := App.show App.ToastWarning content appIdle |}).
Proof.
  apply (generateReport_without_selection_only_warns (MemHost.ops cfgA) MemHost.engine
           (appStart cfgA appIdle)).
  left. reflexivity.
Defined.

Lemma generateReport_settles_with_one_toast_witness :
  let s := appStart cfgA (appReady 7) in
  let run :=
    generate (MemHost.ops cfgA) MemHost.engine "tblSource" 7
      {| host := MemHost.initial; trace := []; locals := tt |} in
  exists s' toast,
    App.generateReport (MemHost.ops cfgA) MemHost.engine s = (Ok tt, s') /\
    host s' = host (snd run) /\
    App.loading (locals s') = false /\
    App.shown (locals s') = [] ++ [toast] /\
    App.tables (locals s') = App.tables (appReady 7) /\
    App.selectedTableId (locals s') = "tblSource" /\
    App.selectedMonth (locals s') = 7 /\
    match fst run with
    | Ok _ =>
        toast = (App.ToastSuccess, "汇总表生成成功！") /\
        App.errorMessage (locals s') = None /\
        trace s' = trace (snd run)
    | Throw error =>
        exists name message,
          error = ErrorObj name message /\
          toast = (App.ToastError, "生成汇总表失败，请查看详细错误信息") /\
          App.errorMessage (locals s') =
            Some (template ["生成汇总表失败: "; message]) /\
          trace s' =
            trace (snd run) ++ [EvConsole ErrorLevel "生成汇总表失败:" (Some error)]
    end.
Proof.
  apply (generateReport_settles_with_one_toast (MemHost.ops cfgA) MemHost.engine
           (appStart cfgA (appReady 7))).
  - discriminate.
  - discriminate.
Defined.

(** February on the six records: the report is written and the button
    announces it. July has no record: the message of the generator's error
    is put on display. *)
Example generateReport_february_and_july :
  let after month :=
    locals (snd (App.generateReport (MemHost.ops cfgA) MemHost.engine
                   (appStart cfgA (appReady month)))) in
  App.shown (after 2) = [(App.ToastSuccess, "汇总表生成成功！")] /\
  App.errorMessage (after 2) = None /\
  App.shown (after 7) = [(App.ToastError, "生成汇总表失败，请查看详细错误信息")] /\
  App.errorMessage (after 7) =
    Some "生成汇总表失败: 未找到7月的数据，请确认原表中存在该月份的记录" /\
  App.loading (after 2) = false /\ App.loading (after 7) = false.
Proof. vm_compute. repeat split; reflexivity. Qed.

(* ===================================================================== *)
(** * Further properties: the order of a run *)
(* ===================================================================== *)

Section OrderOfARun.
Context {H : Type} (ops : HostOps H) (E : Engine).

Lemma writeDataToNewTable_emits {L} (P : Event -> Prop) newTable gd :
  (forall t r, P (EvGetFieldMetaList t r)) ->
  (forall t i r, P (EvGetField t i r)) ->
  (forall t l r, P (EvAddRecords t l r)) ->
  (forall t r, P (EvAddRecord t r)) ->
  (forall f i v r, P (EvSetValue f i v r)) ->
  (forall l m e, P (EvConsole l m e)) ->
  emits P (writeDataToNewTable ops newTable gd : M H L unit).
Proof.
  intros HP1 HP2 HP3 HP4 HP5 HP6.
  unfold writeDataToNewTable.
  apply emits_tryCatch.
  - apply emits_bind.
    + unfold openTargetFields, getFieldMetaList, getField. emits_auto; auto.
    + intros [fieldId tf]. apply emits_bind; [apply emits_emit; auto |]. intros _.
      apply emits_bind.
      * unfold bulkWrite, addRecords, console_log, console_warn. emits_auto; auto.
      * intros []; [apply emits_ret |]. apply emits_withLocals.
        apply (perRowWrite_emits ops); auto.
  - intros error. unfold console_error, rethrow. emits_auto; auto.
Qed.

(** What [generate] does once the tables are prepared, and its handler. *)
Lemma generate_rest_emits (P : Event -> Prop) sourceTable newTable month :
  (forall e, isAddTable e = false -> P e) ->
  emits P
    (console_log "获取源表数据中..." ;;
     sourceData <- getSourceData ops E sourceTable month ;;
     (if lengthOf (Obj.keys sourceData) =? 0
      then throw (newError (noDataMessage month))
      else ret tt) ;;
     console_log "写入数据到新表中..." ;;
     writeDataToNewTable ops newTable sourceData ;;
     console_log "汇总表生成完成" : M H unit unit).
Proof.
  intros HP.
  apply emits_bind; [apply emits_emit; auto |]. intros _.
  apply emits_bind; [apply getSourceData_emits; intros; apply HP; reflexivity |].
  intros sourceData.
  apply emits_bind; [destruct (_ =? 0); [apply emits_throw | apply emits_ret] |].
  intros _.
  apply emits_bind; [apply emits_emit; auto |]. intros _.
  apply emits_bind; [apply writeDataToNewTable_emits; intros; apply HP; reflexivity |].
  intros _. apply emits_emit; auto.
Qed.

Lemma handler_emits {L A} (P : Event -> Prop) message unknown error :
  (forall l m e, P (EvConsole l m e)) ->
  emits P (console_error message (Some error) ;; rethrow error unknown : M H L A).
Proof.
  intros HP. unfold console_error, rethrow.
  apply emits_bind; [apply emits_emit; auto |]. intros _.
  destruct (instanceofError error); apply emits_throw.
Qed.

Lemma filter_none {A} (p : A -> bool) l :
  Forall (fun a => p a = false) l -> filter p l = [].
Proof.
  induction 1 as [| a l Ha _ IH]; [reflexivity |]. cbn. now rewrite Ha.
Qed.

(** The events of [prepareTables]: at most one table is asked for, under
    the name of the month, and no table is looked into before the seven
    fields are added. *)
Lemma prepareTables_run {L} sourceTableId month (s : Machine H L) :
  exists r s1 evs,
    prepareTables ops E sourceTableId month s = (r, s1) /\
    trace s1 = trace s ++ evs /\
    (filter isAddTable evs = [] \/
     exists year r, filter isAddTable evs = [EvAddTable (newTableName year month) r]) /\
    match r with
    | Ok (_, newTable) =>
        exists pre,
          evs = pre ++ addFieldEvents newTable targetFieldConfigs /\
          Forall (fun e => usesTables e = false) pre
    | Throw _ => Forall (fun e => usesTables e = false) evs
    end.
Proof.
  unfold prepareTables. unfold bind at 1. unfold getTableById at 1, call.
  destruct (base_getTableById ops sourceTableId (host s)) as [[[sourceTable |] | error] h1];
    cbn [orThrow]; try (unfold bind at 1).
  2, 3: cbn; eexists; eexists; eexists; (split; [reflexivity |]);
        (split; [reflexivity |]);
        (split; [left; reflexivity | repeat constructor]).
  cbn [ret]. unfold bind at 1. unfold readHost at 1. cbv zeta. cbn [host trace locals].
  unfold bind at 1. unfold console_log at 1, emit. cbn [host trace locals].
  unfold bind at 1. unfold addTable at 1, call. cbn [host trace locals].
  set (name := newTableName (getFullYear E (date_now ops h1)) month).
  destruct (base_addTable ops name h1) as [[[[| c tableId] |] | error] h2];
    cbn [host trace locals].
  1, 3, 4: cbn; rewrite <- ?app_assoc; eexists; eexists; eexists;
           (split; [reflexivity |]); (split; [reflexivity |]);
           (split; [right; exists (getFullYear E (date_now ops h1)); eexists; reflexivity
                   | repeat constructor]).
  unfold bind at 1. unfold getTableById at 1, call. cbn [host trace locals].
  destruct (base_getTableById ops (String c tableId) h2) as [[[newTable |] | error] h3];
    cbn [orThrow]; try (unfold bind at 1).
  2, 3: cbn; rewrite <- ?app_assoc; eexists; eexists; eexists;
        (split; [reflexivity |]); (split; [reflexivity |]);
        (split; [right; exists (getFullYear E (date_now ops h1)); eexists; reflexivity
                | repeat constructor]).
  cbn [ret host trace locals].
  unfold bind at 1. unfold console_log at 1, emit. cbn [host trace locals].
  unfold bind at 1. unfold createFields, tryCatch.
  match goal with |- context [forOf targetFieldConfigs _ ?s0] =>
    destruct (forOf_addField_run ops newTable targetFieldConfigs s0)
      as (done & rest & s' & Hsplit & Ht & _ & Hcases)
  end.
  cbn [trace] in Ht.
  destruct Hcases as [[Hnil Hrun] | (config & rest' & error & h & Hrest & Hadd & Hrun)];
    rewrite Hrun.
  - subst rest. rewrite app_nil_r in Hsplit. rewrite <- Hsplit in Ht.
    eexists. eexists. eexists. split; [reflexivity |].
    rewrite Ht, <- !app_assoc.
    split; [reflexivity |]. split.
    + right. exists (getFullYear E (date_now ops h1)). eexists.
      cbn [app filter isAddTable]. rewrite filter_none; [reflexivity |].
      unfold addFieldEvents. apply Forall_map. apply Forall_forall. reflexivity.
    + exists [EvGetTableById sourceTableId (Ok (Some sourceTable));
              EvConsole LogLevel (template ["正在创建新表: "; name]) None;
              EvAddTable name (Ok (Some (String c tableId)));
              EvGetTableById (String c tableId) (Ok (Some newTable));
              EvConsole LogLevel "创建字段中..." None].
      split; [reflexivity | repeat constructor].
  - eexists. eexists. eexists. split; [reflexivity |].
    cbn [trace]. rewrite Ht, <- !app_assoc.
    split; [reflexivity |]. split.
    + right. exists (getFullYear E (date_now ops h1)). eexists.
      cbn [app filter isAddTable]. rewrite filter_app, filter_none; [reflexivity |].
      unfold addFieldEvents. apply Forall_map. apply Forall_forall. reflexivity.
    + cbn [app]. repeat (constructor; [reflexivity |]).
      apply Forall_app. split; [| repeat constructor].
      unfold addFieldEvents. apply Forall_map. apply Forall_forall. reflexivity.
Qed.

(** X17. A run of [generate] asks the host for at most one new table, and
    the table it asks for is named after the requested month and a year:
    nothing is created for a run that fails before that point, and no run
    creates a second table. *)
Theorem generate_creates_at_most_one_table sourceTableId month (s : Machine H unit) :
  exists evs,
    trace (snd (generate ops E sourceTableId month s)) = trace s ++ evs /\
    (filter isAddTable evs = [] \/
     exists year r, filter isAddTable evs = [EvAddTable (newTableName year month) r]).
Proof.
  unfold generate.
  destruct (String.eqb sourceTableId "");
    [exists []; cbn; rewrite app_nil_r; auto |].
  destruct ((month <? 1) || (month >? 12));
    [exists []; cbn; rewrite app_nil_r; auto |].
  destruct (prepareTables_run sourceTableId month s)
    as (r & s1 & evs1 & Hprep & Ht1 & Hcount & _).
  unfold tryCatch. unfold bind at 1. rewrite Hprep.
  destruct r as [[sourceTable newTable] | error].
  - pose proof (generate_rest_emits (fun e => isAddTable e = false)
                  sourceTable newTable month (fun e He => He) s1) as (evs2 & Ht2 & Hf2).
    match type of Ht2 with context [snd (?run)] =>
      destruct run as [[[] | error] s2]
    end; cbn [snd] in Ht2.
    + exists (evs1 ++ evs2). cbn [snd]. rewrite Ht2, Ht1, <- app_assoc.
      split; [reflexivity |]. rewrite filter_app, (filter_none _ _ Hf2), app_nil_r.
      exact Hcount.
    + destruct (handler_emits (L := unit) (A := unit) (fun e => isAddTable e = false)
                  "生成汇总表时发生错误:" "生成汇总表时发生未知错误" error
                  (fun _ _ _ => eq_refl) s2) as (evs3 & Ht3 & Hf3).
      exists (evs1 ++ evs2 ++ evs3). rewrite Ht3, Ht2, Ht1, <- !app_assoc.
      split; [reflexivity |].
      rewrite !filter_app, (filter_none _ _ Hf2), (filter_none _ _ Hf3), !app_nil_r.
      exact Hcount.
  - destruct (handler_emits (L := unit) (A := unit) (fun e => isAddTable e = false)
                "生成汇总表时发生错误:" "生成汇总表时发生未知错误" error
                (fun _ _ _ => eq_refl) s1) as (evs3 & Ht3 & Hf3).
    exists (evs1 ++ evs3). rewrite Ht3, Ht1, <- !app_assoc.
    split; [reflexivity |].
    rewrite !filter_app, (filter_none _ _ Hf3), !app_nil_r.
    exact Hcount.
Qed.

(** X18. In a run of [generate], no table is looked into and nothing is
    written before the new table has its seven fields: either the run
    makes no such call at all, or its events begin with calls of another
    kind followed by the seven [addField] calls, all of them answered, in
    the order of the report's columns. *)
Theorem generate_defines_the_fields_before_using_the_tables
  sourceTableId month (s : Machine H unit) :
  exists evs,
    trace (snd (generate ops E sourceTableId month s)) = trace s ++ evs /\
    (Forall (fun e => usesTables e = false) evs \/
     exists newTable pre post,
       evs = pre ++ addFieldEvents newTable targetFieldConfigs ++ post /\
       Forall (fun e => usesTables e = false) pre).
Proof.
  unfold generate.
  destruct (String.eqb sourceTableId "");
    [exists []; cbn; rewrite app_nil_r; auto |].
  destruct ((month <? 1) || (month >? 12));
    [exists []; cbn; rewrite app_nil_r; auto |].
  destruct (prepareTables_run sourceTableId month s)
    as (r & s1 & evs1 & Hprep & Ht1 & _ & Hfields).
  unfold tryCatch. unfold bind at 1. rewrite Hprep.
  destruct r as [[sourceTable newTable] | error].
  - destruct Hfields as (pre & -> & Hpre).
    pose proof (generate_rest_emits (fun _ => True) sourceTable newTable month
                  (fun _ _ => I) s1) as (evs2 & Ht2 & _).
    match type of Ht2 with context [snd (?run)] =>
      destruct run as [[[] | error] s2]
    end; cbn [snd] in Ht2.
    + exists ((pre ++ addFieldEvents newTable targetFieldConfigs) ++ evs2).
      cbn [snd]. rewrite Ht2, Ht1, <- !app_assoc.
      split; [reflexivity |]. right. exists newTable, pre, evs2. auto.
    + destruct (handler_emits (L := unit) (A := unit) (fun _ => True)
                  "生成汇总表时发生错误:" "生成汇总表时发生未知错误" error
                  (fun _ _ _ => I) s2) as (evs3 & Ht3 & _).
      exists ((pre ++ addFieldEvents newTable targetFieldConfigs) ++ evs2 ++ evs3).
      rewrite Ht3, Ht2, Ht1, <- !app_assoc.
      split; [reflexivity |]. right. exists newTable, pre, (evs2 ++ evs3). auto.
  - destruct (handler_emits (L := unit) (A := unit) (fun e => usesTables e = false)
                "生成汇总表时发生错误:" "生成汇总表时发生未知错误" error
                (fun _ _ _ => eq_refl) s1) as (evs3 & Ht3 & Hf3).
    exists (evs1 ++ evs3). rewrite Ht3, Ht1, <- !app_assoc.
    split; [reflexivity |]. left. apply Forall_app. auto.
Qed.

End OrderOfARun.

(* ===================================================================== *)
(** * Further properties: the counters of the record loop *)
(* ===================================================================== *)

Section Counters.
Context {H : Type} (ops : HostOps H) (E : Engine).

(** One turn of the record loop, as seen on the two counters: [matched]
    goes up when the out-date is read and is in the month, [processed]
    when the category is read as well and is not empty. *)
Lemma processRecord_counters fs month recordId (s : Machine H AggState) :
  exists s',
    processRecord ops E fs month recordId s = (Ok tt, s') /\
    let '(rd, h1) := field_getValue ops (outDateField fs) recordId (host s) in
    let inMonth :=
      match rd with Ok date => dateInMonth E month date | Throw _ => false end in
    let grouped :=
      inMonth &&
      match fst (field_getValue ops (productCategoryField fs) recordId h1) with
      | Ok cat => ToBoolean cat
      | Throw _ => false
      end in
    matchedRecordCount (locals s') =
      matchedRecordCount (locals s) + (if inMonth then 1 else 0) /\
    processedRecordCount (locals s') =
      processedRecordCount (locals s) + (if grouped then 1 else 0).
Proof.
  unfold processRecord, tryCatch. unfold bind at 1. unfold getValue at 1, call.
  destruct (field_getValue ops (outDateField fs) recordId (host s))
    as [[date | e] h1]; cbn.
  2: { eexists; split; [reflexivity | cbn; lia]. }
  unfold dateInMonth. destruct (ToBoolean date); cbn.
  2: { eexists; split; [reflexivity | cbn; lia]. }
  destruct (newDate E date) as [t |]; cbn.
  2: { eexists; split; [reflexivity | cbn; lia]. }
  destruct (getMonth E t + 1 =? month); cbn.
  2: { eexists; split; [reflexivity | cbn; lia]. }
  unfold bind at 1. cbn. unfold bind at 1. unfold getValue at 1, call. cbn.
  destruct (field_getValue ops (productCategoryField fs) recordId h1)
    as [[cat | e] h2]; cbn.
  2: { eexists; split; [reflexivity | cbn; lia]. }
  destruct (ToBoolean cat); cbn.
  2: { eexists; split; [reflexivity | cbn; lia]. }
  set (key := ToString E cat).
  set (gd := groupedData (locals s)).
  destruct (Obj.member key gd) eqn:Hmember.
  2: { unfold bind at 1. cbn [ret].
       rewrite bind_updateGroup_inherited by exact Hmember.
       repeat match goal with
       | |- context [bind (safeGetNumberValue ?o ?e ?f ?rid) _ ?s0] =>
           let r := fresh "r" in
           let h := fresh "h" in
           let evs := fresh "evs" in
           let Hr := fresh "Hr" in
           let Hrun := fresh "Hrun" in
           destruct (safeGetNumberValue_Ok o e f rid s0) as (r & h & evs & Hr & Hrun);
           rewrite (bind_Ok _ _ _ _ _ Hrun); clear Hrun;
           rewrite bind_updateGroup_inherited by exact Hmember
       end.
       cbn. eexists. split; [reflexivity |]. cbn. lia. }
  all: set (g := match Obj.get key gd with Some g => g | None => emptyGroup end);
    match goal with |- context [bind ?init _ ?s0] =>
      assert (Hinit : exists s1, init s0 = (Ok tt, s1) /\
                Obj.get key (groupedData (locals s1)) = Some g /\
                matchedRecordCount (locals s1) = matchedRecordCount (locals s) + 1 /\
                processedRecordCount (locals s1) = processedRecordCount (locals s))
    end;
    [ subst g;
      first [ apply member_Undefined in Hmember as [Hg _]
            | unfold Obj.member in Hmember;
              destruct (Obj.get key gd) as [g0 |] eqn:Hg;
              [| destruct (Obj.inherited key); discriminate] ];
      eexists; (split; [reflexivity |]); cbn; fold gd; rewrite ?Hg;
      first [ split; [apply get_set_same | auto] | auto ]
    | ];
    destruct Hinit as (s1 & Hinit & Hget & Hmatched & Hprocessed);
    rewrite (bind_Ok _ _ _ _ _ Hinit);
    rewrite (bind_updateGroup key _ _ _ _ Hget);
    repeat match goal with
    | |- context [bind (safeGetNumberValue ?o ?e ?f ?rid) _ ?s0] =>
        let r := fresh "r" in
        let h := fresh "h" in
        let evs := fresh "evs" in
        let Hr := fresh "Hr" in
        let Hrun := fresh "Hrun" in
        destruct (safeGetNumberValue_Ok o e f rid s0) as (r & h & evs & Hr & Hrun);
        rewrite (bind_Ok _ _ _ _ _ Hrun); clear Hrun;
        erewrite bind_updateGroup by (cbn; apply get_set_same)
    end;
    cbn; eexists; (split; [reflexivity |]); cbn; lia.
Qed.

(** The record loop on the counters and on the sum of the counts. A
    record whose key finds an inherited member is processed and enters no
    group, so the counts may add up to less than the processed records. *)
Lemma forOf_processRecord_counters fs month recordIdList :
  forall s : Machine H AggState,
  exists s' processed matched grouped,
    forOf recordIdList (processRecord ops E fs month) s = (Ok tt, s') /\
    processedRecordCount (locals s') = processedRecordCount (locals s) + processed /\
    matchedRecordCount (locals s') = matchedRecordCount (locals s) + matched /\
    totalCount (groupedData (locals s')) =
      totalCount (groupedData (locals s)) + grouped /\
    0 <= grouped <= processed /\ processed <= matched <= lengthOf recordIdList.
Proof.
  unfold lengthOf.
  induction recordIdList as [| recordId rest IH]; intros s.
  - exists s, 0, 0, 0. cbn. repeat split; lia.
  - destruct (processRecord_counters fs month recordId s) as (s1 & Hrun & Hcount).
    destruct (processRecord_run ops E fs month recordId s) as (s1' & Hrun' & Hgd).
    rewrite Hrun in Hrun'. injection Hrun' as <-.
    destruct (IH s1) as (s' & p & m & g & Hloop & Hp & Hm & Htot & Hle & Hlen).
    destruct (field_getValue ops (outDateField fs) recordId (host s)) as [rd h1].
    cbv zeta in Hcount. destruct Hcount as [Hm1 Hp1].
    assert (Hstep : exists dp dm dg : Z,
              processedRecordCount (locals s1) = processedRecordCount (locals s) + dp /\
              matchedRecordCount (locals s1) = matchedRecordCount (locals s) + dm /\
              totalCount (groupedData (locals s1)) =
                totalCount (groupedData (locals s)) + dg /\
              0 <= dg <= dp /\ dp <= dm <= 1).
    { destruct rd as [date | error];
        [| exists 0, 0, 0; cbn in Hp1, Hm1; rewrite Hgd; repeat split; lia].
      destruct (dateInMonth E month date);
        [| exists 0, 0, 0; cbn in Hp1, Hm1; rewrite Hgd; repeat split; lia].
      destruct (field_getValue ops (productCategoryField fs) recordId h1) as [rc h2].
      cbn [fst andb] in Hp1.
      destruct rc as [cat | error];
        [| exists 0, 1, 0; rewrite Hgd; repeat split; lia].
      destruct (ToBoolean cat);
        [| exists 0, 1, 0; rewrite Hgd; repeat split; lia].
      destruct (Obj.member (ToString E cat) (groupedData (locals s)));
        [| exists 1, 1, 0; rewrite Hgd; repeat split; lia |];
        destruct Hgd as (r1 & r2 & r3 & r4 & r5 & _ & _ & _ & _ & _ & ->);
        exists 1, 1, 1; rewrite totalCount_accumulate; repeat split; lia. }
    destruct Hstep as (dp & dm & dg & Hp0 & Hm0 & Htot0 & Hle0 & Hdm).
    exists s', (dp + p), (dm + m), (dg + g). cbn [forOf].
    rewrite (bind_Ok _ _ _ _ _ Hrun).
    split; [exact Hloop |]. cbn [List.length]. repeat split; lia.
Qed.

(** X19. Once the seven source fields are open and the record list is not
    empty, [getSourceData] returns normally, whatever the cells hold and
    whichever reads fail. The last line it logs reports three numbers that
    are consistent with what it returns: the processed records, which are
    at least as many as the counts of the returned groups add up to; the
    records matching the month, which are at least as many as the
    processed ones and at most the whole list; and the number of groups. *)
Theorem getSourceData_returns_and_its_summary_agrees
  {L} sourceTable month (s s1 : Machine H L) fs recordIdList h2 :
  openSourceFields ops sourceTable s = (Ok fs, s1) ->
  table_getRecordIdList ops sourceTable (host s1) = (Ok (Some recordIdList), h2) ->
  recordIdList <> [] ->
  exists gd s' evs processed matched,
    getSourceData ops E sourceTable month s = (Ok gd, s') /\
    trace s' =
      trace s1 ++ evs ++
      [EvConsole LogLevel
         (summaryMessage processed matched (lengthOf (Obj.keys gd))) None] /\
    0 <= totalCount gd <= processed /\
    processed <= matched <= lengthOf recordIdList.
Proof.
  intros Hopen Hlist Hne.
  unfold getSourceData, tryCatch. rewrite (bind_Ok _ _ _ _ _ Hopen).
  unfold bind at 1. unfold getRecordIdList at 1, call. rewrite Hlist.
  destruct recordIdList as [| r0 rest]; [congruence |].
  set (rids := r0 :: rest) in *.
  unfold bind at 1, console_log at 1, emit. cbn -[rids aggregate].
  unfold withLocals. cbn -[rids aggregate].
  match goal with |- context [aggregate ops E fs month rids ?s0] =>
    destruct (forOf_processRecord_counters fs month rids s0)
      as (s2 & p & m & g & Hloop & Hp & Hm & Htot & Hle & Hlen);
    pose proof (emits_forOf (fun _ => True) rids (processRecord ops E fs month)
                  (fun x => processRecord_emits ops E _ fs month x
                              (fun _ _ _ => I) (fun _ _ _ => I)) s0) as Hem
  end.
  rewrite Hloop in Hem. destruct Hem as (evs & Htr & _).
  cbn [snd trace locals initialAggState processedRecordCount matchedRecordCount
       groupedData totalCount fold_right] in Htr, Hp, Hm, Htot.
  unfold aggregate. rewrite (bind_Ok _ _ _ _ _ Hloop).
  unfold bind at 1. cbn [getLocals]. unfold bind at 1, console_log at 1, emit.
  cbn [ret host trace locals].
  rewrite Z.add_0_l in Hp, Hm, Htot.
  match type of Htr with _ = (_ ++ [?e]) ++ _ =>
    exists (groupedData (locals s2)); eexists;
    exists ([EvGetRecordIdList sourceTable (Ok (Some rids)); e] ++ evs), p, m
  end.
  split; [reflexivity |]. split.
  - cbn [trace]. unfold summaryMessage. rewrite Htr, Hp, Hm, <- !app_assoc.
    reflexivity.
  - rewrite Htot. repeat split; lia.
Qed.

Lemma processRecord_counters_readable fs month recordId date cat (s : Machine H AggState) :
  (forall h, fst (field_getValue ops (outDateField fs) recordId h) = Ok date) ->
  (forall h, fst (field_getValue ops (productCategoryField fs) recordId h) = Ok cat) ->
  exists s',
    processRecord ops E fs month recordId s = (Ok tt, s') /\
    matchedRecordCount (locals s') =
      matchedRecordCount (locals s) + (if dateInMonth E month date then 1 else 0) /\
    processedRecordCount (locals s') =
      processedRecordCount (locals s) + (if contributes E month date cat then 1 else 0).
Proof.
  intros Hdate Hcat.
  destruct (processRecord_counters fs month recordId s) as (s' & Hrun & Hcount).
  exists s'. split; [exact Hrun |].
  specialize (Hdate (host s)).
  destruct (field_getValue ops (outDateField fs) recordId (host s)) as [rd h1].
  cbn in Hdate. subst rd. cbv zeta in Hcount.
  rewrite (Hcat h1) in Hcount. exact Hcount.
Qed.

(** X20. On a source table whose out-date and category cells can be read,
    the closing line of [getSourceData] reports, as processed, the records
    that have an out-date in the month and a non-empty category and, as
    matching the month, the records that have an out-date in the month,
    with or without a category. *)
Theorem summary_counts_the_records_of_the_month
  {L} sourceTable month (s s1 : Machine H L) fs recordIdList h2 dateOf catOf :
  openSourceFields ops sourceTable s = (Ok fs, s1) ->
  table_getRecordIdList ops sourceTable (host s1) = (Ok (Some recordIdList), h2) ->
  recordIdList <> [] ->
  Readable ops fs recordIdList dateOf catOf ->
  exists gd s' evs,
    getSourceData ops E sourceTable month s = (Ok gd, s') /\
    trace s' =
      trace s1 ++ evs ++
      [EvConsole LogLevel
         (summaryMessage
            (lengthOf (matchingRecords E month dateOf catOf recordIdList))
            (lengthOf (recordsInMonth E month dateOf recordIdList))
            (lengthOf (Obj.keys gd))) None].
Proof.
  intros Hopen Hlist Hne Hread.
  assert (Hloop : forall s0 : Machine H AggState,
            exists s2,
              forOf recordIdList (processRecord ops E fs month) s0 = (Ok tt, s2) /\
              processedRecordCount (locals s2) =
                processedRecordCount (locals s0) +
                lengthOf (matchingRecords E month dateOf catOf recordIdList) /\
              matchedRecordCount (locals s2) =
                matchedRecordCount (locals s0) +
                lengthOf (recordsInMonth E month dateOf recordIdList)).
  { clear Hopen Hlist Hne. unfold lengthOf.
    induction recordIdList as [| recordId rest IH]; intros s0.
    - exists s0. cbn. repeat split; lia.
    - destruct (processRecord_counters_readable fs month recordId
                  (dateOf recordId) (catOf recordId) s0) as (s3 & Hrun & Hm & Hp).
      { intros h. apply Hread. cbn. auto. }
      { intros h. apply Hread. cbn. auto. }
      destruct (IH (fun r Hin => Hread r (or_intror Hin)) s3) as (s2 & Hrest & Hp' & Hm').
      exists s2. cbn [forOf]. rewrite (bind_Ok _ _ _ _ _ Hrun).
      split; [exact Hrest |]. rewrite Hp', Hm', Hp, Hm.
      unfold matchingRecords, recordsInMonth. cbn [filter].
      destruct (contributes E month (dateOf recordId) (catOf recordId));
        destruct (dateInMonth E month (dateOf recordId)); cbn [List.length]; split; lia. }
  unfold getSourceData, tryCatch. rewrite (bind_Ok _ _ _ _ _ Hopen).
  unfold bind at 1. unfold getRecordIdList at 1, call. rewrite Hlist.
  destruct recordIdList as [| r0 rest]; [congruence |].
  set (rids := r0 :: rest) in *.
  unfold bind at 1, console_log at 1, emit. cbn -[rids aggregate].
  unfold withLocals. cbn -[rids aggregate].
  match goal with |- context [aggregate ops E fs month rids ?s0] =>
    destruct (Hloop s0) as (s2 & Hrun & Hp & Hm);
    pose proof (emits_forOf (fun _ => True) rids (processRecord ops E fs month)
                  (fun x => processRecord_emits ops E _ fs month x
                              (fun _ _ _ => I) (fun _ _ _ => I)) s0) as Hem
  end.
  rewrite Hrun in Hem. destruct Hem as (evs & Htr & _).
  cbn [snd trace locals initialAggState processedRecordCount matchedRecordCount]
    in Htr, Hp, Hm.
  unfold aggregate. rewrite (bind_Ok _ _ _ _ _ Hrun).
  unfold bind at 1. cbn [getLocals]. unfold bind at 1, console_log at 1, emit.
  cbn [ret host trace locals].
  rewrite Z.add_0_l in Hp, Hm.
  match type of Htr with _ = (_ ++ [?e]) ++ _ =>
    exists (groupedData (locals s2)); eexists;
    exists ([EvGetRecordIdList sourceTable (Ok (Some rids)); e] ++ evs)
  end.
  split; [reflexivity |].
  cbn [trace]. unfold summaryMessage. rewrite Htr, Hp, Hm, <- !app_assoc.
  reflexivity.
Qed.

End Counters.

Lemma getSourceData_returns_and_its_summary_agrees_witness :
  exists s1,
    openSourceFields (MemHost.ops cfgUnreadable) {| table_id := "tblSource" |}
      (MemHost.prepared cfgUnreadable 2) = (Ok MemHost.fields, s1) /\
    exists gd s' evs processed matched,
    getSourceData (MemHost.ops cfgUnreadable) MemHost.engine {| table_id := "tblSource" |} 2
      (MemHost.prepared cfgUnreadable 2) = (Ok gd, s') /\
    trace s' =
      trace s1 ++ evs ++
      [EvConsole LogLevel
         (summaryMessage processed matched (lengthOf (Obj.keys gd))) None] /\
    0 <= totalCount gd <= processed /\
    processed <= matched <= lengthOf ["r1"; "r2"].
Proof.
  eexists. split; [vm_compute; reflexivity |].
  eapply (getSourceData_returns_and_its_summary_agrees (MemHost.ops cfgUnreadable)
            MemHost.engine {| table_id := "tblSource" |} 2
            (MemHost.prepared cfgUnreadable 2) _ MemHost.fields).
  - vm_compute. reflexivity.
  - vm_compute. reflexivity.
  - discriminate.
Defined.

Lemma summary_counts_the_records_of_the_month_witness :
  exists s1,
    openSourceFields (MemHost.ops cfgA) {| table_id := "tblSource" |}
      (MemHost.prepared cfgA 2) = (Ok MemHost.fields, s1) /\
    exists gd s' evs,
    getSourceData (MemHost.ops cfgA) MemHost.engine {| table_id := "tblSource" |} 2
      (MemHost.prepared cfgA 2) = (Ok gd, s') /\
    trace s' =
      trace s1 ++ evs ++
      [EvConsole LogLevel
         (summaryMessage
            (lengthOf (matchingRecords MemHost.engine 2
                         (MemHost.cell cfgA "fDate") (MemHost.cell cfgA "fCategory")
                         ["r1"; "r2"; "r3"; "r4"; "r5"; "r6"]))
            (lengthOf (recordsInMonth MemHost.engine 2 (MemHost.cell cfgA "fDate")
                         ["r1"; "r2"; "r3"; "r4"; "r5"; "r6"]))
            (lengthOf (Obj.keys gd))) None].
Proof.
  eexists. split; [vm_compute; reflexivity |].
  eapply (summary_counts_the_records_of_the_month (MemHost.ops cfgA)
            MemHost.engine {| table_id := "tblSource" |} 2
            (MemHost.prepared cfgA 2) _ MemHost.fields).
  - vm_compute. reflexivity.
  - vm_compute. reflexivity.
  - discriminate.
  - apply MemHost_Readable. intros recordId Hin. cbn in Hin.
    repeat (destruct Hin as [<- | Hin]; [split; vm_compute; reflexivity |]).
    destruct Hin.
Defined.

(** February on the six records: three records are processed, four match
    the month (the one without category among them), in two groups. *)
Example february_summary :
  last (trace (snd (getSourceData (MemHost.ops cfgA) MemHost.engine
                      {| table_id := "tblSource" |} 2 (MemHost.prepared cfgA 2))))
       (EvConsole LogLevel "" None)
  = EvConsole LogLevel (summaryMessage 3 4 2) None.
Proof. vm_compute. reflexivity. Qed.
